(** * Engagement aggregation pipeline: a shallow embedding

    The scripts under [Engagement Calculate/] are embedded as functions on
    lists of rows:

    - [Processor]: [Engagement_data_1_processor.py], the tag-level table;
    - [Overall]: [Engagement_overall_processor.py], the category-level table;
    - [Signal]: the frequency recomputation of
      [strategic_signal_matrix_X.py] and
      [strategic_signal_matrix_truth_media.py].

    A pandas [int64] column is a [Z] with the wrap-around of numpy's
    addition written out ([Int64]); a Python [float] or numpy [float64] is
    an IEEE 754 binary64 value of the standard library's [SpecFloat]
    ([F64]); a missing cell (NaN in an object column) is [None]; a file
    that may be absent is an [option]; a function that can raise returns
    a [result]. *)

From Stdlib Require Import ZArith List String Ascii Bool Lia.
From Stdlib Require Import Sorting.Sorted Sorting.Permutation.
From Stdlib Require Import Floats.SpecFloat Numbers.DecimalString.
Import ListNotations.

Open Scope Z_scope.

(** ** numpy int64 arithmetic *)

Module Int64.

Definition modulus : Z := 2 ^ 64.
Definition half_modulus : Z := 2 ^ 63.

(** Two's complement reduction into [-2^63, 2^63). *)
Definition wrap (z : Z) : Z := (z + half_modulus) mod modulus - half_modulus.

Definition in_range (z : Z) : Prop := - half_modulus <= z < half_modulus.

(** [np.int64 + np.int64] *)
Definition add (a b : Z) : Z := wrap (a + b).

(** [Series.sum()] of an int64 column: the numpy reduction starts from 0
    and wraps silently. *)
Definition sum (l : list Z) : Z := fold_left add l 0.

End Int64.

(** ** binary64 arithmetic, rounding and formatting *)

Module F64.

Definition prec : Z := 53.
Definition emax : Z := 1024.

Definition float := spec_float.

Definition zero : float := S754_zero false.

(** Conversion of an integer to the nearest double (numpy's cast of an
    int64, Python's [float(int)]). *)
Definition of_int (z : Z) : float := binary_normalize prec emax z 0 false.

Definition add : float -> float -> float := SFadd prec emax.
Definition mul : float -> float -> float := SFmul prec emax.
Definition div : float -> float -> float := SFdiv prec emax.

(** [x > 0] *)
Definition gt0 (x : float) : bool := SFltb zero x.

(** Correctly rounded quotient of two integers, [b <> 0]: the dividend
    and the divisor enter the division with their full mantissa. *)
Definition div_int (a b : Z) : float :=
  match a with
  | Z0 => S754_zero (b <? 0)
  | _ => div (S754_finite (a <? 0) (Z.to_pos (Z.abs a)) 0)
             (S754_finite (b <? 0) (Z.to_pos (Z.abs b)) 0)
  end.

(** Quotient [num / den] of a non-negative by a positive integer rounded
    to the nearest integer, ties to even. *)
Definition round_half_even (num den : Z) : Z :=
  let q := num / den in
  let r := num mod den in
  match Z.compare (2 * r) den with
  | Lt => q
  | Gt => q + 1
  | Eq => if Z.even q then q else q + 1
  end.

(** [|m * 2^e| * 10^digits] rounded to the nearest integer, ties to even. *)
Definition scaled_magnitude (m : positive) (e : Z) (digits : Z) : Z :=
  round_half_even (Zpos m * 10 ^ digits * 2 ^ Z.max e 0) (2 ^ Z.max (- e) 0).

Definition signed (s : bool) (n : Z) : Z := if s then - n else n.

(** Python's [round(x, ndigits)] on a [float]: the exact value is rounded
    to [ndigits] decimals (ties to even) and the decimal is converted back
    to the nearest double. *)
Definition py_round_digits (x : float) (digits : Z) : float :=
  match x with
  | S754_finite s m e =>
      let n := scaled_magnitude m e digits in
      if n =? 0 then S754_zero s
      else div_int (signed s n) (10 ^ digits)
  | _ => x
  end.

(** Python's [round(x)] on a finite [float]: the nearest integer, ties to
    even.  (NaN and the infinities raise; [None] stands for that.) *)
Definition py_round (x : float) : option Z :=
  match x with
  | S754_zero _ => Some 0
  | S754_finite s m e => Some (signed s (scaled_magnitude m e 0))
  | _ => None
  end.

(** [np.rint] *)
Definition rint (x : float) : float :=
  match x with
  | S754_finite s m e =>
      let n := scaled_magnitude m e 0 in
      if n =? 0 then S754_zero s else of_int (signed s n)
  | _ => x
  end.

(** [round(x, 2)] on a [numpy.float64]: numpy multiplies by [10.0**2],
    applies [rint] and divides again. *)
Definition np_round2 (x : float) : float :=
  div (rint (mul x (of_int 100))) (of_int 100).

(** Decimal digits of a natural number. *)
Definition digits_of (n : Z) : string :=
  NilZero.string_of_uint (N.to_uint (Z.to_N n)).

(** Grouping of a digit string by thousands, from the right. *)
Fixpoint group_rev (l : list ascii) (k : nat) : list ascii :=
  match l with
  | [] => []
  | c :: l' =>
      match k with
      | O => ","%char :: c :: group_rev l' 2
      | S k' => c :: group_rev l' k'
      end
  end.

Definition thousands (digits : string) : string :=
  string_of_list_ascii
    (rev (group_rev (rev (list_ascii_of_string digits)) 3)).

Definition sign_string (s : bool) : string := if s then "-" else "".

(** [f"{n:,}"] on an integer. *)
Definition format_int_comma (n : Z) : string :=
  sign_string (n <? 0) ++ thousands (digits_of (Z.abs n)).

Definition pad2 (n : Z) : string :=
  if n <? 10 then "0" ++ digits_of n else digits_of n.

(** [f"{x:.2f}"] *)
Definition format_2f (x : float) : string :=
  match x with
  | S754_nan => "nan"
  | S754_infinity s => sign_string s ++ "inf"
  | S754_zero s => sign_string s ++ "0.00"
  | S754_finite s m e =>
      let n := scaled_magnitude m e 2 in
      sign_string s ++ digits_of (n / 100) ++ "." ++ pad2 (n mod 100)
  end.

(** [f"{x:,.0f}"] *)
Definition format_comma_0f (x : float) : string :=
  match x with
  | S754_nan => "nan"
  | S754_infinity s => sign_string s ++ "inf"
  | S754_zero s => sign_string s ++ "0"
  | S754_finite s m e =>
      sign_string s ++ thousands (digits_of (scaled_magnitude m e 0))
  end.

End F64.

(** ** Exceptions *)

Inductive exn : Type :=
| FileNotFoundError
| ZeroDivisionError
| IndexError
| KeyError
| ValueError
| OverflowError
| AttributeError.

Inductive result (A : Type) : Type :=
| Ok (a : A)
| Raise (e : exn).

Arguments Ok {A} a.
Arguments Raise {A} e.

Definition bind {A B : Type} (m : result A) (k : A -> result B) : result B :=
  match m with
  | Ok a => k a
  | Raise e => Raise e
  end.

Notation "x <- m ;; k" := (bind m (fun x => k))
  (at level 61, m at next level, right associativity).

Fixpoint mapM {A B : Type} (f : A -> result B) (l : list A) : result (list B) :=
  match l with
  | [] => Ok []
  | a :: l' => b <- f a ;; bs <- mapM f l' ;; Ok (b :: bs)
  end.

(** ** Python values *)

Module Py.

Definition len {A : Type} (l : list A) : Z := Z.of_nat (List.length l).

(** [s[0]] *)
Definition first_char (s : string) : result string :=
  match s with
  | EmptyString => Raise IndexError
  | String c _ => Ok (String c EmptyString)
  end.

(** [pat in s]: some suffix of [s] starts with [pat]. *)
Fixpoint contains (pat s : string) : bool :=
  prefix pat s ||
  match s with
  | EmptyString => false
  | String _ s' => contains pat s'
  end.

(** [a / b] on two [int]s *)
Definition truediv (a b : Z) : result F64.float :=
  if b =? 0 then Raise ZeroDivisionError else Ok (F64.div_int a b).

(** The numbers that reach [round(_, 2)]: [round] dispatches on the
    type of its argument. *)
Inductive num : Type :=
| Int (z : Z)
| Float (x : F64.float)
| NpFloat64 (x : F64.float).

Definition round2 (v : num) : num :=
  match v with
  | Int z => Int z
  | Float x => Float (F64.py_round_digits x 2)
  | NpFloat64 x => NpFloat64 (F64.np_round2 x)
  end.

(** The cell of a float64 column holding [v]. *)
Definition to_float64 (v : num) : F64.float :=
  match v with
  | Int z => F64.of_int z
  | Float x => x
  | NpFloat64 x => x
  end.

(** [v > 0] *)
Definition gt0 (v : num) : bool :=
  match v with
  | Int z => z >? 0
  | Float x => F64.gt0 x
  | NpFloat64 x => F64.gt0 x
  end.

(** [f"{v:.2f}"] and [f"{v:,.0f}"]: an [int] is formatted as the float
    of the same value. *)
Definition format_2f (v : num) : string := F64.format_2f (to_float64 v).
Definition format_comma_0f (v : num) : string :=
  F64.format_comma_0f (to_float64 v).

(** Order of [str] values: by code point, which on UTF-8 strings is the
    order of the bytes. *)
Definition str_compare : string -> string -> comparison := String.compare.

End Py.

(** ** [Engagement_data_1_processor.py] *)

Module Processor.

(** A row of the table that [pd.read_csv] makes of
    [Engagement_data_raw.csv].  The three counters are cells of int64
    columns; the other cells are strings or missing.  [Tag_id] is [None]
    for a cell that holds no string: an empty cell, or a number of a
    column that [pd.read_csv] read as numbers. *)
Record RawRecord : Type := {
  Tag_id : option string;
  Category_id : option string;
  Platform : option string;
  Likes : Z;
  Repost : Z;
  Replies : Z
}.

(** A row of [Engagement_data_processed.csv]. *)
Record TagRow : Type := {
  row_Tag_id : string;
  row_Category_id : string;
  Frequency_Count : Z;
  Frequency_Pct : F64.float;
  Total_Likes : Z;
  Total_Reposts : Z;
  Total_Comments : Z;
  Total_Engagement : Z;
  X_Total_Engagement : Z;
  Truth_Total_Engagement : Z;
  Average_Engagement : F64.float;
  X_Average_Engagement : F64.float;
  Truth_Average_Engagement : F64.float
}.

Definition all_expected_tags : list string :=
  [ "A1"; "A2"; "A3"; "A4"; "A5"; "A6";
    "B1"; "B2"; "B3"; "B4"; "B5"; "B6"; "B7"; "B8";
    "C1"; "C2"; "C3"; "C4"; "C5"; "C6"; "C7"; "C8" ]%string.

(** [df_raw['Tag_id'].str]: pandas gives the accessor for a column that
    holds strings, missing cells apart, and for the column of a table
    without any row.  A column with rows and no string among them was
    read as float64 or int64, and the accessor raises
    ("Can only use .str accessor with string values"). *)
Definition holds_string (cell : option string) : bool :=
  match cell with
  | Some _ => true
  | None => false
  end.

Definition str_accessor (column : list (option string)) : result unit :=
  match column with
  | [] => Ok tt
  | _ :: _ =>
      if existsb holds_string column then Ok tt else Raise AttributeError
  end.

(** The entry of [.str.contains(tag_id, na=False)] for one record: the
    pattern is searched as a regular expression; a taxonomy code has no
    metacharacter, so the search is a substring test.  A cell without a
    string gives [False]. *)
Definition tag_matches (tag_id : string) (r : RawRecord) : bool :=
  match Tag_id r with
  | Some s => Py.contains tag_id s
  | None => false
  end.

(** [df_raw['Tag_id'].str.contains(tag_id, na=False)]: the boolean mask
    with one entry for each record, once the accessor is there. *)
Definition str_contains (df_raw : list RawRecord) (tag_id : string)
  : result (list bool) :=
  accessor <- str_accessor (map Tag_id df_raw) ;;
  Ok (map (tag_matches tag_id) df_raw).

(** [df[mask]]: the rows whose entry of the mask is [True]. *)
Fixpoint select (df : list RawRecord) (mask : list bool) : list RawRecord :=
  match df, mask with
  | r :: df', b :: mask' =>
      if b then r :: select df' mask' else select df' mask'
  | _, _ => []
  end.

(** [data['Platform'] == p] *)
Definition on_platform (p : string) (r : RawRecord) : bool :=
  match Platform r with
  | Some q => String.eqb q p
  | None => false
  end.

(** [data[col].sum()] *)
Definition column_sum (col : RawRecord -> Z) (data : list RawRecord) : Z :=
  Int64.sum (map col data).

(** [data['Likes'].sum() + data['Repost'].sum() + data['Replies'].sum()] *)
Definition engagement_sum (data : list RawRecord) : Z :=
  Int64.add (Int64.add (column_sum Likes data) (column_sum Repost data))
            (column_sum Replies data).

(** The values computed in one iteration of the loop over the tags,
    before the rounding done when the row is appended. *)
Record Metrics : Type := {
  frequency_count : Z;
  frequency_percent : F64.float;
  total_likes : Z;
  total_reposts : Z;
  total_comments : Z;
  total_engagement : Z;
  x_total_engagement : Z;
  truth_total_engagement : Z;
  average_engagement : Py.num;
  x_average_engagement : Py.num;
  truth_average_engagement : Py.num
}.

(** The branch [len(tag_data) > 0], after the quotient
    [frequency_count / total_records]. *)
Definition metrics_of_data (q : F64.float) (tag_data : list RawRecord)
  : Metrics :=
  let frequency_count := Py.len tag_data in
  let frequency_percent := F64.mul q (F64.of_int 100) in
  let total_likes := column_sum Likes tag_data in
  let total_reposts := column_sum Repost tag_data in
  let total_comments := column_sum Replies tag_data in
  let total_engagement :=
    Int64.add (Int64.add total_likes total_reposts) total_comments in
  let x_data := filter (on_platform "X") tag_data in
  let x_total_engagement :=
    if Py.len x_data >? 0 then engagement_sum x_data else 0 in
  let truth_data := filter (on_platform "Truth Social") tag_data in
  let truth_total_engagement :=
    if Py.len truth_data >? 0 then engagement_sum truth_data else 0 in
  let average_engagement :=
    if frequency_count >? 0
    then Py.NpFloat64 (F64.div (F64.of_int total_engagement)
                               (F64.of_int frequency_count))
    else Py.Int 0 in
  let x_frequency_count :=
    if Py.len x_data >? 0 then Py.len x_data else 0 in
  let x_average_engagement :=
    if x_frequency_count >? 0
    then Py.NpFloat64 (F64.div (F64.of_int x_total_engagement)
                               (F64.of_int x_frequency_count))
    else Py.Int 0 in
  let truth_frequency_count :=
    if Py.len truth_data >? 0 then Py.len truth_data else 0 in
  let truth_average_engagement :=
    if truth_frequency_count >? 0
    then Py.NpFloat64 (F64.div (F64.of_int truth_total_engagement)
                               (F64.of_int truth_frequency_count))
    else Py.Int 0 in
  {| frequency_count := frequency_count;
     frequency_percent := frequency_percent;
     total_likes := total_likes;
     total_reposts := total_reposts;
     total_comments := total_comments;
     total_engagement := total_engagement;
     x_total_engagement := x_total_engagement;
     truth_total_engagement := truth_total_engagement;
     average_engagement := average_engagement;
     x_average_engagement := x_average_engagement;
     truth_average_engagement := truth_average_engagement |}.

(** The branch [len(tag_data) > 0]: the division of the two lengths is
    the one step that can raise. *)
Definition metrics_with_data (total_records : Z) (tag_data : list RawRecord)
  : result Metrics :=
  q <- Py.truediv (Py.len tag_data) total_records ;;
  Ok (metrics_of_data q tag_data).

(** The [else] branch: a tag with no data. *)
Definition metrics_no_data : Metrics :=
  {| frequency_count := 0;
     frequency_percent := F64.zero;
     total_likes := 0;
     total_reposts := 0;
     total_comments := 0;
     total_engagement := 0;
     x_total_engagement := 0;
     truth_total_engagement := 0;
     average_engagement := Py.Float F64.zero;
     x_average_engagement := Py.Float F64.zero;
     truth_average_engagement := Py.Float F64.zero |}.

(** The dictionary appended to [results]. *)
Definition make_row (tag_id category_id : string) (m : Metrics) : TagRow :=
  {| row_Tag_id := tag_id;
     row_Category_id := category_id;
     Frequency_Count := frequency_count m;
     Frequency_Pct := F64.py_round_digits (frequency_percent m) 2;
     Total_Likes := total_likes m;
     Total_Reposts := total_reposts m;
     Total_Comments := total_comments m;
     Total_Engagement := total_engagement m;
     X_Total_Engagement := x_total_engagement m;
     Truth_Total_Engagement := truth_total_engagement m;
     Average_Engagement := Py.to_float64 (Py.round2 (average_engagement m));
     X_Average_Engagement :=
       Py.to_float64 (Py.round2 (x_average_engagement m));
     Truth_Average_Engagement :=
       Py.to_float64 (Py.round2 (truth_average_engagement m)) |}.

(** The body of [for tag_id in all_expected_tags]. *)
Definition process_tag (df_raw : list RawRecord) (tag_id : string)
  : result TagRow :=
  let total_records := Py.len df_raw in
  category_id <- Py.first_char tag_id ;;
  mask <- str_contains df_raw tag_id ;;
  let tag_data := select df_raw mask in
  m <- (if Py.len tag_data >? 0
        then metrics_with_data total_records tag_data
        else Ok metrics_no_data) ;;
  Ok (make_row tag_id category_id m).

(** [sort_values(['Category_id', 'Tag_id'])]: the rows in ascending
    order of the pair of keys; rows with equal keys keep their order. *)
Definition key_leb (a b : TagRow) : bool :=
  match Py.str_compare (row_Category_id a) (row_Category_id b) with
  | Lt => true
  | Gt => false
  | Eq =>
      match Py.str_compare (row_Tag_id a) (row_Tag_id b) with
      | Gt => false
      | _ => true
      end
  end.

Fixpoint insert_row (r : TagRow) (l : list TagRow) : list TagRow :=
  match l with
  | [] => [r]
  | r' :: l' => if key_leb r r' then r :: l else r' :: insert_row r l'
  end.

Fixpoint sort_values (l : list TagRow) : list TagRow :=
  match l with
  | [] => []
  | r :: l' => insert_row r (sort_values l')
  end.

(** [load_and_process_data] from the loaded [df_raw] to the table that is
    written out and returned.  The first exception of the loop ends the
    run before anything is written. *)
Definition process_data (df_raw : list RawRecord) : result (list TagRow) :=
  results <- mapM (process_tag df_raw) all_expected_tags ;;
  Ok (sort_values results).

(** [load_and_process_data]: [pd.read_csv] raises when the file is
    absent. *)
Definition load_and_process_data (raw_file : option (list RawRecord))
  : result (list TagRow) :=
  match raw_file with
  | None => Raise FileNotFoundError
  | Some df_raw => process_data df_raw
  end.

(** The script's [__main__]: the content of
    [Engagement_data_processed.csv] after the run, if it was written.
    The exception is caught and printed; the file is written only inside
    [load_and_process_data]. *)
Definition main (raw_file : option (list RawRecord)) : option (list TagRow) :=
  match load_and_process_data raw_file with
  | Ok df_processed => Some df_processed
  | Raise _ => None
  end.

End Processor.

(** ** [Engagement_overall_processor.py] *)

Module Overall.

Import Processor.

(** A cell that holds an integer or a string. *)
Inductive cell : Type :=
| CInt (z : Z)
| CStr (s : string).

(** A row of [Engagement_overall_result.csv]. *)
Record CategoryRow : Type := {
  Category_ID : string;
  Category_Name : string;
  Platform_Name : string;
  Frequency_Count_Cell : cell;
  Frequency_Pct_Cell : string;
  Total_Engagement_Cell : string;
  Average_Engagement_Cell : string
}.

(** [load_processed_data]: [None] when the file is not found. *)
Definition load_processed_data (processed_file : option (list TagRow))
  : option (list TagRow) :=
  processed_file.

(** [df_raw.groupby(['Category_id', 'Platform']).size().unstack(fill_value=0)]:
    the table is kept as the list of group keys, one per raw row that
    has both keys; its index holds the categories that occur, its
    columns the platforms that occur, and a cell counts the rows of its
    pair. *)
Definition PlatformStats : Type := list (string * string).

Definition group_keys (df_raw : list RawRecord) : PlatformStats :=
  flat_map (fun r =>
              match Category_id r, Platform r with
              | Some c, Some p => [(c, p)]
              | _, _ => []
              end) df_raw.

(** [p in platform_stats.columns] *)
Definition in_columns (p : string) (stats : PlatformStats) : bool :=
  existsb (fun k => String.eqb (snd k) p) stats.

(** [c in platform_stats.index] *)
Definition in_index (c : string) (stats : PlatformStats) : bool :=
  existsb (fun k => String.eqb (fst k) c) stats.

(** [platform_stats.loc[c, p]] for a present row and column *)
Definition loc (c p : string) (stats : PlatformStats) : Z :=
  Py.len (filter (fun k => String.eqb (fst k) c && String.eqb (snd k) p) stats).

(** [load_raw_data]: [None] when the raw file is not found. *)
Definition load_raw_data (raw_file : option (list RawRecord))
  : option PlatformStats :=
  match raw_file with
  | Some df_raw => Some (group_keys df_raw)
  | None => None
  end.

Definition category_names : list (string * string) :=
  [ ("A", "Subjugating the Bureaucracy");
    ("B", "Waging Culture Wars");
    ("C", "Remaking Power Structures") ]%string.

(** [category_names[category]] *)
Fixpoint dict_get (d : list (string * string)) (k : string) : result string :=
  match d with
  | [] => Raise KeyError
  | (k', v) :: d' => if String.eqb k' k then Ok v else dict_get d' k
  end.

(** [df[col].sum()] *)
Definition column_sum (col : TagRow -> Z) (df : list TagRow) : Z :=
  Int64.sum (map col df).

(** [total / frequency if frequency > 0 else 0] *)
Definition average_or_zero (total frequency : Z) : Py.num :=
  if frequency >? 0
  then Py.NpFloat64 (F64.div (F64.of_int total) (F64.of_int frequency))
  else Py.Int 0.

(** [(frequency / total_posts) * 100 if total_posts > 0 else 0] *)
Definition percent_or_zero (frequency total_posts : Z) : Py.num :=
  if total_posts >? 0
  then Py.NpFloat64 (F64.mul (F64.div (F64.of_int frequency)
                                      (F64.of_int total_posts))
                             (F64.of_int 100))
  else Py.Int 0.

(** The frequency of a category on one platform: the count of the raw
    data when the table was loaded and has the platform's column, else
    the number of the category's tags with engagement there. *)
Definition platform_frequency (platform_stats : option PlatformStats)
    (platform category : string) (col : TagRow -> Z)
    (category_data : list TagRow) : Z :=
  match platform_stats with
  | Some stats =>
      if in_columns platform stats
      then (if in_index category stats then loc category platform stats else 0)
      else Py.len (filter (fun r => col r >? 0) category_data)
  | None => Py.len (filter (fun r => col r >? 0) category_data)
  end.

Definition combined_row (category name : string)
    (combined_frequency combined_total_engagement : Z)
    (combined_frequency_pct combined_avg_engagement : Py.num) : CategoryRow :=
  {| Category_ID := category;
     Category_Name := name;
     Platform_Name := "Combined";
     Frequency_Count_Cell := CInt combined_frequency;
     Frequency_Pct_Cell := Py.format_2f combined_frequency_pct ++ "%";
     Total_Engagement_Cell := F64.format_int_comma combined_total_engagement;
     Average_Engagement_Cell := Py.format_comma_0f combined_avg_engagement |}.

(** The row of one platform; every field is guarded by its own value. *)
Definition platform_row (category name platform : string)
    (frequency total_engagement : Z)
    (frequency_pct avg_engagement : Py.num) : CategoryRow :=
  {| Category_ID := category;
     Category_Name := name;
     Platform_Name := platform;
     Frequency_Count_Cell :=
       if frequency >? 0 then CInt frequency else CStr "";
     Frequency_Pct_Cell :=
       if frequency >? 0 then Py.format_2f frequency_pct ++ "%" else "";
     Total_Engagement_Cell :=
       if total_engagement >? 0
       then F64.format_int_comma total_engagement else "";
     Average_Engagement_Cell :=
       if Py.gt0 avg_engagement
       then Py.format_comma_0f avg_engagement else "" |}.

(** The three rows appended in one iteration of
    [for category in ['A', 'B', 'C']], given the category's name. *)
Definition rows_of_category (platform_stats : option PlatformStats)
    (df : list TagRow) (total_posts : Z) (category name : string)
  : list CategoryRow :=
  let category_data :=
    filter (fun r => String.eqb (row_Category_id r) category) df in
  let combined_frequency := column_sum Frequency_Count category_data in
  let combined_total_engagement := column_sum Total_Engagement category_data in
  let combined_avg_engagement :=
    average_or_zero combined_total_engagement combined_frequency in
  let combined_frequency_pct := percent_or_zero combined_frequency total_posts in
  let x_frequency :=
    platform_frequency platform_stats "X" category
                       X_Total_Engagement category_data in
  let x_total_engagement := column_sum X_Total_Engagement category_data in
  let x_avg_engagement := average_or_zero x_total_engagement x_frequency in
  let x_frequency_pct := percent_or_zero x_frequency total_posts in
  let truth_frequency :=
    platform_frequency platform_stats "Truth Social" category
                       Truth_Total_Engagement category_data in
  let truth_total_engagement :=
    column_sum Truth_Total_Engagement category_data in
  let truth_avg_engagement :=
    average_or_zero truth_total_engagement truth_frequency in
  let truth_frequency_pct := percent_or_zero truth_frequency total_posts in
  [ combined_row category name combined_frequency
                 combined_total_engagement
                 combined_frequency_pct combined_avg_engagement;
    platform_row category name "X" x_frequency x_total_engagement
                 x_frequency_pct x_avg_engagement;
    platform_row category name "Truth Social" truth_frequency
                 truth_total_engagement
                 truth_frequency_pct truth_avg_engagement ].

(** One iteration of the loop: the lookup of the name can raise. *)
Definition category_rows (platform_stats : option PlatformStats)
    (df : list TagRow) (total_posts : Z) (category : string)
  : result (list CategoryRow) :=
  name <- dict_get category_names category ;;
  Ok (rows_of_category platform_stats df total_posts category name).

Definition total_row (df : list TagRow) (total_posts : Z) : CategoryRow :=
  let total_engagement := column_sum Total_Engagement df in
  let total_avg_engagement := average_or_zero total_engagement total_posts in
  {| Category_ID := "TOTAL";
     Category_Name := "All Categories";
     Platform_Name := "Combined";
     Frequency_Count_Cell := CInt total_posts;
     Frequency_Pct_Cell := "100%";
     Total_Engagement_Cell := F64.format_int_comma total_engagement;
     Average_Engagement_Cell := Py.format_comma_0f total_avg_engagement |}.

(** [calculate_category_stats(df)]; the raw file it loads is an
    argument. *)
Definition calculate_category_stats (raw_file : option (list RawRecord))
    (df : list TagRow) : result (list CategoryRow) :=
  let platform_stats := load_raw_data raw_file in
  let total_posts := column_sum Frequency_Count df in
  per_category <-
    mapM (category_rows platform_stats df total_posts) ["A"; "B"; "C"]%string ;;
  Ok (List.concat per_category ++ [total_row df total_posts])%list.

(** [main]: the content of [Engagement_overall_result.csv] after the
    run, if it was written. *)
Definition main (raw_file : option (list RawRecord))
    (processed_file : option (list TagRow)) : option (list CategoryRow) :=
  match load_processed_data processed_file with
  | None => None
  | Some df =>
      match calculate_category_stats raw_file df with
      | Ok results => Some results
      | Raise _ => None
      end
  end.

End Overall.

(** ** [strategic_signal_matrix_X.py], [strategic_signal_matrix_truth_media.py] *)

Module Signal.

Import Processor.

(** A row of the data frame after the two columns were added. *)
Record FreqRow : Type := {
  source_row : TagRow;
  Frequency_Count_Col : Z;
  Frequency_Percent_Col : F64.float
}.

(** [round(x)]; it raises on a NaN and on an infinity. *)
Definition round_int (x : F64.float) : result Z :=
  match F64.py_round x with
  | Some n => Ok n
  | None =>
      match x with
      | S754_nan => Raise ValueError
      | _ => Raise OverflowError
      end
  end.

Section Platform.

(** The columns [<P>_Total_Engagement] and [<P>_Average_Engagement]
    of the platform. *)
Variable total_col : TagRow -> Z.
Variable average_col : TagRow -> F64.float.

(** The first loop: the count of each row, and the total, which is
    accumulated from the quotients before they are rounded.  The total
    starts from the integer 0; as a float that is [+0.0], and adding a
    float to either gives the same float. *)
Fixpoint count_loop (rows : list TagRow) (total_posts : F64.float)
  : result (list Z * F64.float) :=
  match rows with
  | [] => Ok ([], total_posts)
  | row :: rows' =>
      if F64.gt0 (average_col row)
      then
        let freq_count :=
          if F64.gt0 (average_col row)
          then F64.div (F64.of_int (total_col row)) (average_col row)
          else F64.zero in
        n <- round_int freq_count ;;
        rest <- count_loop rows' (F64.add total_posts freq_count) ;;
        Ok (n :: fst rest, snd rest)
      else
        rest <- count_loop rows' total_posts ;;
        Ok (0 :: fst rest, snd rest)
  end.

(** The second loop: the percentage of one row. *)
Definition percent_of (total_posts : F64.float) (count : Z) : F64.float :=
  if F64.gt0 total_posts
  then F64.mul (F64.div (F64.of_int count) total_posts) (F64.of_int 100)
  else F64.zero.

Definition add_columns (total_posts : F64.float) (row : TagRow) (count : Z)
  : FreqRow :=
  {| source_row := row;
     Frequency_Count_Col := count;
     Frequency_Percent_Col := percent_of total_posts count |}.

Fixpoint zip_with {A B C : Type} (f : A -> B -> C)
    (l : list A) (l' : list B) : list C :=
  match l, l' with
  | a :: t, b :: t' => f a b :: zip_with f t t'
  | _, _ => []
  end.

Definition calculate_frequency_percentage (df : list TagRow)
  : result (list FreqRow * F64.float) :=
  counted <- count_loop df F64.zero ;;
  let total_posts := snd counted in
  Ok (zip_with (add_columns total_posts) df (fst counted), total_posts).

End Platform.

(** [calculate_x_frequency_percentage(df)] *)
Definition calculate_x_frequency_percentage
  : list TagRow -> result (list FreqRow * F64.float) :=
  calculate_frequency_percentage X_Total_Engagement X_Average_Engagement.

(** [calculate_truth_frequency_percentage(df)] *)
Definition calculate_truth_frequency_percentage
  : list TagRow -> result (list FreqRow * F64.float) :=
  calculate_frequency_percentage Truth_Total_Engagement
                                 Truth_Average_Engagement.

End Signal.

(** ** Notions used to state the properties *)

Module Spec.

Import Processor.

(** [pat] occurs in [s]. *)
Definition is_substring (pat s : string) : Prop :=
  exists pre post : string, s = (pre ++ pat ++ post)%string.

(** The record's tag field contains the taxonomy code. *)
Definition mentions (tag_id : string) (r : RawRecord) : Prop :=
  exists s : string, Tag_id r = Some s /\ is_substring tag_id s.

(** [count_of P l n]: exactly [n] entries of [l], with their
    multiplicity, satisfy [P]. *)
Inductive count_of {A : Type} (P : A -> Prop) : list A -> nat -> Prop :=
| count_nil : count_of P [] 0
| count_hit a l n : P a -> count_of P l n -> count_of P (a :: l) (S n)
| count_miss a l n : ~ P a -> count_of P l n -> count_of P (a :: l) n.

(** Sum of a list of integers, without wrap-around. *)
Definition total (l : list Z) : Z := fold_right Z.add 0 l.

(** A row whose numeric fields are all zero. *)
Definition all_zero (row : TagRow) : Prop :=
  Frequency_Count row = 0 /\
  Frequency_Pct row = F64.zero /\
  Total_Likes row = 0 /\
  Total_Reposts row = 0 /\
  Total_Comments row = 0 /\
  Total_Engagement row = 0 /\
  X_Total_Engagement row = 0 /\
  Truth_Total_Engagement row = 0 /\
  Average_Engagement row = F64.zero /\
  X_Average_Engagement row = F64.zero /\
  Truth_Average_Engagement row = F64.zero.

(** The sort key of a row and the strict order of the keys: by
    category, then by tag. *)
Definition key (row : TagRow) : string * string :=
  (row_Category_id row, row_Tag_id row).

Definition key_lt (a b : string * string) : Prop :=
  Py.str_compare (fst a) (fst b) = Lt \/
  (fst a = fst b /\ Py.str_compare (snd a) (snd b) = Lt).

Definition key_ltb (a b : string * string) : bool :=
  match Py.str_compare (fst a) (fst b) with
  | Lt => true
  | Gt => false
  | Eq =>
      match Py.str_compare (snd a) (snd b) with
      | Lt => true
      | _ => false
      end
  end.

Fixpoint strictly_sortedb (l : list (string * string)) : bool :=
  match l with
  | [] => true
  | a :: l' => forallb (key_ltb a) l' && strictly_sortedb l'
  end.

(** The exact value of a finite double is
    [exact_num x / exact_den x]. *)
Definition exact_num (x : F64.float) : Z :=
  match x with
  | S754_finite s m e => F64.signed s (Zpos m * 2 ^ Z.max e 0)
  | _ => 0
  end.

Definition exact_den (x : F64.float) : Z :=
  match x with
  | S754_finite _ _ e => 2 ^ Z.max (- e) 0
  | _ => 1
  end.

(** [n] is an integer nearest to the value of [x]: their distance is
    at most one half. *)
Definition nearest_integer (x : F64.float) (n : Z) : Prop :=
  2 * Z.abs (exact_num x - n * exact_den x) <= exact_den x.

(** [n / 100] is the decimal with two places nearest to the value of
    [x]: the distance of [n] to [100 * x] is at most one half, and [n] is
    even when it is one half. *)
Definition nearest_hundredth (x : F64.float) (n : Z) : Prop :=
  2 * Z.abs (100 * exact_num x - n * exact_den x) <= exact_den x /\
  (2 * Z.abs (100 * exact_num x - n * exact_den x) = exact_den x ->
   Z.even n = true).

(** [y] is [x] rounded to two decimal places: the double nearest to
    the decimal [n / 100] nearest to [x] (a zero keeps the sign of [x]);
    zeros, infinities and NaN are left as they are. *)
Definition rounded_to_2_decimals (x y : F64.float) : Prop :=
  match x with
  | S754_finite s _ _ =>
      exists n : Z,
        nearest_hundredth x n /\
        y = if n =? 0 then S754_zero s else F64.div_int n 100
  | _ => y = x
  end.

(** The category of a taxonomy code: its first character. *)
Definition category_of (tag_id : string) : string :=
  match tag_id with
  | EmptyString => EmptyString
  | String c _ => String c EmptyString
  end.

(** The metrics of a tag, and its row. *)
Definition tag_metrics (df_raw : list RawRecord) (tag_id : string) : Metrics :=
  let tag_data := filter (tag_matches tag_id) df_raw in
  if Py.len tag_data >? 0
  then metrics_of_data (F64.div_int (Py.len tag_data) (Py.len df_raw)) tag_data
  else metrics_no_data.

Definition tag_row (df_raw : list RawRecord) (tag_id : string) : TagRow :=
  make_row tag_id (category_of tag_id) (tag_metrics df_raw tag_id).

(** The Tag_id column is a column of text: the table has no record, or
    one of its records has a string as its tag field. *)
Definition tag_column_is_text (df_raw : list RawRecord) : bool :=
  match df_raw with
  | [] => true
  | _ :: _ =>
      existsb (fun r => match Tag_id r with Some _ => true | None => false end)
              df_raw
  end.

(** Every record is on one of the two platforms. *)
Definition two_platforms (data : list RawRecord) : Prop :=
  forall r, In r data ->
    Platform r = Some "X"%string \/ Platform r = Some "Truth Social"%string.

(** Every record's tag field contains exactly one taxonomy code. *)
Definition one_code_each (df_raw : list RawRecord) : Prop :=
  forall r, In r df_raw ->
    List.length (filter (fun t => tag_matches t r) all_expected_tags) = 1%nat.

(** The order decided by [key_leb]. *)
Definition key_le (a b : TagRow) : Prop := key_leb a b = true.

End Spec.

Module OverallSpec.

Import Processor Overall.

(** The estimate used without the raw file: the number of the
    category's tag rows with engagement on the platform. *)
Definition estimated_frequency (col : TagRow -> Z) (category : string)
    (df : list TagRow) : Z :=
  Py.len (filter (fun r => col r >? 0)
                 (filter (fun r => String.eqb (row_Category_id r) category) df)).

(** The column of the processed table that belongs to a platform row. *)
Definition engagement_column (platform : string) : TagRow -> Z :=
  if String.eqb platform "X" then X_Total_Engagement
  else Truth_Total_Engagement.

(** The name of a category of the loop. *)
Definition name_of (category : string) : string :=
  match dict_get category_names category with
  | Ok name => name
  | Raise _ => EmptyString
  end.

End OverallSpec.

(** ** Sample inputs *)

Module Samples.

Import Processor.

(** A raw row with all its cells present. *)
Definition post (tag_id category_id platform : string)
    (likes reposts replies : Z) : RawRecord :=
  {| Tag_id := Some tag_id;
     Category_id := Some category_id;
     Platform := Some platform;
     Likes := likes;
     Repost := reposts;
     Replies := replies |}.

(** Three posts on X: two tagged A1, one tagged B2. *)
Definition three_posts : list RawRecord :=
  [ post "A1" "A" "X" 10 1 0;
    post "A1" "A" "X" 20 2 1;
    post "B2" "B" "X" 5 0 1 ].

(** Three posts tagged A1 with one like in all. *)
Definition one_like_in_three : list RawRecord :=
  [ post "A1" "A" "X" 1 0 0;
    post "A1" "A" "X" 0 0 0;
    post "A1" "A" "X" 0 0 0 ].

(** Three posts tagged A1 with ten likes in all, and one tagged B2. *)
Definition ten_likes_in_three : list RawRecord :=
  [ post "A1" "A" "X" 10 0 0;
    post "A1" "A" "X" 0 0 0;
    post "A1" "A" "X" 0 0 0;
    post "B2" "B" "X" 5 0 1 ].

(** One post that carries two codes in its tag field. *)
Definition two_codes : list RawRecord :=
  [ post "A1,B2" "A" "X" 5 0 0 ].

(** One post without any engagement. *)
Definition silent_post : list RawRecord :=
  [ post "A1" "A" "X" 0 0 0 ].

(** One post whose tag field is empty. *)
Definition untagged_post : list RawRecord :=
  [ {| Tag_id := None;
       Category_id := Some "A"%string;
       Platform := Some "X"%string;
       Likes := 9;
       Repost := 9;
       Replies := 9 |} ].

(** Posts on both platforms. *)
Definition both_platforms : list RawRecord :=
  [ post "A1" "A" "X" 10 1 0;
    post "A1" "A" "Truth Social" 7 2 1;
    post "C3" "C" "Truth Social" 4 0 0 ].

End Samples.

(** ** The derived frequencies *)

Module SignalSpec.

Import Processor Signal.

Inductive platform : Type := OnX | OnTruth.

Definition total_of (p : platform) : TagRow -> Z :=
  match p with
  | OnX => X_Total_Engagement
  | OnTruth => Truth_Total_Engagement
  end.

Definition average_of (p : platform) : TagRow -> F64.float :=
  match p with
  | OnX => X_Average_Engagement
  | OnTruth => Truth_Average_Engagement
  end.

(** The function of either script. *)
Definition calculate (p : platform)
  : list TagRow -> result (list FreqRow * F64.float) :=
  match p with
  | OnX => calculate_x_frequency_percentage
  | OnTruth => calculate_truth_frequency_percentage
  end.

(** Total engagement / average engagement of a row, in binary64. *)
Definition quotient (p : platform) (row : TagRow) : F64.float :=
  F64.div (F64.of_int (total_of p row)) (average_of p row).

(** The derived total post count: the sum, in the order of the rows, of
    the quotients of the rows with a positive average. *)
Definition derived_total (p : platform) (df : list TagRow) : F64.float :=
  fold_left (fun t row =>
               if F64.gt0 (average_of p row) then F64.add t (quotient p row)
               else t) df F64.zero.

(** What a row of the result holds. *)
Definition derived_row (p : platform) (total_posts : F64.float)
    (row : TagRow) (out : FreqRow) : Prop :=
  source_row out = row /\
  (if F64.gt0 (average_of p row)
   then F64.py_round (quotient p row) = Some (Frequency_Count_Col out) /\
        Spec.nearest_integer (quotient p row) (Frequency_Count_Col out)
   else Frequency_Count_Col out = 0) /\
  Frequency_Percent_Col out
  = if F64.gt0 total_posts
    then F64.mul (F64.div (F64.of_int (Frequency_Count_Col out)) total_posts)
                 (F64.of_int 100)
    else F64.zero.

(** Three rows of a processed table: A1 with an average of 3.33 over
    three posts on X, B2 with one post on X, C3 without any. *)
Definition sample_table : list TagRow :=
  map (Spec.tag_row Samples.ten_likes_in_three) ["A1"; "B2"; "C3"]%string.

End SignalSpec.

(** ** The row of a tag as a function of its selection *)

Module RowSpec.

Import Processor.

(** [round(total / n, 2)] for a positive [n], else 0. *)
Definition average_cell (total n : Z) : F64.float :=
  if n >? 0
  then F64.np_round2 (F64.div (F64.of_int total) (F64.of_int n))
  else F64.zero.

(** [round((count / total_records) * 100, 2)] for a positive count,
    else 0. *)
Definition percent_cell (count total_records : Z) : F64.float :=
  if count >? 0
  then F64.py_round_digits
         (F64.mul (F64.div_int count total_records) (F64.of_int 100)) 2
  else F64.zero.

(** The row of a tag, from the records selected for it and the number
    of all records. *)
Definition selection_row (tag_id : string) (total_records : Z)
    (tag_data : list RawRecord) : TagRow :=
  let x_data := filter (on_platform "X") tag_data in
  let truth_data := filter (on_platform "Truth Social") tag_data in
  {| row_Tag_id := tag_id;
     row_Category_id := Spec.category_of tag_id;
     Frequency_Count := Py.len tag_data;
     Frequency_Pct := percent_cell (Py.len tag_data) total_records;
     Total_Likes := column_sum Likes tag_data;
     Total_Reposts := column_sum Repost tag_data;
     Total_Comments := column_sum Replies tag_data;
     Total_Engagement := engagement_sum tag_data;
     X_Total_Engagement := engagement_sum x_data;
     Truth_Total_Engagement := engagement_sum truth_data;
     Average_Engagement :=
       average_cell (engagement_sum tag_data) (Py.len tag_data);
     X_Average_Engagement :=
       average_cell (engagement_sum x_data) (Py.len x_data);
     Truth_Average_Engagement :=
       average_cell (engagement_sum truth_data) (Py.len truth_data) |}.

(** The record's tag field contains no taxonomy code (or is missing). *)
Definition no_code (r : RawRecord) : Prop :=
  forall t, In t all_expected_tags -> tag_matches t r = false.

(** Two rows that agree on every field but the percentage. *)
Definition same_but_percent (a b : TagRow) : Prop :=
  row_Tag_id a = row_Tag_id b /\
  row_Category_id a = row_Category_id b /\
  Frequency_Count a = Frequency_Count b /\
  Total_Likes a = Total_Likes b /\
  Total_Reposts a = Total_Reposts b /\
  Total_Comments a = Total_Comments b /\
  Total_Engagement a = Total_Engagement b /\
  X_Total_Engagement a = X_Total_Engagement b /\
  Truth_Total_Engagement a = Truth_Total_Engagement b /\
  Average_Engagement a = Average_Engagement b /\
  X_Average_Engagement a = X_Average_Engagement b /\
  Truth_Average_Engagement a = Truth_Average_Engagement b.

(** The counts and totals of two batches added up (int64 for the
    totals). *)
Definition sums_of (ab a b : TagRow) : Prop :=
  Frequency_Count ab = Frequency_Count a + Frequency_Count b /\
  Total_Likes ab = Int64.add (Total_Likes a) (Total_Likes b) /\
  Total_Reposts ab = Int64.add (Total_Reposts a) (Total_Reposts b) /\
  Total_Comments ab = Int64.add (Total_Comments a) (Total_Comments b) /\
  Total_Engagement ab = Int64.add (Total_Engagement a) (Total_Engagement b) /\
  X_Total_Engagement ab
  = Int64.add (X_Total_Engagement a) (X_Total_Engagement b) /\
  Truth_Total_Engagement ab
  = Int64.add (Truth_Total_Engagement a) (Truth_Total_Engagement b).

(** The records selected for a tag on a platform. *)
Definition platform_data (df_raw : list RawRecord) (tag_id platform : string)
  : list RawRecord :=
  filter (on_platform platform) (filter (tag_matches tag_id) df_raw).

End RowSpec.

(** ** Categories and platforms of the category-level table *)

Module RollupSpec.

Import Processor Overall.

(** Every tag row belongs to one of the three categories of the loop. *)
Definition known_categories (df : list TagRow) : Prop :=
  forall row, In row df ->
    row_Category_id row = "A"%string \/ row_Category_id row = "B"%string \/
    row_Category_id row = "C"%string.

(** The raw record is filed under the category and is on the platform. *)
Definition filed_under (category platform : string) (r : RawRecord) : Prop :=
  Category_id r = Some category /\ Platform r = Some platform.

(** The test of [filed_under]. *)
Definition filed_underb (category platform : string) (r : RawRecord) : bool :=
  match Category_id r, Platform r with
  | Some c, Some p => String.eqb c category && String.eqb p platform
  | _, _ => false
  end.

(** The cell of a platform frequency: empty when not positive. *)
Definition frequency_cell (n : Z) : cell :=
  if n >? 0 then CInt n else CStr "".

(** The tag rows of one category. *)
Definition of_category (category : string) (df : list TagRow) : list TagRow :=
  filter (fun r => String.eqb (row_Category_id r) category) df.

End RollupSpec.

(** ** Loading the processed table in the signal-matrix scripts *)

Module SignalLoad.

Import Processor Signal SignalSpec.

(** An absolute path, as the list of its components from the root. *)
Definition path : Type := list string.

(** [p / name] and [p.parent] (the parent of the root is the root). *)
Definition join (p : path) (name : string) : path := (p ++ [name])%list.
Definition parent (p : path) : path := removelast p.

(** What a path leads to: a directory, or a file that [pd.read_csv]
    reads as the given table. *)
Inductive entry : Type :=
| Directory
| CsvFile (df : list TagRow).

Definition file_system : Type := path -> option entry.

(** [path.exists()], [os.path.exists(file_path)] *)
Definition path_exists (fs : file_system) (p : path) : bool :=
  match fs p with
  | Some _ => true
  | None => false
  end.

Definition possible_paths (script_dir current_dir : path) : list path :=
  [ join script_dir "Engagement_data_processed.csv";
    join current_dir "Engagement_data_processed.csv";
    join (join current_dir "Engagement Calculate")
         "Engagement_data_processed.csv";
    join (parent script_dir) "Engagement_data_processed.csv" ].

(** [find_data_file()]: the first candidate that exists. *)
Definition find_data_file (fs : file_system) (script_dir current_dir : path)
  : option path :=
  find (path_exists fs) (possible_paths script_dir current_dir).

(** [load_and_process_data(file_path)] of the X and of the Truth Social
    script.  Every exception is caught and gives [None]: reading a
    directory, a [round] that raises, and the lookup of the percentage
    column for the message, a column that an empty table never got. *)
Definition load_and_process_data (p : platform) (fs : file_system)
    (script_dir current_dir : path) (file_path : option path)
  : option (list FreqRow) :=
  let resolved :=
    match file_path with
    | None => find_data_file fs script_dir current_dir
    | Some given => Some given
    end in
  match resolved with
  | None => None
  | Some file_path =>
      if path_exists fs file_path
      then
        match fs file_path with
        | Some (CsvFile df) =>
            let df_filtered :=
              filter (fun row => F64.gt0 (average_of p row)) df in
            match calculate p df_filtered with
            | Ok (df_out, total_posts) =>
                match df_out with
                | [] => None
                | _ :: _ => Some df_out
                end
            | Raise _ => None
            end
        | _ => None
        end
      else None
  end.

(** What a loaded row holds. *)
Definition loaded_row (p : platform) (total_posts : F64.float)
    (out : FreqRow) : Prop :=
  F64.gt0 (average_of p (source_row out)) = true /\
  F64.py_round (quotient p (source_row out)) = Some (Frequency_Count_Col out) /\
  Spec.nearest_integer (quotient p (source_row out)) (Frequency_Count_Col out) /\
  Frequency_Percent_Col out
  = if F64.gt0 total_posts
    then F64.mul (F64.div (F64.of_int (Frequency_Count_Col out)) total_posts)
                 (F64.of_int 100)
    else F64.zero.

(** A file system with the sample table in the script directory. *)
Definition sample_fs : file_system :=
  fun p =>
    if list_eq_dec string_dec p
         ["repo"; "Engagement Calculate"; "Engagement_data_processed.csv"]%string
    then Some (CsvFile sample_table)
    else if list_eq_dec string_dec p ["repo"; "Engagement Calculate"]%string
    then Some Directory
    else None.

End SignalLoad.

(** ** The quadrants of the signal matrix *)

Module Quadrants.

(** [x >= y] and [x < y] on floats; both are false on a NaN. *)
Definition ge (x y : F64.float) : bool := SFleb y x.
Definition lt (x y : F64.float) : bool := SFltb x y.

Record quadrants (A : Type) : Type := {
  core_strategic : list A;
  high_efficiency : list A;
  strong_push : list A;
  marginal : list A
}.

Arguments core_strategic {A} q.
Arguments high_efficiency {A} q.
Arguments strong_push {A} q.
Arguments marginal {A} q.

(** The four selections of [create_detailed_analysis], for the two
    columns of the script and the two baselines that
    [calculate_baselines] returned. *)
Definition classify {A : Type} (frequency engagement : A -> F64.float)
    (baselines : F64.float * F64.float) (df : list A) : quadrants A :=
  let avg_frequency := fst baselines in
  let base_engagement := snd baselines in
  {| core_strategic :=
       filter (fun row => ge (frequency row) avg_frequency
                          && ge (engagement row) base_engagement) df;
     high_efficiency :=
       filter (fun row => lt (frequency row) avg_frequency
                          && ge (engagement row) base_engagement) df;
     strong_push :=
       filter (fun row => ge (frequency row) avg_frequency
                          && lt (engagement row) base_engagement) df;
     marginal :=
       filter (fun row => lt (frequency row) avg_frequency
                          && lt (engagement row) base_engagement) df |}.

(** The selections of the X, the Truth Social and the overall script. *)
Definition x_quadrants
  : F64.float * F64.float -> list Signal.FreqRow -> quadrants Signal.FreqRow :=
  classify Signal.Frequency_Percent_Col
           (fun row => Processor.X_Average_Engagement (Signal.source_row row)).

Definition truth_quadrants
  : F64.float * F64.float -> list Signal.FreqRow -> quadrants Signal.FreqRow :=
  classify Signal.Frequency_Percent_Col
           (fun row => Processor.Truth_Average_Engagement (Signal.source_row row)).

Definition overall_quadrants
  : F64.float * F64.float -> list Processor.TagRow -> quadrants Processor.TagRow :=
  classify Processor.Frequency_Pct Processor.Average_Engagement.

(** Neither value is a NaN. *)
Definition comparable (x y : F64.float) : bool :=
  match SFcompare x y with
  | Some _ => true
  | None => false
  end.

(** The number of the four quadrants that hold the row. *)
Definition quadrants_holding {A : Type} (frequency engagement : A -> F64.float)
    (baselines : F64.float * F64.float) (row : A) : nat :=
  List.length
    (filter (fun b : bool => b)
       [ ge (frequency row) (fst baselines) && ge (engagement row) (snd baselines);
         lt (frequency row) (fst baselines) && ge (engagement row) (snd baselines);
         ge (frequency row) (fst baselines) && lt (engagement row) (snd baselines);
         lt (frequency row) (fst baselines) && lt (engagement row) (snd baselines) ]).

End Quadrants.

(** ** The offsets of the labels *)

Module Labels.

(** A call of [ax.annotate]: the text, the point, the offset of the
    text in points, and whether an arrow is drawn. *)
Record annotation : Type := {
  text : string;
  xy : F64.float * F64.float;
  xytext : Z * Z;
  with_arrow : bool
}.

Definition offset_patterns : list (Z * Z) :=
  [ (10, 10); (-10, 10); (10, -10); (-10, -10);
    (15, 0); (-15, 0); (0, 15); (0, -15);
    (12, 6); (-12, 6); (12, -6); (-12, -6);
    (6, 12); (-6, 12); (6, -12); (-6, -12);
    (8, 8); (-8, -8); (14, 4); (-14, -4);
    (4, 14); (-4, -14); (18, 2); (-18, -2) ].

(** [l[i]] for a non-negative [i] *)
Definition list_get {A : Type} (l : list A) (i : nat) : result A :=
  match nth_error l i with
  | Some a => Ok a
  | None => Raise IndexError
  end.

Section Rows.

(** The rows of the table with their [Tag_id] and the two plotted
    columns. *)
Context {A : Type}.
Variable tag_of : A -> string.
Variable point_of : A -> F64.float * F64.float.

(** [adjust_label_positions_simple]: the loop from the row of index
    [i] on. *)
Fixpoint simple_from (i : nat) (rows : list A) : result (list annotation) :=
  match rows with
  | [] => Ok []
  | row :: rows' =>
      offset <- list_get offset_patterns (i mod List.length offset_patterns) ;;
      rest <- simple_from (S i) rows' ;;
      Ok ({| text := tag_of row; xy := point_of row;
             xytext := offset; with_arrow := false |} :: rest)
  end.

Definition adjust_label_positions_simple (df : list A)
  : result (list annotation) :=
  simple_from 0 df.

Definition arrow_tags : list string := ["B3"; "A4"; "C1"]%string.

Definition arrow_offsets : list (string * (Z * Z)) :=
  [ ("B3", (70, 40)); ("A4", (-80, 35)); ("C1", (-45, 70)) ]%string.

Definition simple_offsets : list (Z * Z) :=
  [ (12, 8); (-12, 8); (12, -8); (-12, -8);
    (15, 0); (-15, 0); (0, 15); (0, -15);
    (10, 12); (-10, 12); (10, -12); (-10, -12);
    (18, 6); (-18, 6); (18, -6); (-18, -6);
    (8, 18); (-8, 18); (8, -18); (-8, -18) ].

(** [tag_id in arrow_tags] *)
Definition is_arrow_tag (tag_id : string) : bool :=
  existsb (String.eqb tag_id) arrow_tags.

(** [arrow_offsets[tag_id]] *)
Fixpoint offsets_get (d : list (string * (Z * Z))) (k : string)
  : result (Z * Z) :=
  match d with
  | [] => Raise KeyError
  | (k', v) :: d' => if String.eqb k' k then Ok v else offsets_get d' k
  end.

(** [adjust_label_positions_hybrid]: the loop with the current value of
    [simple_offset_index]. *)
Fixpoint hybrid_from (simple_offset_index : nat) (rows : list A)
  : result (list annotation) :=
  match rows with
  | [] => Ok []
  | row :: rows' =>
      let tag_id := tag_of row in
      if is_arrow_tag tag_id
      then
        offset <- offsets_get arrow_offsets tag_id ;;
        rest <- hybrid_from simple_offset_index rows' ;;
        Ok ({| text := tag_id; xy := point_of row;
               xytext := offset; with_arrow := true |} :: rest)
      else
        offset <- list_get simple_offsets
                    (simple_offset_index mod List.length simple_offsets) ;;
        rest <- hybrid_from (S simple_offset_index) rows' ;;
        Ok ({| text := tag_id; xy := point_of row;
               xytext := offset; with_arrow := false |} :: rest)
  end.

Definition adjust_label_positions_hybrid (df : list A)
  : result (list annotation) :=
  hybrid_from 0 df.

End Rows.

(** The rows that get a simple offset. *)
Definition plain_tags (tags : list string) : list string :=
  filter (fun t => negb (is_arrow_tag t)) tags.

End Labels.

(** ** The offsets of the hybrid labels, by position *)

Module LabelSpec.

Import Labels.

(** The offsets of the arrow tags followed by the simple offsets. *)
Definition all_offsets : list (Z * Z) :=
  (map snd arrow_offsets ++ simple_offsets)%list.

(** The position in [all_offsets] of the offset of an arrow tag. *)
Definition arrow_index (tag_id : string) : nat :=
  if String.eqb tag_id "B3" then 0
  else if String.eqb tag_id "A4" then 1
  else 2.

(** The positions in [all_offsets] of the offsets given to the tags,
    from the value [s] of [simple_offset_index] on. *)
Fixpoint slots (s : nat) (tags : list string) : list nat :=
  match tags with
  | [] => []
  | t :: tags' =>
      if is_arrow_tag t then arrow_index t :: slots s tags'
      else (3 + s mod 20)%nat :: slots (S s) tags'
  end.

End LabelSpec.

(** ** Loading the processed table in [strategic_signal_matrix_overall.py] *)

Module OverallLoad.

Import Processor SignalLoad.

(** [load_and_process_data(file_path)] of the overall script: the rows
    with a positive percentage.  The message it prints takes the minimum
    and the maximum of columns that exist, so that an empty table is
    returned as it is. *)
Definition load_and_process_data (fs : file_system)
    (script_dir current_dir : path) (file_path : option path)
  : option (list TagRow) :=
  let resolved :=
    match file_path with
    | None => find_data_file fs script_dir current_dir
    | Some given => Some given
    end in
  match resolved with
  | None => None
  | Some file_path =>
      if path_exists fs file_path
      then
        match fs file_path with
        | Some (CsvFile df) =>
            Some (filter (fun row => F64.gt0 (Frequency_Pct row)) df)
        | _ => None
        end
      else None
  end.

(** The cell of a platform's total engagement: empty when not positive. *)
Definition engagement_cell (v : Z) : string :=
  if v >? 0 then F64.format_int_comma v else ""%string.

(** A file system with the table of the three sample posts in the
    working directory. *)
Definition sample_fs : file_system :=
  fun p =>
    if list_eq_dec string_dec p ["home"; "Engagement_data_processed.csv"]%string
    then Some (CsvFile (map (Spec.tag_row Samples.three_posts) all_expected_tags))
    else None.

End OverallLoad.

(** ** Facts on int64 arithmetic *)

Module Int64Facts.

Import Int64.

Lemma wrap_in_range z : in_range z -> wrap z = z.
Proof.
  unfold in_range, wrap, modulus, half_modulus. intros H.
  rewrite Z.mod_small; lia.
Qed.

Lemma wrap_range z : in_range (wrap z).
Proof.
  unfold in_range, wrap, modulus, half_modulus.
  pose proof (Z.mod_pos_bound (z + 2 ^ 63) (2 ^ 64) ltac:(lia)). lia.
Qed.

Lemma wrap_add_l a b : wrap (wrap a + b) = wrap (a + b).
Proof.
  unfold wrap, modulus, half_modulus.
  replace ((a + 2 ^ 63) mod 2 ^ 64 - 2 ^ 63 + b + 2 ^ 63)
    with ((a + 2 ^ 63) mod 2 ^ 64 + b) by lia.
  rewrite Z.add_mod_idemp_l by lia.
  do 2 f_equal. lia.
Qed.

Lemma wrap_add_r a b : wrap (a + wrap b) = wrap (a + b).
Proof. rewrite (Z.add_comm a), wrap_add_l. f_equal. lia. Qed.

Lemma add_wrap a b : add (wrap a) (wrap b) = wrap (a + b).
Proof. unfold add. now rewrite wrap_add_l, wrap_add_r. Qed.

Lemma add_exact a b : in_range (a + b) -> add a b = a + b.
Proof. apply wrap_in_range. Qed.

Lemma fold_add_wrap l acc :
  fold_left add l (wrap acc) = wrap (acc + Spec.total l).
Proof.
  revert acc. induction l as [|x l IH]; intros acc; simpl.
  - f_equal. lia.
  - unfold add at 2. rewrite wrap_add_l, IH. f_equal. lia.
Qed.

(** The wrapped sum is the reduction of the exact sum. *)
Lemma sum_wrap l : sum l = wrap (Spec.total l).
Proof.
  unfold sum. change 0 with (wrap 0) at 1. now rewrite fold_add_wrap.
Qed.

End Int64Facts.

(** ** Facts on strings *)

Module StrFacts.

Lemma prefix_spec pat s :
  prefix pat s = true <-> exists post, s = (pat ++ post)%string.
Proof.
  revert s. induction pat as [|c pat IH]; intros s; simpl.
  - split; [intros _; now exists s | now destruct s].
  - destruct s as [|d s]; simpl.
    + split; [discriminate | intros [post H]; discriminate].
    + destruct (ascii_dec c d) as [->|Hne].
      * rewrite IH. split; intros [post H]; exists post.
        -- now rewrite H.
        -- now injection H.
      * split; [discriminate | intros [post H]; injection H; congruence].
Qed.

(** The search of [Py.contains] decides the occurrence of the pattern. *)
Lemma contains_spec pat s :
  Py.contains pat s = true <-> Spec.is_substring pat s.
Proof.
  unfold Spec.is_substring.
  induction s as [|c s IH].
  - cbn [Py.contains]. rewrite orb_false_r, prefix_spec. split.
    + intros [post H]. now exists EmptyString, post.
    + intros [pre [post H]]. destruct pre; simpl in H; [|discriminate].
      now exists post.
  - cbn [Py.contains]. rewrite orb_true_iff, prefix_spec, IH. split.
    + intros [[post H]|[pre [post H]]].
      * now exists EmptyString, post.
      * exists (String c pre), post. simpl. now rewrite H.
    + intros [pre [post H]]. destruct pre as [|d pre]; simpl in H.
      * left. now exists post.
      * right. injection H as _ H. now exists pre, post.
Qed.

Lemma tag_matches_spec tag_id r :
  Processor.tag_matches tag_id r = true <-> Spec.mentions tag_id r.
Proof.
  unfold Processor.tag_matches, Spec.mentions.
  destruct (Processor.Tag_id r) as [s|].
  - rewrite contains_spec. split.
    + intros H. now exists s.
    + intros [s' [E H]]. now injection E as ->.
  - split; [discriminate | intros [s [E _]]; discriminate].
Qed.

(** The filter keeps as many records as mention the tag. *)
Lemma count_of_filter tag_id l :
  Spec.count_of (Spec.mentions tag_id) l
                (List.length (filter (Processor.tag_matches tag_id) l)).
Proof.
  induction l as [|r l IH]; simpl.
  - constructor.
  - destruct (Processor.tag_matches tag_id r) eqn:E; simpl.
    + constructor; [now apply tag_matches_spec | exact IH].
    + constructor; [|exact IH].
      rewrite <- tag_matches_spec. congruence.
Qed.

Lemma count_of_unique {A : Type} (P : A -> Prop) l n m :
  Spec.count_of P l n -> Spec.count_of P l m -> n = m.
Proof.
  intros H. revert m. induction H; intros m Hm; inversion Hm; subst;
    try reflexivity; try contradiction; auto.
Qed.

End StrFacts.

(** ** Facts on the tag-level script *)

Module ProcessorFacts.

Import Processor.

Lemma mapM_ok {A B : Type} (f : A -> result B) (g : A -> B) l :
  (forall a, In a l -> f a = Ok (g a)) -> mapM f l = Ok (map g l).
Proof.
  induction l as [|a l IH]; intros H; simpl.
  - reflexivity.
  - rewrite (H a (or_introl eq_refl)). simpl.
    rewrite IH by (intros b Hb; apply H; now right). reflexivity.
Qed.

Lemma len_nonneg {A : Type} (l : list A) : 0 <= Py.len l.
Proof. unfold Py.len. lia. Qed.

Lemma len_filter_le {A : Type} (f : A -> bool) (l : list A) :
  Py.len (filter f l) <= Py.len l.
Proof. unfold Py.len. pose proof (filter_length_le f l). lia. Qed.

(** The division of the two lengths never raises: it is reached with a
    non-empty selection, hence a non-empty table. *)
Lemma metrics_with_data_ok (df_raw : list RawRecord) f :
  (Py.len (filter f df_raw) >? 0) = true ->
  metrics_with_data (Py.len df_raw) (filter f df_raw)
  = Ok (metrics_of_data
          (F64.div_int (Py.len (filter f df_raw)) (Py.len df_raw))
          (filter f df_raw)).
Proof.
  intros H. unfold metrics_with_data, Py.truediv.
  pose proof (len_filter_le f df_raw).
  destruct (Py.len df_raw =? 0) eqn:E; [lia | reflexivity].
Qed.

(** Selecting with the mask of a test is filtering with the test. *)
Lemma select_mask (f : RawRecord -> bool) df :
  select df (map f df) = filter f df.
Proof.
  induction df as [|r df IH]; cbn [map select filter].
  - reflexivity.
  - now rewrite IH.
Qed.

Lemma existsb_on_map {A B : Type} (f : B -> bool) (g : A -> B) l :
  existsb f (map g l) = existsb (fun a => f (g a)) l.
Proof. induction l as [|a l IH]; cbn; [reflexivity | now rewrite IH]. Qed.

(** The accessor is there exactly for a column of text. *)
Lemma str_accessor_text df_raw :
  str_accessor (map Tag_id df_raw)
  = if Spec.tag_column_is_text df_raw then Ok tt else Raise AttributeError.
Proof.
  destruct df_raw as [|r l]; [reflexivity|].
  change (map Tag_id (r :: l)) with (Tag_id r :: map Tag_id l).
  cbn [str_accessor Spec.tag_column_is_text].
  change (Tag_id r :: map Tag_id l) with (map Tag_id (r :: l)).
  rewrite existsb_on_map. reflexivity.
Qed.

(** What a column of text is. *)
Lemma tag_column_is_text_spec df_raw :
  Spec.tag_column_is_text df_raw = true <->
  df_raw = [] \/ exists r s, In r df_raw /\ Tag_id r = Some s.
Proof.
  destruct df_raw as [|r0 l].
  - split; [now left | reflexivity].
  - cbn [Spec.tag_column_is_text]. rewrite existsb_exists. split.
    + intros (r & Hr & E). right. exists r.
      destruct (Tag_id r) as [s|]; [now exists s | discriminate].
    + intros [H|(r & s & Hr & E)]; [discriminate|].
      exists r. split; [exact Hr | now rewrite E].
Qed.

Lemma str_contains_text df_raw tag_id :
  Spec.tag_column_is_text df_raw = true ->
  str_contains df_raw tag_id = Ok (map (tag_matches tag_id) df_raw).
Proof.
  intros H. unfold str_contains. now rewrite str_accessor_text, H.
Qed.

Lemma str_contains_raises df_raw tag_id :
  Spec.tag_column_is_text df_raw = false ->
  str_contains df_raw tag_id = Raise AttributeError.
Proof.
  intros H. unfold str_contains. now rewrite str_accessor_text, H.
Qed.

Lemma process_tag_eq df_raw c rest :
  Spec.tag_column_is_text df_raw = true ->
  process_tag df_raw (String c rest) = Ok (Spec.tag_row df_raw (String c rest)).
Proof.
  intros Htext.
  unfold process_tag, Spec.tag_row, Spec.tag_metrics. cbn [Py.first_char bind].
  rewrite (str_contains_text _ _ Htext). cbn [bind]. rewrite select_mask.
  destruct (Py.len (filter (tag_matches (String c rest)) df_raw) >? 0) eqn:E.
  - rewrite (metrics_with_data_ok _ _ E). reflexivity.
  - reflexivity.
Qed.

Lemma key_ltb_leb a b :
  Spec.key_ltb (Spec.key a) (Spec.key b) = true -> key_leb a b = true.
Proof.
  unfold Spec.key_ltb, key_leb, Spec.key. cbn [fst snd].
  destruct (Py.str_compare (row_Category_id a) (row_Category_id b));
    [destruct (Py.str_compare (row_Tag_id a) (row_Tag_id b))|..];
    congruence.
Qed.

(** Sorting leaves a table alone whose keys already ascend. *)
Lemma sort_values_sorted l :
  Spec.strictly_sortedb (map Spec.key l) = true -> sort_values l = l.
Proof.
  induction l as [|r l IH]; intros H; cbn in H |- *.
  - reflexivity.
  - apply andb_true_iff in H as [Hr Hl]. rewrite (IH Hl).
    destruct l as [|r' l']; [reflexivity|].
    cbn in Hr |- *. apply andb_true_iff in Hr as [Hr _].
    now rewrite (key_ltb_leb _ _ Hr).
Qed.

Lemma tag_row_keys df_raw l :
  map Spec.key (map (Spec.tag_row df_raw) l)
  = map (fun t => (Spec.category_of t, t)) l.
Proof. rewrite map_map. reflexivity. Qed.

Lemma tag_row_ids df_raw l :
  map row_Tag_id (map (Spec.tag_row df_raw) l) = l.
Proof. rewrite map_map. cbn. apply map_id. Qed.

(** The table computed from raw data whose Tag_id column is text: the
    rows of the taxonomy, in the order of the taxonomy. *)
Lemma process_data_eq df_raw :
  Spec.tag_column_is_text df_raw = true ->
  process_data df_raw = Ok (map (Spec.tag_row df_raw) all_expected_tags).
Proof.
  intros Htext. unfold process_data.
  rewrite (mapM_ok _ (Spec.tag_row df_raw)).
  - cbn [bind]. apply f_equal. apply sort_values_sorted.
    rewrite tag_row_keys. vm_compute. reflexivity.
  - intros t Ht.
    assert (exists c rest, t = String c rest) as (c & rest & ->).
    { destruct t; [|eauto]. exfalso. revert Ht. vm_compute. intuition congruence. }
    apply process_tag_eq, Htext.
Qed.

(** On any other raw data the first iteration of the loop raises. *)
Lemma process_data_raises df_raw :
  Spec.tag_column_is_text df_raw = false ->
  process_data df_raw = Raise AttributeError.
Proof.
  intros Htext. unfold process_data, all_expected_tags.
  cbn [mapM]. unfold process_tag at 1. cbn [Py.first_char bind].
  rewrite (str_contains_raises _ _ Htext). reflexivity.
Qed.

(** The run returns a table exactly on a column of text. *)
Lemma process_data_returns df_raw :
  (exists rows, process_data df_raw = Ok rows) <->
  Spec.tag_column_is_text df_raw = true.
Proof.
  split.
  - intros [rows H]. destruct (Spec.tag_column_is_text df_raw) eqn:Htext;
      [reflexivity|].
    rewrite (process_data_raises _ Htext) in H. discriminate.
  - intros Htext. eexists. now apply process_data_eq.
Qed.

Lemma process_data_ok df_raw rows :
  process_data df_raw = Ok rows ->
  Spec.tag_column_is_text df_raw = true /\
  rows = map (Spec.tag_row df_raw) all_expected_tags.
Proof.
  destruct (Spec.tag_column_is_text df_raw) eqn:Htext.
  - rewrite (process_data_eq _ Htext). intros [= <-]. now split.
  - rewrite (process_data_raises _ Htext). discriminate.
Qed.

Lemma tag_column_is_text_perm df_raw df_raw' :
  Permutation df_raw df_raw' ->
  Spec.tag_column_is_text df_raw = Spec.tag_column_is_text df_raw'.
Proof.
  intros H.
  destruct (Spec.tag_column_is_text df_raw) eqn:E;
    destruct (Spec.tag_column_is_text df_raw') eqn:E'; try reflexivity; exfalso.
  - apply tag_column_is_text_spec in E as [->|(r & s & Hr & Hs)].
    + apply Permutation_nil in H. subst. discriminate.
    + assert (Spec.tag_column_is_text df_raw' = true); [|congruence].
      apply tag_column_is_text_spec. right. exists r, s.
      split; [eapply Permutation_in; eassumption | exact Hs].
  - apply tag_column_is_text_spec in E' as [->|(r & s & Hr & Hs)].
    + apply Permutation_sym, Permutation_nil in H. subst. discriminate.
    + assert (Spec.tag_column_is_text df_raw = true); [|congruence].
      apply tag_column_is_text_spec. right. exists r, s.
      split; [|exact Hs].
      eapply Permutation_in; [apply Permutation_sym|]; eassumption.
Qed.

Lemma in_process_data df_raw row :
  In row (map (Spec.tag_row df_raw) all_expected_tags) ->
  exists t, In t all_expected_tags /\ row = Spec.tag_row df_raw t.
Proof.
  intros H. apply in_map_iff in H as (t & <- & Ht). now exists t.
Qed.

(** The fields of a row, by the two branches. *)
Lemma tag_row_no_data df_raw t :
  filter (tag_matches t) df_raw = [] ->
  Spec.all_zero (Spec.tag_row df_raw t).
Proof.
  intros H. unfold Spec.tag_row, Spec.tag_metrics. rewrite H.
  cbn. unfold Spec.all_zero. cbn. repeat split; reflexivity.
Qed.

End ProcessorFacts.

(** ** The numeric model on known values *)

Module F64Examples.

(** [round(2.675, 2)] is [2.67] on a Python float (the double nearest
    to 2.675 lies below it) and [2.68] on a numpy float64 (the product by
    100.0 rounds to 267.5, which [rint] takes to 268). *)
Example python_round_2_675 :
  F64.format_2f (F64.py_round_digits (F64.div_int 2675 1000) 2) = "2.67"%string.
Proof. reflexivity. Qed.

Example numpy_round_2_675 :
  F64.format_2f (F64.np_round2 (F64.div_int 2675 1000)) = "2.68"%string.
Proof. reflexivity. Qed.

Example round_ties_to_even :
  F64.py_round (F64.div_int 5 2) = Some 2 /\
  F64.py_round (F64.div_int 7 2) = Some 4 /\
  F64.py_round (F64.div_int (-7) 2) = Some (-4).
Proof. repeat split; reflexivity. Qed.

Example format_with_commas :
  F64.format_comma_0f (F64.div_int 12345675 10) = "1,234,568"%string /\
  F64.format_comma_0f (F64.div_int 5 2) = "2"%string /\
  F64.format_int_comma 1234567 = "1,234,567"%string /\
  F64.format_int_comma 0 = "0"%string.
Proof. repeat split; reflexivity. Qed.

Example two_thirds_percent :
  F64.format_2f
    (F64.py_round_digits (F64.mul (F64.div_int 2 3) (F64.of_int 100)) 2)
  = "66.67"%string.
Proof. reflexivity. Qed.

Example int64_wraps : Int64.add (2 ^ 63 - 1) 1 = - 2 ^ 63.
Proof. reflexivity. Qed.

(** [round(200 / 3, 2)] is the double [66.67], not the quotient; the
    ties [round(0.125, 2)] and [round(0.375, 2)] go to the even
    hundredth, [0.12] and [0.38]. *)
Example python_round_values :
  F64.py_round_digits (F64.mul (F64.div_int 2 3) (F64.of_int 100)) 2
  = F64.div_int 6667 100 /\
  F64.mul (F64.div_int 2 3) (F64.of_int 100) <> F64.div_int 6667 100 /\
  F64.py_round_digits (F64.div_int 1 8) 2 = F64.div_int 12 100 /\
  F64.py_round_digits (F64.div_int 3 8) 2 = F64.div_int 38 100 /\
  F64.py_round_digits (F64.div_int (-1) 8) 2 = F64.div_int (-12) 100 /\
  F64.py_round_digits (F64.div_int 1 1000) 2 = F64.zero.
Proof.
  split; [reflexivity|]. split; [vm_compute; discriminate|].
  repeat split; reflexivity.
Qed.

End F64Examples.

(** ** Rounding to two decimal places *)

Module RoundingFacts.

(** The quotient rounded by [round_half_even] is a nearest integer, and
    the even one of the two when the quotient lies half way. *)
Lemma round_half_even_ties num den :
  0 < den ->
  2 * Z.abs (num - F64.round_half_even num den * den) <= den /\
  (2 * Z.abs (num - F64.round_half_even num den * den) = den ->
   Z.even (F64.round_half_even num den) = true).
Proof.
  intros Hden. unfold F64.round_half_even.
  pose proof (Z.div_mod num den ltac:(lia)) as Hdm.
  pose proof (Z.mod_pos_bound num den Hden) as Hr.
  set (q := num / den) in *. set (r := num mod den) in *.
  destruct (Z.compare_spec (2 * r) den) as [E|E|E].
  - destruct (Z.even q) eqn:Eq.
    + split; [lia | intros _; exact Eq].
    + split; [lia|]. intros _. rewrite Z.even_add, Eq. reflexivity.
  - split; lia.
  - split; lia.
Qed.

Lemma exact_den_pos x : 0 < Spec.exact_den x.
Proof.
  destruct x as [s| | |s m e]; cbn [Spec.exact_den]; lia.
Qed.

(** The nearest hundredth is determined by the value. *)
Lemma nearest_hundredth_unique x n n' :
  Spec.nearest_hundredth x n -> Spec.nearest_hundredth x n' -> n = n'.
Proof.
  unfold Spec.nearest_hundredth.
  pose proof (exact_den_pos x) as Hd.
  set (a := 100 * Spec.exact_num x). set (d := Spec.exact_den x) in *.
  clearbody a d. intros [H1 E1] [H2 E2].
  assert (Hcase : n = n' \/ n = n' + 1 \/ n' = n + 1) by nia.
  destruct Hcase as [H|[H|H]]; [exact H| |]; exfalso.
  - subst n. assert (T1 : 2 * Z.abs (a - (n' + 1) * d) = d) by nia.
    assert (T2 : 2 * Z.abs (a - n' * d) = d) by nia.
    specialize (E1 T1). specialize (E2 T2).
    rewrite Z.even_add, E2 in E1. discriminate.
  - subst n'. assert (T1 : 2 * Z.abs (a - (n + 1) * d) = d) by nia.
    assert (T2 : 2 * Z.abs (a - n * d) = d) by nia.
    specialize (E1 T2). specialize (E2 T1).
    rewrite Z.even_add, E1 in E2. discriminate.
Qed.

(** [round(x, 2)] on a Python float rounds to two decimal places. *)
Lemma py_round_digits_rounds x :
  Spec.rounded_to_2_decimals x (F64.py_round_digits x 2).
Proof.
  destruct x as [s| | |s m e]; cbn [Spec.rounded_to_2_decimals F64.py_round_digits];
    try reflexivity.
  set (N := F64.scaled_magnitude m e 2).
  exists (F64.signed s N).
  assert (Hden : 0 < 2 ^ Z.max (- e) 0) by (apply Z.pow_pos_nonneg; lia).
  pose proof (round_half_even_ties (Z.pos m * 10 ^ 2 * 2 ^ Z.max e 0) _ Hden)
    as [Hnear Htie].
  fold (F64.scaled_magnitude m e 2) in Hnear, Htie. fold N in Hnear, Htie.
  change (10 ^ 2) with 100 in *.
  split.
  - unfold Spec.nearest_hundredth. cbn [Spec.exact_num Spec.exact_den].
    destruct s; cbn [F64.signed].
    + rewrite Z.even_opp. split; [lia|]. intros H. apply Htie. lia.
    + split; [lia|]. intros H. apply Htie. lia.
  - destruct s; cbn [F64.signed].
    + replace (- N =? 0) with (N =? 0)
        by (destruct (Z.eqb_spec N 0), (Z.eqb_spec (- N) 0); lia).
      reflexivity.
    + reflexivity.
Qed.

(** Rounding to two decimal places gives one result. *)
Lemma rounded_to_2_decimals_unique x y y' :
  Spec.rounded_to_2_decimals x y -> Spec.rounded_to_2_decimals x y' -> y = y'.
Proof.
  destruct x as [s| | |s m e]; cbn [Spec.rounded_to_2_decimals];
    try congruence.
  intros (n & Hn & ->) (n' & Hn' & ->).
  now rewrite (nearest_hundredth_unique _ _ _ Hn Hn').
Qed.

End RoundingFacts.

(** * Properties of the tag-level table *)

Section TagLevel.

Import Processor.

Variable df_raw : list RawRecord.

Lemma filter_tag_other l t :
  ~ In t l ->
  filter (fun row => String.eqb (row_Tag_id row) t)
         (map (Spec.tag_row df_raw) l) = [].
Proof.
  induction l as [|a l IH]; intros H; cbn.
  - reflexivity.
  - destruct (String.eqb_spec a t) as [->|_].
    + exfalso. apply H. now left.
    + apply IH. intros Hin. apply H. now right.
Qed.

Lemma filter_tag_one l t :
  NoDup l -> In t l ->
  List.length (filter (fun row => String.eqb (row_Tag_id row) t)
                      (map (Spec.tag_row df_raw) l)) = 1%nat.
Proof.
  induction 1 as [|a l Ha Hl IH]; intros Hin; [destruct Hin|].
  cbn. destruct (String.eqb_spec a t) as [->|Hne].
  - cbn. now rewrite filter_tag_other.
  - destruct Hin as [->|Hin]; [congruence | now apply IH].
Qed.

Lemma taxonomy_nodup : NoDup all_expected_tags.
Proof.
  unfold all_expected_tags.
  repeat (constructor; [cbn; intuition congruence|]). constructor.
Qed.

Lemma no_mention_no_data t :
  (forall r, In r df_raw -> ~ Spec.mentions t r) ->
  filter (tag_matches t) df_raw = [].
Proof.
  intros H. induction df_raw as [|r l IH]; cbn.
  - reflexivity.
  - destruct (tag_matches t r) eqn:E.
    + exfalso. apply (H r (or_introl eq_refl)).
      now apply StrFacts.tag_matches_spec.
    + apply IH. intros r' Hr'. apply H. now right.
Qed.

(** Where the Tag_id column is text the tag-level table is produced and
    has one row for each of the 22 taxonomy tags: the tags of its rows
    are the taxonomy, every taxonomy tag labels exactly one row, and the
    row of a tag that no record mentions is all zero. *)
Lemma text_table_one_row_per_tag :
  Spec.tag_column_is_text df_raw = true ->
  exists rows,
    process_data df_raw = Ok rows /\
    List.length rows = List.length all_expected_tags /\
    List.length rows = 22%nat /\
    map row_Tag_id rows = all_expected_tags /\
    (forall t, In t all_expected_tags ->
       List.length
         (filter (fun row => String.eqb (row_Tag_id row) t) rows) = 1%nat) /\
    (forall row, In row rows ->
       (forall r, In r df_raw -> ~ Spec.mentions (row_Tag_id row) r) ->
       Spec.all_zero row).
Proof.
  intros Htext.
  exists (map (Spec.tag_row df_raw) all_expected_tags).
  split; [now apply ProcessorFacts.process_data_eq|].
  split; [apply length_map|].
  split; [now rewrite length_map|].
  split; [apply ProcessorFacts.tag_row_ids|].
  split.
  - intros t Ht. apply filter_tag_one; [apply taxonomy_nodup | exact Ht].
  - intros row Hrow Hnone.
    apply ProcessorFacts.in_process_data in Hrow as (t & _ & ->).
    apply ProcessorFacts.tag_row_no_data, no_mention_no_data. exact Hnone.
Qed.

(** C1 (defect).  The loop is written to give every tag a record, with
    the all-zero row of the [else] branch for a tag without data, and the
    search passes [na=False] for the empty cells.  On a table whose only
    record has an empty tag field no tag is mentioned, so that each of
    the 22 tags is due its all-zero row; but the column holds no string,
    the [.str] accessor raises AttributeError in the first iteration, and
    the run ends without a table.  The table without any record does get
    its 22 all-zero rows. *)
Theorem untagged_post_gets_no_table :
  (forall t r, In r Samples.untagged_post -> ~ Spec.mentions t r) /\
  process_data Samples.untagged_post = Raise AttributeError /\
  Processor.main (Some Samples.untagged_post) = None /\
  (exists rows,
     process_data [] = Ok rows /\
     map row_Tag_id rows = all_expected_tags /\
     Forall Spec.all_zero rows).
Proof.
  split.
  { intros t r [<-|[]] (s & E & _). discriminate E. }
  assert (H : process_data Samples.untagged_post = Raise AttributeError)
    by (apply ProcessorFacts.process_data_raises; reflexivity).
  split; [exact H|].
  split; [unfold Processor.main, load_and_process_data; now rewrite H|].
  exists (map (Spec.tag_row []) all_expected_tags).
  split; [apply ProcessorFacts.process_data_eq; reflexivity|].
  split; [apply ProcessorFacts.tag_row_ids|].
  apply Forall_forall. intros row Hrow.
  apply ProcessorFacts.in_process_data in Hrow as (t & _ & ->).
  now apply ProcessorFacts.tag_row_no_data.
Qed.

End TagLevel.

Section TagMetrics.

Import Processor.

Variable df_raw : list RawRecord.

(** The two branches of the loop body. *)
Lemma tag_metrics_cases t :
  let tag_data := filter (tag_matches t) df_raw in
  (tag_data = [] /\ Spec.tag_metrics df_raw t = metrics_no_data) \/
  ((Py.len tag_data >? 0) = true /\ Py.len df_raw <> 0 /\
   Spec.tag_metrics df_raw t
   = metrics_of_data (F64.div_int (Py.len tag_data) (Py.len df_raw)) tag_data).
Proof.
  intros tag_data. unfold Spec.tag_metrics. fold tag_data.
  destruct (Py.len tag_data >? 0) eqn:E.
  - right. split; [reflexivity|]. split; [|reflexivity].
    pose proof (ProcessorFacts.len_filter_le (tag_matches t) df_raw).
    fold tag_data in H. lia.
  - left. split; [|reflexivity].
    destruct tag_data; [reflexivity|]. unfold Py.len in E. cbn in E. lia.
Qed.

Lemma div_int_zero n : 0 <= n -> F64.div_int 0 n = F64.zero.
Proof.
  intros H. unfold F64.div_int, F64.zero.
  destruct (n <? 0) eqn:E; [lia | reflexivity].
Qed.

(** The selection is by occurrence, not by equality: a post tagged
    A1,B2 is selected for A1 and for B2, and for no other tag. *)
Example two_codes_are_both_selected :
  map (fun t => (t, Py.len (filter (tag_matches t) Samples.two_codes)))
      ["A1"; "A2"; "B1"; "B2"]%string
  = [("A1", 1); ("A2", 0); ("B1", 0); ("B2", 1)]%string.
Proof. reflexivity. Qed.

(** The scenario of three posts: A1 is mentioned twice with a total
    engagement of 34 and an average of 17, B2 once with 6, and every
    other row is all zero. *)
Example three_posts_scenario :
  exists rows,
    process_data Samples.three_posts = Ok rows /\
    map (fun row => (row_Tag_id row, Frequency_Count row,
                     Total_Engagement row,
                     F64.format_2f (Average_Engagement row)))
        (filter (fun row => Frequency_Count row >? 0) rows)
    = [("A1", 2, 34, "17.00"); ("B2", 1, 6, "6.00")]%string /\
    Forall Spec.all_zero (filter (fun row => Frequency_Count row =? 0) rows).
Proof.
  eexists. split; [apply ProcessorFacts.process_data_eq; first [reflexivity | assumption]|].
  split; [reflexivity|].
  cbn. repeat constructor.
Qed.

(** C2. Where the table is produced (the Tag_id column is text), for
    every taxonomy tag: a record is selected for the tag exactly when
    its tag field contains the tag's code as a substring; the tag has
    one row, whose count is the number of the records that mention the
    tag, whose sums run over them (in int64), and whose percentage is
    count / number of records * 100, computed in binary64 and rounded
    to two decimal places (0 for an empty table, where nothing is
    divided). *)
Theorem tag_row_counts_substring_matches :
  Spec.tag_column_is_text df_raw = true ->
  exists rows,
    process_data df_raw = Ok rows /\
    forall t, In t all_expected_tags ->
      let tag_data := filter (tag_matches t) df_raw in
      (forall r, In r tag_data <-> In r df_raw /\ Spec.mentions t r) /\
      exists row n,
        In row rows /\ row_Tag_id row = t /\
        (forall row', In row' rows -> row_Tag_id row' = t -> row' = row) /\
        Spec.count_of (Spec.mentions t) df_raw n /\
        Frequency_Count row = Z.of_nat n /\
        Total_Likes row = Int64.wrap (Spec.total (map Likes tag_data)) /\
        Total_Reposts row = Int64.wrap (Spec.total (map Repost tag_data)) /\
        Total_Comments row = Int64.wrap (Spec.total (map Replies tag_data)) /\
        if Py.len df_raw =? 0 then Frequency_Pct row = F64.zero
        else Spec.rounded_to_2_decimals
               (F64.mul (F64.div_int (Z.of_nat n) (Py.len df_raw))
                        (F64.of_int 100))
               (Frequency_Pct row).
Proof.
  intros Htext.
  exists (map (Spec.tag_row df_raw) all_expected_tags).
  split; [now apply ProcessorFacts.process_data_eq|].
  intros t Ht. cbv zeta.
  split.
  { intros r. rewrite filter_In, StrFacts.tag_matches_spec. reflexivity. }
  exists (Spec.tag_row df_raw t),
         (List.length (filter (tag_matches t) df_raw)).
  split; [now apply in_map|].
  split; [reflexivity|].
  split.
  { intros row' Hrow' E.
    apply ProcessorFacts.in_process_data in Hrow' as (t' & _ & ->).
    change (row_Tag_id (Spec.tag_row df_raw t')) with t' in E. now subst t'. }
  split; [apply StrFacts.count_of_filter|].
  unfold Spec.tag_row.
  destruct (tag_metrics_cases t) as [[Hnil ->]|(Hpos & Hne & ->)].
  - rewrite Hnil.
    cbn [make_row metrics_no_data Frequency_Count Total_Likes Total_Reposts
         Total_Comments Frequency_Pct frequency_count total_likes
         total_reposts total_comments frequency_percent List.length map].
    repeat (split; [reflexivity|]).
    destruct (Py.len df_raw =? 0) eqn:E; [reflexivity|].
    change (Z.of_nat 0) with 0.
    rewrite div_int_zero by apply ProcessorFacts.len_nonneg.
    reflexivity.
  - cbn [make_row metrics_of_data Frequency_Count Total_Likes Total_Reposts
         Total_Comments Frequency_Pct frequency_count total_likes
         total_reposts total_comments frequency_percent].
    unfold column_sum. rewrite !Int64Facts.sum_wrap.
    repeat (split; [reflexivity|]).
    destruct (Py.len df_raw =? 0) eqn:E; [lia|].
    apply RoundingFacts.py_round_digits_rounds.
Qed.

(** C3 (as stated) fails: of three posts tagged A1 with one like in all,
    the row of A1 does not hold the quotient 1/3 but that quotient rounded
    to two decimals. *)
Lemma average_is_not_the_plain_quotient :
  exists rows row,
    process_data Samples.one_like_in_three = Ok rows /\
    In row rows /\
    row_Tag_id row = "A1"%string /\
    Frequency_Count row = 3 /\
    Total_Engagement row = 1 /\
    Average_Engagement row
    <> F64.div (F64.of_int (Total_Engagement row))
               (F64.of_int (Frequency_Count row)) /\
    Average_Engagement row = F64.div_int 33 100.
Proof.
  exists (map (Spec.tag_row Samples.one_like_in_three) all_expected_tags).
  exists (Spec.tag_row Samples.one_like_in_three "A1").
  split; [apply ProcessorFacts.process_data_eq; first [reflexivity | assumption]|].
  split; [now left|].
  repeat split; try reflexivity.
  vm_compute. discriminate.
Qed.

(** C3 (amended). In every row the total engagement is the int64 sum of
    the three totals (the plain sum when that fits), and the average is
    total / count rounded to two decimals when the count is positive and
    0 otherwise; the table is produced whenever the Tag_id column is
    text, so no division by zero occurs. *)
Theorem tag_row_total_and_rounded_average :
  Spec.tag_column_is_text df_raw = true ->
  exists rows,
    process_data df_raw = Ok rows /\
    forall row, In row rows ->
      Total_Engagement row
      = Int64.add (Int64.add (Total_Likes row) (Total_Reposts row))
                  (Total_Comments row) /\
      (Int64.in_range (Total_Likes row + Total_Reposts row + Total_Comments row) ->
       Total_Engagement row
       = Total_Likes row + Total_Reposts row + Total_Comments row) /\
      Average_Engagement row =
        if Frequency_Count row >? 0
        then F64.np_round2 (F64.div (F64.of_int (Total_Engagement row))
                                    (F64.of_int (Frequency_Count row)))
        else F64.zero.
Proof.
  intros Htext.
  exists (map (Spec.tag_row df_raw) all_expected_tags).
  split; [now apply ProcessorFacts.process_data_eq|].
  intros row Hrow.
  apply ProcessorFacts.in_process_data in Hrow as (t & Ht & ->).
  assert (Hsum : Total_Engagement (Spec.tag_row df_raw t)
      = Int64.add (Int64.add (Total_Likes (Spec.tag_row df_raw t))
                             (Total_Reposts (Spec.tag_row df_raw t)))
                  (Total_Comments (Spec.tag_row df_raw t))).
  { unfold Spec.tag_row.
    destruct (tag_metrics_cases t) as [[_ ->]|(_ & _ & ->)]; reflexivity. }
  split; [exact Hsum|]. split.
  - intros Hfit. rewrite Hsum. unfold Int64.add.
    rewrite Int64Facts.wrap_add_l. now apply Int64Facts.wrap_in_range.
  - unfold Spec.tag_row.
    destruct (tag_metrics_cases t) as [[_ ->]|(Hpos & _ & ->)].
    + reflexivity.
    + cbn [make_row metrics_of_data Frequency_Count Average_Engagement
           Total_Engagement frequency_count average_engagement
           total_engagement].
      rewrite Hpos. reflexivity.
Qed.

End TagMetrics.

Lemma tag_row_counts_substring_matches_witness :
  exists rows,
    Processor.process_data Samples.three_posts = Ok rows /\
    exists row,
      In row rows /\ Processor.row_Tag_id row = "A1"%string /\
      Processor.Frequency_Count row = 2 /\
      Processor.Total_Likes row = 30 /\
      Processor.Frequency_Pct row = F64.div_int 6667 100.
Proof.
  destruct (tag_row_counts_substring_matches Samples.three_posts eq_refl)
    as (rows & Hrows & H).
  exists rows. split; [exact Hrows|].
  destruct (H "A1"%string (or_introl eq_refl))
    as (_ & row & n & Hin & Hid & _ & Hn & Hcount & Hlikes & _ & _ & Hpct).
  assert (En : n = 2%nat).
  { eapply StrFacts.count_of_unique; [exact Hn|].
    apply (StrFacts.count_of_filter "A1" Samples.three_posts). }
  subst n. exists row.
  split; [exact Hin|]. split; [exact Hid|]. split; [exact Hcount|].
  split; [exact Hlikes|].
  eapply RoundingFacts.rounded_to_2_decimals_unique; [exact Hpct|].
  apply (RoundingFacts.py_round_digits_rounds
           (F64.mul (F64.div_int 2 3) (F64.of_int 100))).
Defined.

Lemma tag_row_total_and_rounded_average_witness :
  exists rows,
    Processor.process_data Samples.one_like_in_three = Ok rows /\
    forall row, In row rows ->
      Processor.Total_Engagement row
      = Int64.add (Int64.add (Processor.Total_Likes row)
                             (Processor.Total_Reposts row))
                  (Processor.Total_Comments row) /\
      (Int64.in_range (Processor.Total_Likes row + Processor.Total_Reposts row
                       + Processor.Total_Comments row) ->
       Processor.Total_Engagement row
       = Processor.Total_Likes row + Processor.Total_Reposts row
         + Processor.Total_Comments row) /\
      Processor.Average_Engagement row =
        if Processor.Frequency_Count row >? 0
        then F64.np_round2
               (F64.div (F64.of_int (Processor.Total_Engagement row))
                        (F64.of_int (Processor.Frequency_Count row)))
        else F64.zero.
Proof.
  apply (tag_row_total_and_rounded_average Samples.one_like_in_three).
  reflexivity.
Defined.

(** * The split of a tag's engagement by platform *)

Section PlatformSplit.

Import Processor.

Lemma engagement_sum_wrap data :
  engagement_sum data
  = Int64.wrap (Spec.total (map Likes data) + Spec.total (map Repost data)
                + Spec.total (map Replies data)).
Proof.
  unfold engagement_sum, column_sum.
  rewrite !Int64Facts.sum_wrap, !Int64Facts.add_wrap. reflexivity.
Qed.

Lemma guarded_engagement_sum data :
  (if Py.len data >? 0 then engagement_sum data else 0) = engagement_sum data.
Proof.
  destruct data as [|r l]; [reflexivity|].
  destruct (Py.len (r :: l) >? 0) eqn:E; [reflexivity|].
  unfold Py.len in E. rewrite Z.gtb_ltb in E. apply Z.ltb_ge in E.
  cbn [List.length] in E. lia.
Qed.

Lemma total_split (col : RawRecord -> Z) data :
  Spec.two_platforms data ->
  Spec.total (map col data)
  = Spec.total (map col (filter (on_platform "X") data))
    + Spec.total (map col (filter (on_platform "Truth Social") data)).
Proof.
  induction data as [|r l IH]; intros H.
  - reflexivity.
  - assert (Hl : Spec.two_platforms l) by (intros r' Hr'; apply H; now right).
    specialize (IH Hl). unfold Spec.total in *. cbn [filter].
    destruct (H r (or_introl eq_refl)) as [E | E].
    + replace (on_platform "X" r) with true
        by (unfold on_platform; now rewrite E).
      replace (on_platform "Truth Social" r) with false
        by (unfold on_platform; now rewrite E).
      cbn [map fold_right]. lia.
    + replace (on_platform "X" r) with false
        by (unfold on_platform; now rewrite E).
      replace (on_platform "Truth Social" r) with true
        by (unfold on_platform; now rewrite E).
      cbn [map fold_right]. lia.
Qed.

Lemma two_platforms_filter f data :
  Spec.two_platforms data -> Spec.two_platforms (filter f data).
Proof. intros H r Hr. apply filter_In in Hr as [Hr _]. now apply H. Qed.

(** C10. When every record's platform is "X" or "Truth Social", the
    total engagement of every row is the (int64) sum of its X and Truth
    Social totals, and their plain sum when that fits; the table is
    produced whenever the Tag_id column is text. *)
Theorem total_is_sum_of_platform_totals (df_raw : list RawRecord) :
  Spec.tag_column_is_text df_raw = true ->
  Spec.two_platforms df_raw ->
  exists rows,
    process_data df_raw = Ok rows /\
    forall row, In row rows ->
      Total_Engagement row
      = Int64.add (X_Total_Engagement row) (Truth_Total_Engagement row) /\
      (Int64.in_range (X_Total_Engagement row + Truth_Total_Engagement row) ->
       Total_Engagement row
       = X_Total_Engagement row + Truth_Total_Engagement row).
Proof.
  intros Htext Hplat.
  exists (map (Spec.tag_row df_raw) all_expected_tags).
  split; [now apply ProcessorFacts.process_data_eq|].
  intros row Hrow.
  apply ProcessorFacts.in_process_data in Hrow as (t & Ht & ->).
  assert (Hsum : Total_Engagement (Spec.tag_row df_raw t)
      = Int64.add (X_Total_Engagement (Spec.tag_row df_raw t))
                  (Truth_Total_Engagement (Spec.tag_row df_raw t))).
  { unfold Spec.tag_row.
    destruct (tag_metrics_cases df_raw t) as [[_ ->]|(_ & _ & ->)];
      [reflexivity|].
    cbn [make_row metrics_of_data Total_Engagement X_Total_Engagement
         Truth_Total_Engagement total_engagement x_total_engagement
         truth_total_engagement].
    rewrite !guarded_engagement_sum.
    change (Int64.add (Int64.add (column_sum Likes ?d) (column_sum Repost ?d))
                      (column_sum Replies ?d)) with (engagement_sum d).
    rewrite !engagement_sum_wrap, Int64Facts.add_wrap. f_equal.
    pose proof (two_platforms_filter (tag_matches t) _ Hplat) as Hd.
    rewrite (total_split Likes _ Hd), (total_split Repost _ Hd),
            (total_split Replies _ Hd).
    lia. }
  split; [exact Hsum|].
  intros Hfit. rewrite Hsum. now apply Int64Facts.add_exact.
Qed.

Lemma total_is_sum_of_platform_totals_witness :
  exists rows,
    process_data Samples.both_platforms = Ok rows /\
    forall row, In row rows ->
      Total_Engagement row
      = Int64.add (X_Total_Engagement row) (Truth_Total_Engagement row) /\
      (Int64.in_range (X_Total_Engagement row + Truth_Total_Engagement row) ->
       Total_Engagement row
       = X_Total_Engagement row + Truth_Total_Engagement row).
Proof.
  apply (total_is_sum_of_platform_totals Samples.both_platforms eq_refl).
  intros r Hr. cbn in Hr.
  destruct Hr as [<-|[<-|[<-|[]]]]; cbn; auto.
Defined.

(** A record on any other platform enters the total of its tag but
    neither platform total. *)
Lemma other_platform_breaks_the_split :
  let row := Spec.tag_row [Samples.post "A1" "A" "Threads" 4 0 0] "A1" in
  Total_Engagement row = 4 /\
  X_Total_Engagement row = 0 /\
  Truth_Total_Engagement row = 0.
Proof. repeat split; reflexivity. Qed.

End PlatformSplit.

(** * Properties of the category-level table *)

Module OverallFacts.

Import Processor Overall.

(** The table computed for any processed data: three rows for each of
    A, B and C, then the row of the totals. *)
Lemma calculate_category_stats_eq raw_file df :
  let platform_stats := load_raw_data raw_file in
  let total_posts := column_sum Frequency_Count df in
  calculate_category_stats raw_file df
  = Ok ((rows_of_category platform_stats df total_posts "A" (OverallSpec.name_of "A")
         ++ rows_of_category platform_stats df total_posts "B" (OverallSpec.name_of "B")
         ++ rows_of_category platform_stats df total_posts "C" (OverallSpec.name_of "C"))
        ++ [total_row df total_posts])%list.
Proof.
  cbv zeta. unfold calculate_category_stats.
  cbn [mapM bind category_rows dict_get category_names String.eqb Ascii.eqb
       Bool.eqb List.concat].
  unfold category_rows. cbn [dict_get category_names bind].
  cbn [String.eqb Ascii.eqb Bool.eqb]. cbn [bind List.concat].
  rewrite app_nil_r. reflexivity.
Qed.

End OverallFacts.

(** * The row of the totals *)

Section GrandTotal.

Import Processor Overall.

Lemma total_map_add {A : Type} (f g : A -> Z) l :
  Spec.total (map (fun a => f a + g a) l)
  = Spec.total (map f l) + Spec.total (map g l).
Proof. unfold Spec.total. induction l; cbn; lia. Qed.

Lemma total_indicator {A : Type} (f : A -> bool) l :
  Spec.total (map (fun a => if f a then 1 else 0) l) = Py.len (filter f l).
Proof.
  unfold Spec.total, Py.len. induction l as [|a l IH]; cbn; [reflexivity|].
  destruct (f a); cbn [List.length]; lia.
Qed.

(** Counting the selected records tag by tag is counting the matching
    tags record by record. *)
Lemma mentions_by_tag_or_by_record (tags : list string) (l : list RawRecord) :
  Spec.total (map (fun t => Py.len (filter (tag_matches t) l)) tags)
  = Spec.total (map (fun r => Py.len (filter (fun t => tag_matches t r) tags)) l).
Proof.
  induction l as [|r l IH].
  - cbn. unfold Spec.total. induction tags; cbn; lia.
  - cbn [map Spec.total fold_right]. fold (Spec.total
      (map (fun r => Py.len (filter (fun t => tag_matches t r) tags)) l)).
    rewrite <- IH, <- total_indicator, <- total_map_add. f_equal.
    apply map_ext. intros t. cbn [filter].
    destruct (tag_matches t r); unfold Py.len; cbn [List.length]; lia.
Qed.

Lemma total_of_ones (l : list RawRecord) (f : RawRecord -> Z) :
  (forall r, In r l -> f r = 1) -> Spec.total (map f l) = Py.len l.
Proof.
  unfold Spec.total, Py.len. induction l as [|r l IH]; intros H.
  - reflexivity.
  - cbn [map fold_right List.length]. rewrite (H r (or_introl eq_refl)).
    rewrite IH by (intros r' Hr'; apply H; now right). lia.
Qed.

Lemma tag_row_count df_raw t :
  Frequency_Count (Spec.tag_row df_raw t)
  = Py.len (filter (tag_matches t) df_raw).
Proof.
  unfold Spec.tag_row.
  destruct (tag_metrics_cases df_raw t) as [[E ->]|(_ & _ & ->)].
  - now rewrite E.
  - reflexivity.
Qed.

Lemma mention_counts_total df_raw :
  Spec.one_code_each df_raw ->
  Spec.total (map Frequency_Count (map (Spec.tag_row df_raw) all_expected_tags))
  = Py.len df_raw.
Proof.
  intros H. rewrite map_map.
  rewrite (map_ext _ (fun t => Py.len (filter (tag_matches t) df_raw)))
    by (intros t; apply tag_row_count).
  rewrite mentions_by_tag_or_by_record.
  apply total_of_ones. intros r Hr. unfold Py.len. now rewrite (H r Hr).
Qed.

(** C5 (as stated) fails: one post whose tag field carries two codes is
    one input record, and the row of the totals counts 2. *)
Lemma grand_total_counts_mentions_not_records :
  exists df results row,
    process_data Samples.two_codes = Ok df /\
    calculate_category_stats (Some Samples.two_codes) df = Ok results /\
    nth_error results 9 = Some row /\
    Category_ID row = "TOTAL"%string /\
    Frequency_Count_Cell row = CInt 2 /\
    Frequency_Pct_Cell row = "100%"%string /\
    Py.len Samples.two_codes = 1.
Proof.
  eexists. eexists. eexists.
  split; [apply ProcessorFacts.process_data_eq; first [reflexivity | assumption]|].
  split; [apply OverallFacts.calculate_category_stats_eq|].
  split; [reflexivity|].
  repeat split; reflexivity.
Qed.

(** C5 (amended). From the table of the tag-level script (produced
    whenever the Tag_id column is text), the last row of the
    category-level table is the row
    TOTAL; its percentage is the text 100% and its count is the sum of the
    counts of the tag rows.  When every record's tag field contains
    exactly one taxonomy code that sum is the number of input records (and
    so is the cell, for fewer than 2^63 records). *)
Theorem grand_total_row_sums_the_mentions
    (raw_file : option (list RawRecord)) (df_raw : list RawRecord) :
  Spec.tag_column_is_text df_raw = true ->
  exists df results front row,
    process_data df_raw = Ok df /\
    calculate_category_stats raw_file df = Ok results /\
    results = (front ++ [row])%list /\
    (forall r, In r front -> Category_ID r <> "TOTAL"%string) /\
    Category_ID row = "TOTAL"%string /\
    Frequency_Pct_Cell row = "100%"%string /\
    Frequency_Count_Cell row = CInt (Int64.sum (map Frequency_Count df)) /\
    (Spec.one_code_each df_raw ->
     Spec.total (map Frequency_Count df) = Py.len df_raw /\
     (Py.len df_raw < 2 ^ 63 -> Frequency_Count_Cell row = CInt (Py.len df_raw))).
Proof.
  intros Htext. eexists. eexists. eexists. eexists.
  split; [now apply ProcessorFacts.process_data_eq|].
  split; [apply OverallFacts.calculate_category_stats_eq|].
  split; [reflexivity|].
  split.
  { intros r Hr. cbn in Hr.
    repeat (destruct Hr as [<-|Hr]; [discriminate|]). destruct Hr. }
  split; [reflexivity|]. split; [reflexivity|]. split; [reflexivity|].
  intros Hone. split; [now apply mention_counts_total|].
  intros Hlen. cbn [total_row Frequency_Count_Cell]. f_equal.
  unfold column_sum. rewrite Int64Facts.sum_wrap, mention_counts_total by exact Hone.
  apply Int64Facts.wrap_in_range. unfold Int64.in_range, Int64.half_modulus.
  pose proof (ProcessorFacts.len_nonneg df_raw). lia.
Qed.

Lemma grand_total_row_sums_the_mentions_witness :
  exists df results front row,
    process_data Samples.three_posts = Ok df /\
    calculate_category_stats (Some Samples.three_posts) df = Ok results /\
    results = (front ++ [row])%list /\
    Category_ID row = "TOTAL"%string /\
    Frequency_Pct_Cell row = "100%"%string /\
    Spec.total (map Frequency_Count df) = 3 /\
    Frequency_Count_Cell row = CInt 3.
Proof.
  destruct (grand_total_row_sums_the_mentions
              (Some Samples.three_posts) Samples.three_posts eq_refl)
    as (df & results & front & row & H1 & H2 & H3 & _ & H5 & H6 & _ & H8).
  assert (Hone : Spec.one_code_each Samples.three_posts).
  { intros r Hr. cbn in Hr. destruct Hr as [<-|[<-|[<-|[]]]]; reflexivity. }
  destruct (H8 Hone) as [H9 H10].
  exists df, results, front, row.
  split; [exact H1|]. split; [exact H2|]. split; [exact H3|].
  split; [exact H5|]. split; [exact H6|]. split; [exact H9|].
  change (Frequency_Count_Cell row = CInt (Py.len Samples.three_posts)).
  apply H10. reflexivity.
Defined.

End GrandTotal.

(** * The combined rows of the categories *)

Section CategoryLevel.

Import Processor Overall.

(** C4 (as stated) fails: one post tagged A1,B2 is 1 input record, and
    the combined row of category A counts its 1 mention; the percentage
    of the row is 50.00, the count divided by the 2 mentions that the
    row TOTAL counts, where the count divided by the number of records
    is 100.00. *)
Lemma combined_percentage_divides_by_mentions :
  exists df results row total,
    process_data Samples.two_codes = Ok df /\
    calculate_category_stats (Some Samples.two_codes) df = Ok results /\
    nth_error results 0 = Some row /\
    nth_error results 9 = Some total /\
    Category_ID row = "A"%string /\ Platform_Name row = "Combined"%string /\
    Frequency_Count_Cell row = CInt 1 /\
    Py.len Samples.two_codes = 1 /\
    Category_ID total = "TOTAL"%string /\
    Frequency_Count_Cell total = CInt 2 /\
    Frequency_Pct_Cell row = "50.00%"%string /\
    (F64.format_2f (F64.mul (F64.div_int 1 (Py.len Samples.two_codes))
                            (F64.of_int 100)) ++ "%")%string
    = "100.00%"%string /\
    Frequency_Pct_Cell row
    <> (F64.format_2f (F64.mul (F64.div_int 1 (Py.len Samples.two_codes))
                               (F64.of_int 100)) ++ "%")%string.
Proof.
  do 4 eexists.
  split; [apply ProcessorFacts.process_data_eq; reflexivity|].
  split; [apply OverallFacts.calculate_category_stats_eq|].
  split; [reflexivity|]. split; [reflexivity|].
  repeat (split; [reflexivity|]).
  vm_compute. discriminate.
Qed.

Variable raw_file : option (list RawRecord).
Variable df : list TagRow.

(** C4 (amended). The combined row of each category A, B, C holds as its
    count the sum of the counts of the tag rows of that category (in
    int64, the plain sum when it fits), and as its percentage that sum
    divided by the sum of the counts of all tag rows (the count of the
    row TOTAL) times 100, rendered with two decimals; with a divisor of 0
    nothing is divided and the percentage is 0.  On the table of the
    tag-level script the divisor counts each record once for every
    taxonomy code in its tag field; it is the number of records when every
    record carries exactly one code. *)
Theorem combined_row_sums_the_category :
  exists results,
    calculate_category_stats raw_file df = Ok results /\
    let total_posts := Int64.wrap (Spec.total (map Frequency_Count df)) in
    (forall c, In c ["A"; "B"; "C"]%string ->
       exists row, In row results /\
         Category_ID row = c /\ Platform_Name row = "Combined"%string) /\
    (forall row, In row results ->
       Category_ID row = "TOTAL"%string ->
       Frequency_Count_Cell row = CInt total_posts) /\
    (forall row, In row results ->
       Platform_Name row = "Combined"%string ->
       In (Category_ID row) ["A"; "B"; "C"]%string ->
       let category_data :=
         filter (fun r => String.eqb (row_Category_id r) (Category_ID row)) df in
       let combined := Int64.wrap (Spec.total (map Frequency_Count category_data)) in
       Frequency_Count_Cell row = CInt combined /\
       (Int64.in_range (Spec.total (map Frequency_Count category_data)) ->
        Frequency_Count_Cell row
        = CInt (Spec.total (map Frequency_Count category_data))) /\
       Frequency_Pct_Cell row
       = (F64.format_2f
            (if total_posts >? 0
             then F64.mul (F64.div (F64.of_int combined)
                                   (F64.of_int total_posts))
                          (F64.of_int 100)
             else F64.zero) ++ "%")%string) /\
    (forall df_raw, process_data df_raw = Ok df ->
       Spec.total (map Frequency_Count df)
       = Spec.total
           (map (fun r => Py.len (filter (fun t => tag_matches t r)
                                         all_expected_tags)) df_raw) /\
       (Spec.one_code_each df_raw -> Py.len df_raw < 2 ^ 63 ->
        total_posts = Py.len df_raw)).
Proof.
  eexists. split; [apply OverallFacts.calculate_category_stats_eq|].
  cbv zeta.
  rewrite <- (Int64Facts.sum_wrap (map Frequency_Count df)).
  fold (column_sum Frequency_Count df).
  set (total_posts := column_sum Frequency_Count df).
  split; [|split; [|split]].
  - intros c [<-|[<-|[<-|[]]]]; eexists.
    + split; [cbn; left; reflexivity | split; reflexivity].
    + split; [cbn; do 3 right; left; reflexivity | split; reflexivity].
    + split; [cbn; do 6 right; left; reflexivity | split; reflexivity].
  - intros row Hrow Hid. cbn in Hrow.
    repeat (destruct Hrow as [<-|Hrow]; [try discriminate Hid|]);
      [reflexivity | destruct Hrow].
  - intros row Hrow Hcomb Hcat. cbn in Hrow.
    repeat (destruct Hrow as [<-|Hrow];
            [try discriminate Hcomb;
             try (cbn in Hcat; exfalso; intuition discriminate)|]);
      [| | | destruct Hrow].
    all: cbn [combined_row Category_ID Frequency_Count_Cell Frequency_Pct_Cell];
      rewrite <- !Int64Facts.sum_wrap;
      (split; [reflexivity|]);
      (split; [intros Hfit; apply f_equal; unfold column_sum;
               rewrite Int64Facts.sum_wrap;
               now apply Int64Facts.wrap_in_range|]);
      unfold percent_or_zero; destruct (total_posts >? 0); reflexivity.
  - intros df_raw Hdf. subst total_posts.
    apply ProcessorFacts.process_data_ok in Hdf as [_ Hdf].
    assert (Hcount : Spec.total (map Frequency_Count df)
              = Spec.total
                  (map (fun r => Py.len (filter (fun t => tag_matches t r)
                                                all_expected_tags)) df_raw)).
    { rewrite Hdf, map_map.
      rewrite (map_ext _ (fun t => Py.len (filter (tag_matches t) df_raw)))
        by (intros t; apply tag_row_count).
      apply mentions_by_tag_or_by_record. }
    split; [exact Hcount|].
    intros Hone Hlen. unfold column_sum.
    rewrite Int64Facts.sum_wrap, Hdf, mention_counts_total by exact Hone.
    apply Int64Facts.wrap_in_range. unfold Int64.in_range, Int64.half_modulus.
    pose proof (ProcessorFacts.len_nonneg df_raw). lia.
Qed.

End CategoryLevel.

(** * Missing input files *)

Section MissingFiles.

Import Processor Overall.

(** C6 (as stated) fails: without the raw file the category-level script
    still writes its table from the processed file, and the X row of
    category A then holds the estimate 1 (one tag with engagement on X)
    where the raw data has 2 posts. *)
Lemma missing_raw_file_gives_estimated_rows :
  exists df estimated counted row_e row_c,
    process_data Samples.three_posts = Ok df /\
    main None (Some df) = Some estimated /\
    main (Some Samples.three_posts) (Some df) = Some counted /\
    nth_error estimated 1 = Some row_e /\
    nth_error counted 1 = Some row_c /\
    Category_ID row_e = "A"%string /\ Platform_Name row_e = "X"%string /\
    Frequency_Count_Cell row_e = CInt 1 /\
    Frequency_Count_Cell row_c = CInt 2.
Proof.
  exists (map (Spec.tag_row Samples.three_posts) all_expected_tags).
  unfold main, load_processed_data.
  rewrite !OverallFacts.calculate_category_stats_eq.
  do 4 eexists.
  split; [apply ProcessorFacts.process_data_eq; first [reflexivity | assumption]|].
  split; [reflexivity|]. split; [reflexivity|].
  split; [reflexivity|]. split; [reflexivity|].
  repeat split; reflexivity.
Qed.

(** C6 (amended). Without the raw file the tag-level script raises and
    writes nothing; without the processed file the category-level script
    writes nothing.  With the processed file but without the raw file the
    category-level script writes its table, and the frequency of every
    platform row is the estimate: the number of the category's tag rows
    with positive engagement on that platform (left empty when 0). *)
Theorem missing_files_behaviour :
  Processor.load_and_process_data None = Raise FileNotFoundError /\
  Processor.main None = None /\
  (forall raw_file, Overall.main raw_file None = None) /\
  (forall df, exists results,
     Overall.main None (Some df) = Some results /\
     List.length results = 10%nat /\
     forall row, In row results ->
       Platform_Name row <> "Combined"%string ->
       let n := OverallSpec.estimated_frequency (OverallSpec.engagement_column (Platform_Name row))
                                    (Category_ID row) df in
       Frequency_Count_Cell row = if n >? 0 then CInt n else CStr "").
Proof.
  split; [reflexivity|]. split; [reflexivity|]. split; [reflexivity|].
  intros df. unfold main, load_processed_data.
  rewrite OverallFacts.calculate_category_stats_eq.
  eexists. split; [reflexivity|]. split; [reflexivity|].
  intros row Hrow Hplat. cbn in Hrow.
  repeat (destruct Hrow as [<-|Hrow]; [try (exfalso; now apply Hplat)|]);
    try destruct Hrow; reflexivity.
Qed.

End MissingFiles.

(** * Empty cells of the platform rows *)

Section EmptyCells.

Import Processor Overall.

(** C7 (as stated) fails in both directions.  A post with no engagement
    gives category A a positive frequency on X, yet the total and average
    engagement cells are empty; a post tagged A1,B2 and filed under
    category A gives category B no frequency on X, yet its total
    engagement cell holds 5. *)
Lemma empty_cells_follow_their_own_value :
  (exists df results row,
     process_data Samples.silent_post = Ok df /\
     calculate_category_stats (Some Samples.silent_post) df = Ok results /\
     nth_error results 1 = Some row /\
     Category_ID row = "A"%string /\ Platform_Name row = "X"%string /\
     Frequency_Count_Cell row = CInt 1 /\
     Frequency_Pct_Cell row = "100.00%"%string /\
     Total_Engagement_Cell row = ""%string /\
     Average_Engagement_Cell row = ""%string) /\
  (exists df results row,
     process_data Samples.two_codes = Ok df /\
     calculate_category_stats (Some Samples.two_codes) df = Ok results /\
     nth_error results 4 = Some row /\
     Category_ID row = "B"%string /\ Platform_Name row = "X"%string /\
     Frequency_Count_Cell row = CStr "" /\
     Frequency_Pct_Cell row = ""%string /\
     Total_Engagement_Cell row = "5"%string /\
     Average_Engagement_Cell row = ""%string).
Proof.
  split; do 3 eexists;
    (split; [apply ProcessorFacts.process_data_eq; first [reflexivity | assumption]|]);
    (split; [apply OverallFacts.calculate_category_stats_eq|]);
    (split; [reflexivity|]); repeat split; reflexivity.
Qed.

Variable raw_file : option (list RawRecord).
Variable df : list TagRow.

(** C7 (amended). In every X and Truth Social row each of the four
    fields is empty exactly when its own value is not positive: the count
    and the percentage follow the platform frequency, the total
    engagement follows the platform's total engagement, and the average
    follows the average (total / frequency, 0 without frequency).  So a
    frequency of zero empties the count, the percentage and the average;
    a field that is not empty carries its computed value. *)
Theorem platform_cells_guarded_by_own_value :
  exists results,
    calculate_category_stats raw_file df = Ok results /\
    forall row, In row results ->
      Platform_Name row <> "Combined"%string ->
      let col := OverallSpec.engagement_column (Platform_Name row) in
      let category_data :=
        filter (fun r => String.eqb (row_Category_id r) (Category_ID row)) df in
      let frequency :=
        platform_frequency (load_raw_data raw_file) (Platform_Name row)
                           (Category_ID row) col category_data in
      let total_engagement := Int64.sum (map col category_data) in
      let total_posts := Int64.sum (map Frequency_Count df) in
      let average := average_or_zero total_engagement frequency in
      Frequency_Count_Cell row
      = (if frequency >? 0 then CInt frequency else CStr "") /\
      Frequency_Pct_Cell row
      = (if frequency >? 0
         then Py.format_2f (percent_or_zero frequency total_posts) ++ "%"
         else "")%string /\
      Total_Engagement_Cell row
      = (if total_engagement >? 0
         then F64.format_int_comma total_engagement else ""%string) /\
      Average_Engagement_Cell row
      = (if Py.gt0 average then Py.format_comma_0f average else ""%string) /\
      (frequency <= 0 ->
       Frequency_Count_Cell row = CStr "" /\
       Frequency_Pct_Cell row = ""%string /\
       Average_Engagement_Cell row = ""%string).
Proof.
  eexists. split; [apply OverallFacts.calculate_category_stats_eq|].
  intros row Hrow Hplat. cbn in Hrow.
  repeat (destruct Hrow as [<-|Hrow]; [try (exfalso; now apply Hplat)|]);
    try destruct Hrow.
  all: cbv zeta;
    cbn [platform_row Category_ID Platform_Name Frequency_Count_Cell
         Frequency_Pct_Cell Total_Engagement_Cell Average_Engagement_Cell];
    (split; [reflexivity|]); (split; [reflexivity|]);
    (split; [reflexivity|]); (split; [reflexivity|]);
    intros Hzero;
    match goal with
    | |- context [platform_frequency ?s ?p ?c ?k ?d] =>
        set (frequency := platform_frequency s p c k d) in *
    end;
    assert (E : (frequency >? 0) = false)
      by (rewrite Z.gtb_ltb; apply Z.ltb_ge; exact Hzero);
    unfold average_or_zero; rewrite E;
    repeat split; reflexivity.
Qed.

End EmptyCells.

(** * Order of the rows *)

Section RowOrder.

Import Processor Overall.

Lemma str_compare_flip s s' :
  Py.str_compare s s' = CompOpp (Py.str_compare s' s).
Proof. apply String.compare_antisym. Qed.

Lemma key_leb_total a b : key_leb a b = false -> key_leb b a = true.
Proof.
  unfold key_leb.
  rewrite (str_compare_flip (row_Category_id b)),
          (str_compare_flip (row_Tag_id b)).
  destruct (Py.str_compare (row_Category_id a) (row_Category_id b));
    destruct (Py.str_compare (row_Tag_id a) (row_Tag_id b));
    cbn; congruence.
Qed.

Lemma insert_row_perm r l : Permutation (r :: l) (insert_row r l).
Proof.
  induction l as [|r' l IH]; cbn.
  - apply Permutation_refl.
  - destruct (key_leb r r').
    + apply Permutation_refl.
    + eapply perm_trans; [apply perm_swap|]. now apply perm_skip.
Qed.

(** [sort_values] permutes the rows. *)
Lemma sort_values_perm l : Permutation l (sort_values l).
Proof.
  induction l as [|r l IH]; cbn.
  - apply perm_nil.
  - eapply perm_trans; [apply perm_skip, IH | apply insert_row_perm].
Qed.

Lemma insert_row_hd r r' l :
  Spec.key_le r' r -> HdRel Spec.key_le r' l -> HdRel Spec.key_le r' (insert_row r l).
Proof.
  intros Hr Hl. destruct l as [|a l]; cbn.
  - now constructor.
  - inversion_clear Hl. destruct (key_leb r a); now constructor.
Qed.

Lemma insert_row_sorted r l :
  Sorted Spec.key_le l -> Sorted Spec.key_le (insert_row r l).
Proof.
  induction 1 as [|a l Hl IH Ha]; cbn.
  - repeat constructor.
  - destruct (key_leb r a) eqn:E.
    + constructor; [now constructor | now constructor].
    + constructor; [exact IH|].
      apply insert_row_hd; [now apply key_leb_total | exact Ha].
Qed.

(** [sort_values] leaves the rows in ascending order of their keys. *)
Lemma sort_values_ascending l : Sorted Spec.key_le (sort_values l).
Proof.
  induction l as [|r l IH]; cbn; [constructor | now apply insert_row_sorted].
Qed.

Lemma key_ltb_sound a b : Spec.key_ltb a b = true -> Spec.key_lt a b.
Proof.
  unfold Spec.key_ltb, Spec.key_lt.
  destruct (Py.str_compare (fst a) (fst b)) eqn:E1; try discriminate.
  - destruct (Py.str_compare (snd a) (snd b)) eqn:E2; try discriminate.
    intros _. right. split; [now apply String.compare_eq_iff | reflexivity].
  - intros _. now left.
Qed.

Lemma strictly_sortedb_sound (l : list TagRow) :
  Spec.strictly_sortedb (map Spec.key l) = true ->
  StronglySorted (fun a b => Spec.key_lt (Spec.key a) (Spec.key b)) l.
Proof.
  induction l as [|a l IH]; cbn [map Spec.strictly_sortedb]; intros H.
  - constructor.
  - apply andb_true_iff in H as [Ha Hl]. constructor; [now apply IH|].
    rewrite forallb_forall in Ha. apply Forall_forall. intros b Hb.
    apply key_ltb_sound, Ha, in_map, Hb.
Qed.

(** C9. The tag-level table (produced whenever the Tag_id column is
    text) is in strictly ascending order of
    (Category_id, Tag_id), each compared as a string; the category-level
    table lists A, B, C in this order, each with its Combined, X and
    Truth Social rows in this order, and ends with the single TOTAL
    row. *)
Theorem tables_are_ordered :
  (forall df_raw, Spec.tag_column_is_text df_raw = true -> exists rows,
     process_data df_raw = Ok rows /\
     StronglySorted (fun a b => Spec.key_lt (Spec.key a) (Spec.key b)) rows) /\
  (forall raw_file df, exists results,
     calculate_category_stats raw_file df = Ok results /\
     map (fun row => (Category_ID row, Platform_Name row)) results
     = [ ("A", "Combined"); ("A", "X"); ("A", "Truth Social");
         ("B", "Combined"); ("B", "X"); ("B", "Truth Social");
         ("C", "Combined"); ("C", "X"); ("C", "Truth Social");
         ("TOTAL", "Combined") ]%string).
Proof.
  split.
  - intros df_raw Htext. eexists.
    split; [now apply ProcessorFacts.process_data_eq|].
    apply strictly_sortedb_sound.
    rewrite ProcessorFacts.tag_row_keys. vm_compute. reflexivity.
  - intros raw_file df. eexists.
    split; [apply OverallFacts.calculate_category_stats_eq|].
    reflexivity.
Qed.

Lemma tables_are_ordered_witness :
  exists rows,
    process_data Samples.both_platforms = Ok rows /\
    StronglySorted (fun a b => Spec.key_lt (Spec.key a) (Spec.key b)) rows.
Proof.
  apply (proj1 tables_are_ordered Samples.both_platforms). reflexivity.
Defined.

End RowOrder.

(** * The platform frequencies derived from the engagement columns *)

Module SignalFacts.

Import Processor Signal SignalSpec.

Lemma round_half_even_nearest num den :
  0 < den ->
  2 * Z.abs (num - F64.round_half_even num den * den) <= den.
Proof.
  intros Hden. unfold F64.round_half_even.
  pose proof (Z.div_mod num den ltac:(lia)) as Hdm.
  pose proof (Z.mod_pos_bound num den Hden) as Hr.
  set (q := num / den) in *. set (r := num mod den) in *.
  destruct (Z.compare_spec (2 * r) den) as [E|E|E];
    [destruct (Z.even q)| |]; lia.
Qed.

(** [round(x)] returns an integer nearest to [x]. *)
Lemma py_round_nearest x n :
  F64.py_round x = Some n -> Spec.nearest_integer x n.
Proof.
  unfold F64.py_round, Spec.nearest_integer.
  destruct x as [s| | |s m e]; try discriminate.
  - intros [= <-]. cbn. lia.
  - intros [= <-]. cbn [Spec.exact_num Spec.exact_den].
    unfold F64.scaled_magnitude. rewrite Z.pow_0_r, Z.mul_1_r.
    assert (Hden : 0 < 2 ^ Z.max (- e) 0) by (apply Z.pow_pos_nonneg; lia).
    pose proof (round_half_even_nearest (Z.pos m * 2 ^ Z.max e 0) _ Hden).
    destruct s; cbn [F64.signed]; lia.
Qed.

Lemma round_int_ok x n : round_int x = Ok n -> F64.py_round x = Some n.
Proof.
  unfold round_int. destruct (F64.py_round x).
  - now intros [= ->].
  - destruct x; discriminate.
Qed.

Section Columns.

Variable p : platform.

Lemma count_loop_spec rows :
  forall t counts t',
    count_loop (total_of p) (average_of p) rows t = Ok (counts, t') ->
    t' = fold_left (fun t row =>
                      if F64.gt0 (average_of p row)
                      then F64.add t (quotient p row) else t) rows t /\
    Forall2 (fun row n =>
               if F64.gt0 (average_of p row)
               then F64.py_round (quotient p row) = Some n
               else n = 0) rows counts.
Proof.
  induction rows as [|row rows IH]; intros t counts t' H; cbn in H.
  - injection H as <- <-. split; constructor.
  - cbn [fold_left]. destruct (F64.gt0 (average_of p row)) eqn:E.
    + fold (quotient p row) in H.
      destruct (round_int (quotient p row)) as [n|] eqn:En; [|discriminate].
      cbn [bind] in H.
      destruct (count_loop (total_of p) (average_of p) rows
                           (F64.add t (quotient p row)))
        as [[cs tt]|] eqn:Er; [|discriminate].
      cbn in H. injection H as <- <-.
      destruct (IH _ _ _ Er) as [-> HF]. split; [reflexivity|].
      constructor; [|exact HF]. rewrite E. now apply round_int_ok.
    + destruct (count_loop (total_of p) (average_of p) rows t)
        as [[cs tt]|] eqn:Er; [|discriminate].
      cbn in H. injection H as <- <-.
      destruct (IH _ _ _ Er) as [-> HF]. split; [reflexivity|].
      constructor; [|exact HF]. now rewrite E.
Qed.

Lemma zip_rows total_posts rows counts :
  Forall2 (fun row n =>
             if F64.gt0 (average_of p row)
             then F64.py_round (quotient p row) = Some n
             else n = 0) rows counts ->
  Forall2 (derived_row p total_posts) rows
          (zip_with (add_columns total_posts) rows counts).
Proof.
  induction 1 as [|row n rows counts Hn _ IH]; cbn.
  - constructor.
  - constructor; [|exact IH].
    unfold derived_row. cbn [add_columns source_row Frequency_Count_Col
                             Frequency_Percent_Col].
    split; [reflexivity|]. split; [|reflexivity].
    destruct (F64.gt0 (average_of p row)); [|exact Hn].
    split; [exact Hn | now apply py_round_nearest].
Qed.

Lemma calculate_spec df out total_posts :
  calculate_frequency_percentage (total_of p) (average_of p) df
  = Ok (out, total_posts) ->
  total_posts = derived_total p df /\
  Forall2 (derived_row p total_posts) df out.
Proof.
  unfold calculate_frequency_percentage. intros H.
  destruct (count_loop (total_of p) (average_of p) df F64.zero)
    as [[counts t]|] eqn:E; [|discriminate].
  cbn in H. injection H as <- <-.
  destruct (count_loop_spec _ _ _ _ E) as [-> HF].
  split; [reflexivity | now apply zip_rows].
Qed.

(** The call returns when no quotient of a row with a positive average
    is infinite or NaN. *)
Lemma count_loop_returns rows :
  (forall row, In row rows -> F64.gt0 (average_of p row) = true ->
     F64.py_round (quotient p row) <> None) ->
  forall t, exists counts t',
    count_loop (total_of p) (average_of p) rows t = Ok (counts, t').
Proof.
  induction rows as [|row rows IH]; intros H t; cbn.
  - now exists [], t.
  - assert (Hrest : forall r, In r rows -> F64.gt0 (average_of p r) = true ->
                      F64.py_round (quotient p r) <> None)
      by (intros r Hr; apply H; now right).
    destruct (F64.gt0 (average_of p row)) eqn:E.
    + fold (quotient p row). unfold round_int.
      destruct (F64.py_round (quotient p row)) as [n|] eqn:En.
      * destruct (IH Hrest (F64.add t (quotient p row))) as (cs & t' & ->).
        cbn. now exists (n :: cs), t'.
      * exfalso. now apply (H row (or_introl eq_refl) E).
    + destruct (IH Hrest t) as (cs & t' & ->). cbn. now exists (0 :: cs), t'.
Qed.

Lemma calculate_returns df :
  (forall row, In row df -> F64.gt0 (average_of p row) = true ->
     F64.py_round (quotient p row) <> None) ->
  exists out total_posts, calculate p df = Ok (out, total_posts).
Proof.
  intros H. destruct (count_loop_returns df H F64.zero) as (cs & t & E).
  assert (Hc : calculate p df
               = calculate_frequency_percentage (total_of p) (average_of p) df)
    by now destruct p.
  rewrite Hc. unfold calculate_frequency_percentage. rewrite E. cbn.
  eauto.
Qed.

End Columns.

End SignalFacts.

Section DerivedFrequency.

Import Processor Signal SignalSpec.

(** C8. On either platform, when the function returns, every row with a
    positive platform average holds as its count the quotient platform
    total engagement / platform average engagement rounded to a nearest
    integer (ties to even), every other row holds 0, and the percentage
    of a row is its count divided by the derived total post count (the sum
    of the quotients before rounding) times 100, or 0 when that total is
    not positive. *)
Theorem derived_count_is_rounded_quotient
    (p : platform) (df : list TagRow) (out : list FreqRow)
    (total_posts : F64.float) :
  calculate p df = Ok (out, total_posts) ->
  total_posts = derived_total p df /\
  Forall2 (derived_row p total_posts) df out.
Proof.
  intros H. apply SignalFacts.calculate_spec.
  destruct p; exact H.
Qed.

Lemma derived_count_is_rounded_quotient_witness :
  exists out total_posts,
    calculate OnX sample_table = Ok (out, total_posts) /\
    total_posts = derived_total OnX sample_table /\
    Forall2 (derived_row OnX total_posts) sample_table out /\
    map Frequency_Count_Col out = [3; 1; 0].
Proof.
  destruct (calculate OnX sample_table) as [[out total_posts]|] eqn:E;
    [|vm_compute in E; discriminate].
  exists out, total_posts.
  destruct (derived_count_is_rounded_quotient OnX sample_table out total_posts E)
    as [Ht Hrows].
  split; [reflexivity|]. split; [exact Ht|]. split; [exact Hrows|].
  vm_compute in E. injection E as <- _. reflexivity.
Defined.

End DerivedFrequency.

(** * The tag-level table as a function of the selections *)

Module RowFacts.

Import Processor RowSpec.

Lemma average_cell_round total n :
  Py.to_float64
    (Py.round2 (if n >? 0
                then Py.NpFloat64 (F64.div (F64.of_int total) (F64.of_int n))
                else Py.Int 0))
  = average_cell total n.
Proof. unfold average_cell. now destruct (n >? 0). Qed.

Lemma guarded_len {A : Type} (l : list A) :
  (if Py.len l >? 0 then Py.len l else 0) = Py.len l.
Proof.
  destruct (Py.len l >? 0) eqn:E; [reflexivity|].
  pose proof (ProcessorFacts.len_nonneg l). lia.
Qed.

(** The row computed by the loop body depends on the raw table only
    through the records selected for the tag and the number of records. *)
Lemma tag_row_selection df_raw t :
  Spec.tag_row df_raw t
  = selection_row t (Py.len df_raw) (filter (tag_matches t) df_raw).
Proof.
  unfold Spec.tag_row.
  destruct (tag_metrics_cases df_raw t) as [[E ->]|(Hpos & _ & ->)].
  - rewrite E. reflexivity.
  - unfold make_row, selection_row, metrics_of_data.
    cbn [frequency_count frequency_percent total_likes total_reposts
         total_comments total_engagement x_total_engagement
         truth_total_engagement average_engagement x_average_engagement
         truth_average_engagement].
    rewrite !guarded_engagement_sum, !guarded_len, !average_cell_round.
    unfold percent_cell. rewrite Hpos. reflexivity.
Qed.

Lemma process_data_selection df_raw :
  Spec.tag_column_is_text df_raw = true ->
  process_data df_raw
  = Ok (map (fun t => selection_row t (Py.len df_raw)
                                    (filter (tag_matches t) df_raw))
            all_expected_tags).
Proof.
  intros Htext. rewrite (ProcessorFacts.process_data_eq _ Htext). f_equal.
  apply map_ext. intros t. apply tag_row_selection.
Qed.

(** Two tables put together have a Tag_id column of text when each
    has. *)
Lemma tag_column_is_text_app batch batch' :
  Spec.tag_column_is_text batch = true ->
  Spec.tag_column_is_text batch' = true ->
  Spec.tag_column_is_text (batch ++ batch') = true.
Proof.
  intros H H'. apply ProcessorFacts.tag_column_is_text_spec.
  apply ProcessorFacts.tag_column_is_text_spec in H as [->|(r & s & Hr & E)].
  - now apply ProcessorFacts.tag_column_is_text_spec.
  - right. exists r, s. split; [apply in_or_app; now left | exact E].
Qed.

Lemma filter_perm {A : Type} (f : A -> bool) l l' :
  Permutation l l' -> Permutation (filter f l) (filter f l').
Proof.
  induction 1 as [|a l l' _ IH|a b l|l l' l'' _ IH1 _ IH2]; cbn.
  - constructor.
  - destruct (f a); [now constructor | exact IH].
  - destruct (f a), (f b); try apply Permutation_refl. apply perm_swap.
  - eapply perm_trans; eassumption.
Qed.

Lemma total_perm l l' : Permutation l l' -> Spec.total l = Spec.total l'.
Proof.
  unfold Spec.total.
  induction 1; cbn; lia.
Qed.

Lemma len_perm {A : Type} (l l' : list A) :
  Permutation l l' -> Py.len l = Py.len l'.
Proof. intros H. unfold Py.len. now rewrite (Permutation_length H). Qed.

Lemma column_sum_perm col d d' :
  Permutation d d' -> column_sum col d = column_sum col d'.
Proof.
  intros H. unfold column_sum. rewrite !Int64Facts.sum_wrap.
  f_equal. apply total_perm. now apply Permutation_map.
Qed.

Lemma engagement_sum_perm d d' :
  Permutation d d' -> engagement_sum d = engagement_sum d'.
Proof.
  intros H. unfold engagement_sum.
  now rewrite (column_sum_perm Likes _ _ H), (column_sum_perm Repost _ _ H),
              (column_sum_perm Replies _ _ H).
Qed.

Lemma selection_row_perm t n d d' :
  Permutation d d' -> selection_row t n d = selection_row t n d'.
Proof.
  intros H. unfold selection_row.
  pose proof (filter_perm (on_platform "X") _ _ H) as HX.
  pose proof (filter_perm (on_platform "Truth Social") _ _ H) as HT.
  rewrite (len_perm _ _ H), (len_perm _ _ HX), (len_perm _ _ HT),
          (engagement_sum_perm _ _ H), (engagement_sum_perm _ _ HX),
          (engagement_sum_perm _ _ HT),
          (column_sum_perm Likes _ _ H), (column_sum_perm Repost _ _ H),
          (column_sum_perm Replies _ _ H).
  reflexivity.
Qed.

Lemma column_sum_app col d d' :
  column_sum col (d ++ d') = Int64.add (column_sum col d) (column_sum col d').
Proof.
  unfold column_sum. rewrite !Int64Facts.sum_wrap, Int64Facts.add_wrap.
  f_equal. rewrite map_app. unfold Spec.total.
  induction (map col d); cbn; lia.
Qed.

Lemma engagement_sum_app d d' :
  engagement_sum (d ++ d') = Int64.add (engagement_sum d) (engagement_sum d').
Proof.
  rewrite !engagement_sum_wrap, Int64Facts.add_wrap. f_equal.
  rewrite !map_app. unfold Spec.total.
  induction d as [|r d IH]; cbn in *; lia.
Qed.

End RowFacts.

Section RowProperties.

Import Processor RowSpec.

(** X1. The tag-level table does not depend on the order of the raw
    records: two raw tables that are permutations of each other give the
    same table. *)
Theorem process_data_ignores_row_order (df_raw df_raw' : list RawRecord) :
  Permutation df_raw df_raw' ->
  process_data df_raw = process_data df_raw'.
Proof.
  intros H.
  pose proof (ProcessorFacts.tag_column_is_text_perm _ _ H) as Hsame.
  destruct (Spec.tag_column_is_text df_raw) eqn:Htext.
  - rewrite (RowFacts.process_data_selection _ Htext),
            (RowFacts.process_data_selection df_raw') by now symmetry.
    f_equal. apply map_ext. intros t.
    rewrite (RowFacts.len_perm _ _ H).
    apply RowFacts.selection_row_perm, RowFacts.filter_perm, H.
  - rewrite (ProcessorFacts.process_data_raises _ Htext),
            (ProcessorFacts.process_data_raises df_raw') by now symmetry.
    reflexivity.
Qed.

Lemma process_data_ignores_row_order_witness :
  process_data Samples.three_posts = process_data (rev Samples.three_posts).
Proof.
  apply (process_data_ignores_row_order
           Samples.three_posts (rev Samples.three_posts)).
  apply Permutation_rev.
Defined.

(** X2. The platform totals and averages of a row are computed from the
    records selected for the tag on that platform alone: the average is
    the platform total divided by the number of those records, rounded to
    two decimals, and 0 without such a record.  Hence a row with a
    positive X (Truth Social) average has a record of its tag on X (Truth
    Social).  The table is produced whenever the Tag_id column is
    text. *)
Theorem platform_average_uses_platform_records (df_raw : list RawRecord) :
  Spec.tag_column_is_text df_raw = true ->
  exists rows,
    process_data df_raw = Ok rows /\
    forall row, In row rows ->
      let t := row_Tag_id row in
      let x_data := platform_data df_raw t "X" in
      let truth_data := platform_data df_raw t "Truth Social" in
      (forall p r, In r (platform_data df_raw t p) <->
         In r df_raw /\ Spec.mentions t r /\ Platform r = Some p) /\
      X_Total_Engagement row = engagement_sum x_data /\
      Truth_Total_Engagement row = engagement_sum truth_data /\
      X_Average_Engagement row
      = average_cell (X_Total_Engagement row) (Py.len x_data) /\
      Truth_Average_Engagement row
      = average_cell (Truth_Total_Engagement row) (Py.len truth_data) /\
      (F64.gt0 (X_Average_Engagement row) = true ->
       exists r, In r df_raw /\ Spec.mentions t r /\ Platform r = Some "X"%string) /\
      (F64.gt0 (Truth_Average_Engagement row) = true ->
       exists r, In r df_raw /\ Spec.mentions t r /\
                 Platform r = Some "Truth Social"%string).
Proof.
  intros Htext.
  exists (map (Spec.tag_row df_raw) all_expected_tags).
  split; [now apply ProcessorFacts.process_data_eq|].
  intros row Hrow.
  apply ProcessorFacts.in_process_data in Hrow as (t & _ & ->).
  rewrite RowFacts.tag_row_selection. cbv zeta.
  cbn [selection_row row_Tag_id X_Total_Engagement Truth_Total_Engagement
       X_Average_Engagement Truth_Average_Engagement].
  fold (platform_data df_raw t "X") (platform_data df_raw t "Truth Social").
  assert (Hin : forall p r, In r (platform_data df_raw t p) <->
            In r df_raw /\ Spec.mentions t r /\ Platform r = Some p).
  { intros p r. unfold platform_data.
    rewrite !filter_In, StrFacts.tag_matches_spec. unfold on_platform.
    destruct (Platform r) as [q|].
    - destruct (String.eqb_spec q p) as [->|Hne]; intuition congruence.
    - intuition congruence. }
  assert (Hpos : forall p,
            F64.gt0 (average_cell (engagement_sum (platform_data df_raw t p))
                                  (Py.len (platform_data df_raw t p))) = true ->
            exists r, In r df_raw /\ Spec.mentions t r /\ Platform r = Some p).
  { intros p. unfold average_cell.
    destruct (platform_data df_raw t p) as [|r d] eqn:E.
    - cbn. discriminate.
    - intros _. exists r. apply Hin. rewrite E. now left. }
  repeat (split; [first [exact Hin | reflexivity]|]).
  split; apply Hpos.
Qed.

Lemma platform_average_uses_platform_records_witness :
  exists rows row,
    process_data Samples.both_platforms = Ok rows /\
    In row rows /\ row_Tag_id row = "A1"%string /\
    X_Total_Engagement row = 11 /\
    Truth_Total_Engagement row = 10 /\
    X_Average_Engagement row = average_cell 11 1 /\
    Truth_Average_Engagement row = average_cell 10 1.
Proof.
  destruct (platform_average_uses_platform_records
              Samples.both_platforms eq_refl) as (rows & Hrows & H).
  destruct (ProcessorFacts.process_data_ok _ _ Hrows) as [_ E].
  exists rows, (Spec.tag_row Samples.both_platforms "A1").
  assert (Hin : In (Spec.tag_row Samples.both_platforms "A1") rows)
    by (rewrite E; now left).
  destruct (H _ Hin) as (_ & HX & HT & HXa & HTa & _).
  split; [exact Hrows|]. split; [exact Hin|]. split; [reflexivity|].
  split; [exact HX|]. split; [exact HT|].
  split; [exact HXa | exact HTa].
Defined.

(** X3. A record whose tag field is missing or contains no taxonomy
    code is selected for no tag: where the table is produced without the
    record and with it (the Tag_id column is text both times), adding
    the record anywhere to the raw table leaves every field of every row
    as it was, but for the percentage, whose denominator counts the
    record. *)
Theorem uncoded_record_changes_only_percentages
    (before after : list RawRecord) (r : RawRecord) :
  Spec.tag_column_is_text (before ++ after) = true ->
  Spec.tag_column_is_text (before ++ r :: after) = true ->
  no_code r ->
  exists rows rows',
    process_data (before ++ after) = Ok rows /\
    process_data (before ++ r :: after) = Ok rows' /\
    Forall2 same_but_percent rows rows' /\
    Forall2 (fun row row' =>
               Frequency_Pct row'
               = percent_cell (Frequency_Count row)
                              (Py.len (before ++ after) + 1)) rows rows'.
Proof.
  intros Htext Htext' Hr. do 2 eexists.
  split; [now apply RowFacts.process_data_selection|].
  split; [now apply RowFacts.process_data_selection|].
  assert (Hsel : forall t, In t all_expected_tags ->
            filter (tag_matches t) (before ++ r :: after)
            = filter (tag_matches t) (before ++ after)).
  { intros t Ht. rewrite !filter_app. cbn [filter]. now rewrite (Hr t Ht). }
  assert (Hlen : Py.len (before ++ r :: after) = Py.len (before ++ after) + 1).
  { unfold Py.len. rewrite !length_app. cbn [List.length]. lia. }
  split.
  - induction all_expected_tags as [|t l IH] in Hsel |- *; cbn [map].
    + constructor.
    + constructor; [|apply IH; intros t' Ht'; apply Hsel; now right].
      rewrite (Hsel t (or_introl eq_refl)).
      unfold same_but_percent. cbn. repeat split; reflexivity.
  - induction all_expected_tags as [|t l IH] in Hsel |- *; cbn [map].
    + constructor.
    + constructor; [|apply IH; intros t' Ht'; apply Hsel; now right].
      rewrite (Hsel t (or_introl eq_refl)), Hlen. reflexivity.
Qed.

Lemma uncoded_record_changes_only_percentages_witness :
  exists rows rows',
    process_data ([] ++ Samples.three_posts) = Ok rows /\
    process_data ([] ++ {| Tag_id := None; Category_id := Some "A"%string;
                           Platform := Some "X"%string;
                           Likes := 9; Repost := 9; Replies := 9 |}
                     :: Samples.three_posts) = Ok rows' /\
    Forall2 same_but_percent rows rows' /\
    Forall2 (fun row row' =>
               Frequency_Pct row'
               = percent_cell (Frequency_Count row)
                              (Py.len ([] ++ Samples.three_posts) + 1))
            rows rows'.
Proof.
  apply (uncoded_record_changes_only_percentages [] Samples.three_posts);
    [reflexivity | reflexivity |].
  intros t Ht. reflexivity.
Defined.

(** X4. Processing two batches of records as one table adds up, tag by
    tag, the counts of the two batches, and their totals in int64
    arithmetic; when the Tag_id column of each batch is text, the three
    tables are produced. *)
Theorem batches_add_up (batch batch' : list RawRecord) :
  Spec.tag_column_is_text batch = true ->
  Spec.tag_column_is_text batch' = true ->
  exists rows rows' both,
    process_data batch = Ok rows /\
    process_data batch' = Ok rows' /\
    process_data (batch ++ batch') = Ok both /\
    map row_Tag_id rows = map row_Tag_id both /\
    map row_Tag_id rows' = map row_Tag_id both /\
    forall i ab a b,
      nth_error both i = Some ab -> nth_error rows i = Some a ->
      nth_error rows' i = Some b ->
      sums_of ab a b.
Proof.
  intros Htext Htext'. do 3 eexists.
  split; [now apply RowFacts.process_data_selection|].
  split; [now apply RowFacts.process_data_selection|].
  split; [now apply RowFacts.process_data_selection,
                    RowFacts.tag_column_is_text_app|].
  rewrite !map_map. cbn [selection_row row_Tag_id].
  split; [reflexivity|]. split; [reflexivity|].
  intros i ab a b Hab Ha Hb.
  rewrite nth_error_map in Hab, Ha, Hb.
  destruct (nth_error all_expected_tags i) as [t|]; [|discriminate].
  cbn in Hab, Ha, Hb. injection Hab as <-. injection Ha as <-. injection Hb as <-.
  unfold sums_of. cbn [selection_row Frequency_Count Total_Likes Total_Reposts
    Total_Comments Total_Engagement X_Total_Engagement Truth_Total_Engagement].
  rewrite !filter_app, !RowFacts.column_sum_app, !RowFacts.engagement_sum_app.
  repeat split; try reflexivity.
  unfold Py.len. rewrite length_app. lia.
Qed.

Lemma batches_add_up_witness :
  exists rows rows' both a b ab,
    process_data Samples.three_posts = Ok rows /\
    process_data Samples.both_platforms = Ok rows' /\
    process_data (Samples.three_posts ++ Samples.both_platforms) = Ok both /\
    nth_error rows 0 = Some a /\ nth_error rows' 0 = Some b /\
    nth_error both 0 = Some ab /\
    row_Tag_id ab = "A1"%string /\
    sums_of ab a b /\
    Frequency_Count ab = 4 /\ Total_Likes ab = 47.
Proof.
  destruct (batches_add_up Samples.three_posts Samples.both_platforms
              eq_refl eq_refl)
    as (rows & rows' & both & Hr & Hr' & Hb & _ & _ & Hsum).
  destruct (ProcessorFacts.process_data_ok _ _ Hr) as [_ Er].
  destruct (ProcessorFacts.process_data_ok _ _ Hr') as [_ Er'].
  destruct (ProcessorFacts.process_data_ok _ _ Hb) as [_ Eb].
  exists rows, rows', both,
    (Spec.tag_row Samples.three_posts "A1"),
    (Spec.tag_row Samples.both_platforms "A1"),
    (Spec.tag_row (Samples.three_posts ++ Samples.both_platforms) "A1").
  assert (Ha : nth_error rows 0 = Some (Spec.tag_row Samples.three_posts "A1"))
    by now rewrite Er.
  assert (Ha' : nth_error rows' 0
                = Some (Spec.tag_row Samples.both_platforms "A1"))
    by now rewrite Er'.
  assert (Hab : nth_error both 0
                = Some (Spec.tag_row
                          (Samples.three_posts ++ Samples.both_platforms) "A1"))
    by now rewrite Eb.
  split; [exact Hr|]. split; [exact Hr'|]. split; [exact Hb|].
  split; [exact Ha|]. split; [exact Ha'|]. split; [exact Hab|].
  split; [reflexivity|].
  split; [exact (Hsum 0%nat _ _ _ Hab Ha Ha')|].
  split; reflexivity.
Defined.

End RowProperties.

(** * The category-level table: sums and platform counts *)

Module RollupFacts.

Import Processor Overall RollupSpec.

Lemma total_three_way (col : TagRow -> Z) df :
  known_categories df ->
  Spec.total (map col df)
  = Spec.total (map col (of_category "A" df))
    + Spec.total (map col (of_category "B" df))
    + Spec.total (map col (of_category "C" df)).
Proof.
  unfold of_category, Spec.total.
  induction df as [|r df IH]; intros H.
  - reflexivity.
  - assert (Hdf : known_categories df) by (intros r' Hr'; apply H; now right).
    specialize (IH Hdf). cbn [filter map fold_right].
    destruct (H r (or_introl eq_refl)) as [E|[E|E]]; rewrite E;
      cbn [String.eqb Ascii.eqb Bool.eqb map fold_right]; lia.
Qed.

Lemma column_sum_three_way (col : TagRow -> Z) df :
  known_categories df ->
  Int64.add (Int64.add (column_sum col (of_category "A" df))
                       (column_sum col (of_category "B" df)))
            (column_sum col (of_category "C" df))
  = column_sum col df.
Proof.
  intros H. unfold column_sum.
  rewrite !Int64Facts.sum_wrap, !Int64Facts.add_wrap.
  now rewrite (total_three_way col df H).
Qed.

(** The tables of the tag-level script have known categories. *)
Lemma processed_categories_known df_raw df :
  process_data df_raw = Ok df -> known_categories df.
Proof.
  intros Hdf. apply ProcessorFacts.process_data_ok in Hdf as [_ ->].
  intros row Hrow.
  apply ProcessorFacts.in_process_data in Hrow as (t & Ht & ->).
  cbn [Spec.tag_row make_row row_Category_id].
  unfold all_expected_tags in Ht. cbn in Ht.
  repeat (destruct Ht as [<-|Ht]; [cbn; auto|]). destruct Ht.
Qed.

(** Membership in the filter of a decidable property, with the count. *)
Lemma count_of_filter_gen {A : Type} (P : A -> Prop) (f : A -> bool) l :
  (forall a, f a = true <-> P a) ->
  Spec.count_of P l (List.length (filter f l)).
Proof.
  intros Hf. induction l as [|a l IH]; cbn.
  - constructor.
  - destruct (f a) eqn:E; cbn.
    + constructor; [now apply Hf | exact IH].
    + constructor; [|exact IH]. rewrite <- Hf. congruence.
Qed.

Lemma filed_underb_spec category platform r :
  filed_underb category platform r = true <-> filed_under category platform r.
Proof.
  unfold filed_underb, filed_under.
  destruct (Category_id r) as [c|], (Platform r) as [p|];
    try (split; [discriminate | intros [? ?]; discriminate]).
  rewrite andb_true_iff, !String.eqb_eq. split.
  - now intros [-> ->].
  - intros [[= ->] [= ->]]. now split.
Qed.

(** A cell of the cross table counts the raw records of its pair. *)
Lemma loc_group_keys category platform df_raw :
  loc category platform (group_keys df_raw)
  = Py.len (filter (filed_underb category platform) df_raw).
Proof.
  unfold loc, Py.len. f_equal. f_equal.
  induction df_raw as [|r l IH]; [reflexivity|].
  unfold group_keys in *. cbn [flat_map filter]. unfold filed_underb at 1.
  destruct (Category_id r) as [c|], (Platform r) as [p|];
    cbn [app filter fst snd]; try exact IH.
  destruct (String.eqb c category && String.eqb p platform);
    cbn [List.length]; now rewrite IH.
Qed.

Lemma in_columns_group_keys platform df_raw :
  in_columns platform (group_keys df_raw) = true <->
  exists r, In r df_raw /\ Platform r = Some platform /\ Category_id r <> None.
Proof.
  unfold in_columns. rewrite existsb_exists. unfold group_keys. split.
  - intros [[c p] [Hin Hp]]. apply in_flat_map in Hin as (r & Hr & Hk).
    exists r. split; [exact Hr|].
    destruct (Category_id r) as [c'|], (Platform r) as [p'|];
      cbn in Hk; try contradiction.
    destruct Hk as [[= <- <-]|[]]. cbn in Hp.
    apply String.eqb_eq in Hp as ->. split; congruence.
  - intros (r & Hr & Hp & Hc).
    destruct (Category_id r) as [c|] eqn:Ec; [|congruence].
    exists (c, platform). split; [|cbn; apply String.eqb_refl].
    apply in_flat_map. exists r. split; [exact Hr|].
    rewrite Ec, Hp. now left.
Qed.

(** A category that is absent from the index has no record at all. *)
Lemma not_in_index_no_record category platform df_raw :
  in_index category (group_keys df_raw) = false ->
  filter (filed_underb category platform) df_raw = [].
Proof.
  unfold in_index, group_keys. intros H.
  induction df_raw as [|r l IH]; [reflexivity|].
  cbn [flat_map] in H. rewrite existsb_app in H.
  apply orb_false_iff in H as [Hr Hl].
  cbn [filter]. rewrite (IH Hl). unfold filed_underb.
  destruct (Category_id r) as [c|], (Platform r) as [p|]; try reflexivity.
  cbn in Hr. rewrite orb_false_r in Hr. now rewrite Hr.
Qed.

(** With the platform's column in the cross table, the frequency of a
    category on the platform is the number of raw records of the pair. *)
Lemma platform_frequency_counts df_raw platform category col category_data :
  in_columns platform (group_keys df_raw) = true ->
  platform_frequency (load_raw_data (Some df_raw)) platform category
                     col category_data
  = Py.len (filter (filed_underb category platform) df_raw).
Proof.
  intros H. unfold platform_frequency, load_raw_data. rewrite H.
  destruct (in_index category (group_keys df_raw)) eqn:E.
  - apply loc_group_keys.
  - now rewrite (not_in_index_no_record _ platform _ E).
Qed.

End RollupFacts.

Section RollupProperties.

Import Processor Overall RollupSpec.

(** X5. When every tag row belongs to category A, B or C (as the rows
    of the tag-level script do), the counts of the three combined rows add
    up, in int64 arithmetic, to the count of the TOTAL row, and the total
    engagements of the three categories add up to the total engagement
    shown in the TOTAL row. *)
Theorem combined_rows_add_up_to_total
    (raw_file : option (list RawRecord)) (df : list TagRow) :
  known_categories df ->
  exists results a b c total ea eb ec etotal,
    calculate_category_stats raw_file df = Ok results /\
    map Frequency_Count_Cell
        (filter (fun row => String.eqb (Platform_Name row) "Combined") results)
    = [CInt a; CInt b; CInt c; CInt total] /\
    map Total_Engagement_Cell
        (filter (fun row => String.eqb (Platform_Name row) "Combined") results)
    = map F64.format_int_comma [ea; eb; ec; etotal] /\
    Int64.add (Int64.add a b) c = total /\
    Int64.add (Int64.add ea eb) ec = etotal /\
    (Int64.in_range (a + b + c) -> a + b + c = total).
Proof.
  intros H. do 9 eexists.
  split; [apply OverallFacts.calculate_category_stats_eq|].
  split; [reflexivity|]. split; [reflexivity|].
  split; [apply (RollupFacts.column_sum_three_way Frequency_Count df H)|].
  split; [apply (RollupFacts.column_sum_three_way Total_Engagement df H)|].
  intros Hfit.
  rewrite <- (RollupFacts.column_sum_three_way Frequency_Count df H).
  unfold Int64.add at 1. unfold Int64.add.
  rewrite Int64Facts.wrap_add_l. symmetry.
  now apply Int64Facts.wrap_in_range.
Qed.

Lemma combined_rows_add_up_to_total_witness :
  exists df results a b c total ea eb ec etotal,
    process_data Samples.three_posts = Ok df /\
    calculate_category_stats (Some Samples.three_posts) df = Ok results /\
    map Frequency_Count_Cell
        (filter (fun row => String.eqb (Platform_Name row) "Combined") results)
    = [CInt a; CInt b; CInt c; CInt total] /\
    map Total_Engagement_Cell
        (filter (fun row => String.eqb (Platform_Name row) "Combined") results)
    = map F64.format_int_comma [ea; eb; ec; etotal] /\
    Int64.add (Int64.add a b) c = total /\
    Int64.add (Int64.add ea eb) ec = etotal /\
    (Int64.in_range (a + b + c) -> a + b + c = total).
Proof.
  exists (map (Spec.tag_row Samples.three_posts) all_expected_tags).
  destruct (combined_rows_add_up_to_total
              (Some Samples.three_posts)
              (map (Spec.tag_row Samples.three_posts) all_expected_tags))
    as (results & a & b & c & total & ea & eb & ec & etotal & H).
  - apply (RollupFacts.processed_categories_known Samples.three_posts).
    apply ProcessorFacts.process_data_eq. reflexivity.
  - exists results, a, b, c, total, ea, eb, ec, etotal.
    split; [apply ProcessorFacts.process_data_eq; reflexivity | exact H].
Defined.

(** X6. When the raw file is read and has a record on the platform
    (with its category present), the frequency cell of every row of that
    platform holds the number of raw records filed under the row's
    category on that platform, and is empty when there is none. *)
Theorem platform_frequency_counts_raw_records
    (df_raw : list RawRecord) (df : list TagRow) (platform : string) :
  platform = "X"%string \/ platform = "Truth Social"%string ->
  (exists r, In r df_raw /\ Platform r = Some platform /\
             Category_id r <> None) ->
  exists results,
    calculate_category_stats (Some df_raw) df = Ok results /\
    forall row, In row results ->
      Platform_Name row = platform ->
      exists n : nat,
        Spec.count_of (filed_under (Category_ID row) platform) df_raw n /\
        Frequency_Count_Cell row = frequency_cell (Z.of_nat n).
Proof.
  intros Hp Hsome.
  apply RollupFacts.in_columns_group_keys in Hsome.
  eexists. split; [apply OverallFacts.calculate_category_stats_eq|].
  remember (load_raw_data (Some df_raw)) as stats eqn:Estats.
  intros row Hrow Hplat. cbn in Hrow.
  exists (List.length (filter (filed_underb (Category_ID row) platform)
                              df_raw)).
  split.
  { apply RollupFacts.count_of_filter_gen. intros r.
    apply RollupFacts.filed_underb_spec. }
  fold (Py.len (filter (filed_underb (Category_ID row) platform) df_raw)).
  destruct Hp as [-> | ->];
    repeat (destruct Hrow as [<-|Hrow]; [try discriminate Hplat|]);
    try destruct Hrow;
    cbn [platform_row Category_ID Frequency_Count_Cell];
    rewrite Estats, (RollupFacts.platform_frequency_counts _ _ _ _ _ Hsome);
    reflexivity.
Qed.

Lemma platform_frequency_counts_raw_records_witness :
  exists results,
    calculate_category_stats (Some Samples.both_platforms)
      (map (Spec.tag_row Samples.both_platforms) all_expected_tags)
    = Ok results /\
    forall row, In row results ->
      Platform_Name row = "Truth Social"%string ->
      exists n : nat,
        Spec.count_of (filed_under (Category_ID row) "Truth Social")
                      Samples.both_platforms n /\
        Frequency_Count_Cell row = frequency_cell (Z.of_nat n).
Proof.
  apply (platform_frequency_counts_raw_records Samples.both_platforms).
  - now right.
  - eexists. split; [right; left; reflexivity|]. split; [reflexivity|].
    discriminate.
Defined.

End RollupProperties.

(** * Loading the processed table *)

Module SignalLoadFacts.

Import Processor Signal SignalSpec SignalLoad.

Lemma derived_rows_sources p total_posts df out :
  Forall2 (derived_row p total_posts) df out -> map source_row out = df.
Proof.
  induction 1 as [|row o df out [Hs _] _ IH]; cbn; [reflexivity|].
  now rewrite Hs, IH.
Qed.

Lemma derived_rows_loaded p total_posts df out :
  Forall2 (derived_row p total_posts) df out ->
  Forall (fun row => F64.gt0 (average_of p row) = true) df ->
  Forall (loaded_row p total_posts) out.
Proof.
  induction 1 as [|row o df out (Hs & Hc & Hp) _ IH]; intros Hpos.
  - constructor.
  - inversion_clear Hpos as [|? ? Hrow Hdf]. constructor; [|now apply IH].
    unfold loaded_row. rewrite Hs, Hrow in *. destruct Hc as [Hc Hn].
    repeat split; assumption.
Qed.

Lemma filter_positive p (df : list TagRow) :
  Forall (fun row => F64.gt0 (average_of p row) = true)
         (filter (fun row => F64.gt0 (average_of p row)) df).
Proof. apply Forall_forall. intros row Hrow. now apply filter_In in Hrow. Qed.

Lemma find_first {A : Type} (f : A -> bool) l a :
  find f l = Some a ->
  exists before after,
    l = (before ++ a :: after)%list /\ f a = true /\
    forall b, In b before -> f b = false.
Proof.
  induction l as [|x l IH]; cbn; [discriminate|].
  destruct (f x) eqn:E.
  - intros [= <-]. exists [], l. repeat split; [exact E | intros b []].
  - intros H. destruct (IH H) as (before & after & -> & Ha & Hb).
    exists (x :: before), after. repeat split; [exact Ha|].
    intros b [<-|Hin]; [exact E | now apply Hb].
Qed.

(** The positive total in front of a zero count gives the percentage 0. *)
Lemma percent_of_zero_count total_posts :
  percent_of total_posts 0 = F64.zero.
Proof.
  unfold percent_of, F64.gt0, SFltb.
  destruct total_posts as [s|s| |s m e]; try reflexivity;
    destruct s; reflexivity.
Qed.

End SignalLoadFacts.

Section SignalLoadProperties.

Import Processor Signal SignalSpec SignalLoad.

(** X7. When the loader of the X or of the Truth Social script returns a
    table, it read it from the given path or else from the first of the
    four candidate paths that exists (script directory, working directory,
    its "Engagement Calculate" folder, parent of the script directory);
    the table holds exactly the rows of the file with a positive platform
    average, in their order, and is not empty; every row's count is its
    quotient total / average rounded to a nearest integer, and its
    percentage is that count over the sum of the quotients times 100. *)
Theorem loader_keeps_rows_with_positive_average
    (p : platform) (fs : file_system) (script_dir current_dir : path)
    (file_path : option path) (out : list FreqRow) :
  load_and_process_data p fs script_dir current_dir file_path = Some out ->
  exists used df,
    (match file_path with
     | Some given => used = given
     | None =>
         exists before after,
           possible_paths script_dir current_dir
           = (before ++ used :: after)%list /\
           forall q, In q before -> fs q = None
     end) /\
    fs used = Some (CsvFile df) /\
    out <> [] /\
    map source_row out = filter (fun row => F64.gt0 (average_of p row)) df /\
    Forall (loaded_row p (derived_total p (map source_row out))) out.
Proof.
  unfold load_and_process_data. intros H.
  destruct (match file_path with
            | None => find_data_file fs script_dir current_dir
            | Some given => Some given
            end) as [used|] eqn:Eres; [|discriminate].
  destruct (path_exists fs used) eqn:Eex; [|discriminate].
  destruct (fs used) as [[|df]|] eqn:Efs; try discriminate.
  destruct (calculate p (filter (fun row => F64.gt0 (average_of p row)) df))
    as [[df_out total_posts]|] eqn:Ecalc; [|discriminate].
  destruct df_out as [|o rest]; [discriminate|]. injection H as <-.
  assert (Hspec : total_posts
                  = derived_total p (filter (fun row => F64.gt0 (average_of p row)) df) /\
                  Forall2 (derived_row p total_posts)
                          (filter (fun row => F64.gt0 (average_of p row)) df)
                          (o :: rest)).
  { apply SignalFacts.calculate_spec. destruct p; exact Ecalc. }
  destruct Hspec as [Htotal Hrows].
  exists used, df. split.
  { destruct file_path as [given|].
    - now injection Eres as <-.
    - unfold find_data_file in Eres.
      apply SignalLoadFacts.find_first in Eres as (before & after & E & _ & Hb).
      exists before, after. split; [exact E|].
      intros q Hq. specialize (Hb q Hq). unfold path_exists in Hb.
      destruct (fs q); [discriminate | reflexivity]. }
  split; [exact Efs|]. split; [discriminate|].
  pose proof (SignalLoadFacts.derived_rows_sources _ _ _ _ Hrows) as Hsrc.
  split; [exact Hsrc|].
  rewrite Hsrc, <- Htotal.
  apply (SignalLoadFacts.derived_rows_loaded _ _ _ _ Hrows).
  apply SignalLoadFacts.filter_positive.
Qed.

Lemma loader_keeps_rows_with_positive_average_witness :
  exists out used df,
    load_and_process_data OnX sample_fs ["repo"; "Engagement Calculate"]%string
                          ["home"]%string None = Some out /\
    used = ["repo"; "Engagement Calculate";
            "Engagement_data_processed.csv"]%string /\
    sample_fs used = Some (CsvFile df) /\
    map Frequency_Count_Col out = [3; 1] /\
    map source_row out = filter (fun row => F64.gt0 (average_of OnX row)) df /\
    Forall (loaded_row OnX (derived_total OnX (map source_row out))) out.
Proof.
  destruct (load_and_process_data OnX sample_fs
              ["repo"; "Engagement Calculate"]%string ["home"]%string None)
    as [out|] eqn:E; [|vm_compute in E; discriminate].
  destruct (loader_keeps_rows_with_positive_average _ _ _ _ _ _ E)
    as (used & df & Hused & Hfs & _ & Hsrc & Hrows).
  exists out, used, df.
  split; [reflexivity|].
  assert (Hu : used = ["repo"; "Engagement Calculate";
                       "Engagement_data_processed.csv"]%string).
  { destruct Hused as (before & after & Hpaths & Hnone).
    destruct before as [|q before].
    - now injection Hpaths as <-.
    - injection Hpaths as <- _.
      specialize (Hnone _ (or_introl eq_refl)). vm_compute in Hnone.
      discriminate. }
  split; [exact Hu|]. split; [exact Hfs|].
  split; [vm_compute in E; injection E as <-; reflexivity|].
  split; [exact Hsrc | exact Hrows].
Defined.

(** X8. The loader returns nothing when the file has no row with a
    positive platform average (the message it prints looks up the
    percentage column, which an empty table never got), when no candidate
    path exists, and when the given path does not exist or is a
    directory. *)
Theorem loader_returns_nothing
    (p : platform) (fs : file_system) (script_dir current_dir : path) :
  (forall used df,
     fs used = Some (CsvFile df) ->
     Forall (fun row => F64.gt0 (average_of p row) = false) df ->
     load_and_process_data p fs script_dir current_dir (Some used) = None) /\
  ((forall q, In q (possible_paths script_dir current_dir) -> fs q = None) ->
   load_and_process_data p fs script_dir current_dir None = None) /\
  (forall given,
     fs given = None \/ fs given = Some Directory ->
     load_and_process_data p fs script_dir current_dir (Some given) = None).
Proof.
  split; [|split].
  - intros used df Hfs Hdf. unfold load_and_process_data, path_exists.
    rewrite Hfs.
    assert (E : filter (fun row => F64.gt0 (average_of p row)) df = []).
    { clear Hfs. induction Hdf as [|row df Hrow _ IH]; cbn; [reflexivity|].
      now rewrite Hrow. }
    rewrite E. now destruct p.
  - intros Hnone. unfold load_and_process_data, find_data_file.
    assert (E : find (path_exists fs) (possible_paths script_dir current_dir)
                = None).
    { induction (possible_paths script_dir current_dir) as [|q l IH]; cbn;
        [reflexivity|].
      unfold path_exists at 1. rewrite (Hnone q (or_introl eq_refl)).
      apply IH. intros q' Hq'. apply Hnone. now right. }
    now rewrite E.
  - intros given [E|E]; unfold load_and_process_data, path_exists;
      now rewrite E.
Qed.

(** X9. In the table returned by [calculate_x_frequency_percentage] or
    [calculate_truth_frequency_percentage], a row whose platform average
    is not positive (zero, negative or NaN) has the count 0 and the
    percentage 0: it is never divided by its average, and 0 is never
    divided by a total that is not positive. *)
Theorem rows_without_average_get_zero
    (p : platform) (df : list TagRow) (out : list FreqRow)
    (total_posts : F64.float) :
  calculate p df = Ok (out, total_posts) ->
  forall o, In o out ->
    F64.gt0 (average_of p (source_row o)) = false ->
    Frequency_Count_Col o = 0 /\ Frequency_Percent_Col o = F64.zero.
Proof.
  intros H.
  assert (Hspec : total_posts = derived_total p df /\
                  Forall2 (derived_row p total_posts) df out).
  { apply SignalFacts.calculate_spec. destruct p; exact H. }
  destruct Hspec as [_ Hrows]. clear H.
  induction Hrows as [|row o' df' out' (Hs & Hc & Hp) _ IH];
    intros o Hin Havg; [destruct Hin|].
  destruct Hin as [<-|Hin]; [|now apply IH].
  rewrite Hs in Havg. rewrite Havg in Hc. split; [exact Hc|].
  rewrite Hp, Hc. apply SignalLoadFacts.percent_of_zero_count.
Qed.

Lemma rows_without_average_get_zero_witness :
  exists out total_posts o,
    calculate OnX sample_table = Ok (out, total_posts) /\
    nth_error out 2 = Some o /\
    Frequency_Count_Col o = 0 /\ Frequency_Percent_Col o = F64.zero.
Proof.
  destruct (calculate OnX sample_table) as [[out total_posts]|] eqn:E;
    [|vm_compute in E; discriminate].
  destruct (nth_error out 2) as [o|] eqn:Eo;
    [|vm_compute in E; injection E as <- _; discriminate].
  exists out, total_posts, o.
  split; [reflexivity|]. split; [exact Eo|].
  apply (rows_without_average_get_zero OnX sample_table out total_posts E).
  - now apply nth_error_In in Eo.
  - vm_compute in E. injection E as <- _. injection Eo as <-. reflexivity.
Defined.

End SignalLoadProperties.

(** * The quadrants *)

Module QuadrantFacts.

Import Quadrants.

Lemma compare_flip x y :
  SFcompare y x = option_map CompOpp (SFcompare x y).
Proof.
  destruct x as [s1|s1| |s1 m1 e1], y as [s2|s2| |s2 m2 e2];
    try reflexivity;
    try (destruct s1; reflexivity);
    try (destruct s2; reflexivity);
    try (destruct s1, s2; reflexivity).
  cbn [SFcompare option_map].
  rewrite (Z.compare_antisym e1 e2).
  assert (H : Pos.compare_cont Eq m2 m1 = CompOpp (Pos.compare_cont Eq m1 m2)).
  { rewrite (Pos.compare_cont_antisym m1 m2 Eq). reflexivity. }
  rewrite H.
  destruct s1, s2; try reflexivity; f_equal;
    destruct (e1 ?= e2)%Z; cbn; try reflexivity.
Qed.

(** On two values that are not NaN exactly one of [x >= y], [x < y]
    holds; on a NaN neither does. *)
Lemma lt_is_not_ge x y : comparable x y = true -> lt x y = negb (ge x y).
Proof.
  unfold comparable, lt, ge, SFltb, SFleb. rewrite (compare_flip x y).
  destruct (SFcompare x y) as [[| |]|]; cbn; congruence.
Qed.

Lemma incomparable_neither x y :
  comparable x y = false -> ge x y = false /\ lt x y = false.
Proof.
  unfold comparable, lt, ge, SFltb, SFleb. rewrite (compare_flip x y).
  destruct (SFcompare x y) as [[| |]|]; cbn; intuition congruence.
Qed.

Lemma holding_cases {A : Type} (frequency engagement : A -> F64.float)
    baselines row :
  quadrants_holding frequency engagement baselines row
  = if comparable (frequency row) (fst baselines)
       && comparable (engagement row) (snd baselines)
    then 1%nat else 0%nat.
Proof.
  unfold quadrants_holding.
  destruct (comparable (frequency row) (fst baselines)) eqn:Ef.
  - destruct (comparable (engagement row) (snd baselines)) eqn:Ee.
    + rewrite (lt_is_not_ge _ _ Ef), (lt_is_not_ge _ _ Ee).
      destruct (ge (frequency row) (fst baselines)),
               (ge (engagement row) (snd baselines)); reflexivity.
    + destruct (incomparable_neither _ _ Ee) as [-> ->].
      rewrite !andb_false_r. reflexivity.
  - destruct (incomparable_neither _ _ Ef) as [-> ->]. reflexivity.
Qed.

Lemma len_filter_count {A : Type} (f g h k : A -> bool) (c : A -> bool) df :
  (forall row,
     List.length (filter (fun b : bool => b) [f row; g row; h row; k row])
     = if c row then 1%nat else 0%nat) ->
  (List.length (filter f df) + List.length (filter g df)
   + List.length (filter h df) + List.length (filter k df)
   = List.length (filter c df))%nat.
Proof.
  intros H. induction df as [|row df IH]; [reflexivity|].
  specialize (H row). cbn [filter] in *.
  destruct (f row), (g row), (h row), (k row), (c row);
    cbn [List.length] in *; try discriminate; lia.
Qed.

End QuadrantFacts.

Section QuadrantProperties.

Import Quadrants.

Context {A : Type}.
Variables frequency engagement : A -> F64.float.
Variable baselines : F64.float * F64.float.
Variable df : list A.

(** X10. The four quadrants of the analysis (of the X, the Truth Social
    and the overall script alike) split the rows: a row whose two values
    and the two baselines are no NaN lies in exactly one quadrant, a row
    with a NaN among them lies in none, every quadrant holds rows of the
    table only, and the sizes of the four quadrants add up to the number
    of rows without NaN. *)
Theorem quadrants_split_the_rows :
  let q := classify frequency engagement baselines df in
  let usable row :=
    comparable (frequency row) (fst baselines)
    && comparable (engagement row) (snd baselines) in
  (forall row,
     quadrants_holding frequency engagement baselines row
     = if usable row then 1%nat else 0%nat) /\
  (forall row,
     (In row (core_strategic q) <->
      In row df /\ ge (frequency row) (fst baselines) = true
                /\ ge (engagement row) (snd baselines) = true) /\
     (In row (high_efficiency q) <->
      In row df /\ lt (frequency row) (fst baselines) = true
                /\ ge (engagement row) (snd baselines) = true) /\
     (In row (strong_push q) <->
      In row df /\ ge (frequency row) (fst baselines) = true
                /\ lt (engagement row) (snd baselines) = true) /\
     (In row (marginal q) <->
      In row df /\ lt (frequency row) (fst baselines) = true
                /\ lt (engagement row) (snd baselines) = true)) /\
  (List.length (core_strategic q) + List.length (high_efficiency q)
   + List.length (strong_push q) + List.length (marginal q)
   = List.length (filter usable df))%nat.
Proof.
  cbv zeta. split; [|split].
  - intros row. apply QuadrantFacts.holding_cases.
  - intros row. cbn [classify core_strategic high_efficiency strong_push marginal].
    rewrite !filter_In, !andb_true_iff. tauto.
  - cbn [classify core_strategic high_efficiency strong_push marginal].
    apply QuadrantFacts.len_filter_count. intros row.
    apply (QuadrantFacts.holding_cases frequency engagement baselines row).
Qed.

End QuadrantProperties.

(** * The offsets of the labels *)

Module LabelFacts.

Import Labels.

Lemma offset_patterns_nodup : NoDup offset_patterns.
Proof.
  unfold offset_patterns.
  repeat (constructor; [cbn; intuition congruence|]). constructor.
Qed.

Section Rows.

Context {A : Type}.
Variable tag_of : A -> string.
Variable point_of : A -> F64.float * F64.float.

Lemma simple_from_spec rows :
  forall i, exists labels,
    simple_from tag_of point_of i rows = Ok labels /\
    map text labels = map tag_of rows /\
    forall k a, nth_error labels k = Some a ->
      nth_error offset_patterns ((i + k) mod 24) = Some (xytext a) /\
      with_arrow a = false.
Proof.
  induction rows as [|row rows IH]; intros i.
  - exists []. split; [reflexivity|]. split; [reflexivity|].
    intros k a H. destruct k; discriminate.
  - cbn [simple_from]. unfold list_get.
    change (List.length offset_patterns) with 24%nat.
    destruct (nth_error offset_patterns (i mod 24)) as [o|] eqn:Eo.
    + destruct (IH (S i)) as (rest & -> & Htext & Hrest). cbn [bind].
      eexists. split; [reflexivity|]. split; [cbn; now rewrite Htext|].
      intros [|k] a Hk; cbn in Hk.
      * injection Hk as <-. cbn. rewrite Nat.add_0_r. now split.
      * replace (i + S k)%nat with (S i + k)%nat by lia. now apply Hrest.
    + exfalso. apply nth_error_None in Eo.
      change (List.length offset_patterns) with 24%nat in Eo.
      pose proof (Nat.mod_upper_bound i 24). lia.
Qed.

End Rows.

End LabelFacts.

Section LabelProperties.

Import Labels.

Context {A : Type}.
Variable tag_of : A -> string.
Variable point_of : A -> F64.float * F64.float.

(** X11. [adjust_label_positions_simple] never indexes out of range:
    it labels every row with its tag, without arrow, at the offset whose
    index is the row's position modulo 24.  So the offsets of a table of
    at most 24 rows are pairwise different, and from the 25th row on the
    offsets repeat those of 24 rows before. *)
Theorem simple_labels_cycle_through_offsets (df : list A) :
  exists labels,
    adjust_label_positions_simple tag_of point_of df = Ok labels /\
    map text labels = map tag_of df /\
    Forall (fun a => with_arrow a = false) labels /\
    ((List.length df <= 24)%nat -> NoDup (map xytext labels)) /\
    (forall i a b,
       nth_error labels i = Some a -> nth_error labels (i + 24) = Some b ->
       xytext a = xytext b).
Proof.
  destruct (LabelFacts.simple_from_spec tag_of point_of df 0)
    as (labels & Hok & Htext & Hspec).
  exists labels. split; [exact Hok|]. split; [exact Htext|].
  assert (Hlen : List.length labels = List.length df).
  { rewrite <- (length_map text), Htext. apply length_map. }
  split; [|split].
  - apply Forall_forall. intros a Ha.
    apply In_nth_error in Ha as [k Hk]. now apply (Hspec k a).
  - intros Hdf. apply NoDup_nth_error. intros i j Hi Hij.
    rewrite length_map in Hi.
    rewrite !nth_error_map in Hij.
    destruct (nth_error labels i) as [a|] eqn:Ea;
      [|apply nth_error_None in Ea; lia].
    destruct (nth_error labels j) as [b|] eqn:Eb; [|discriminate].
    cbn in Hij. injection Hij as Hab.
    destruct (Hspec i a Ea) as [Hia _]. destruct (Hspec j b Eb) as [Hjb _].
    assert (Hj : (j < List.length labels)%nat)
      by (apply nth_error_Some; congruence).
    cbn [Nat.add] in Hia, Hjb.
    rewrite Nat.mod_small in Hia, Hjb by lia.
    apply (proj1 (NoDup_nth_error offset_patterns) LabelFacts.offset_patterns_nodup).
    + cbn. lia.
    + congruence.
  - intros i a b Ha Hb.
    destruct (Hspec i a Ha) as [Hia _]. destruct (Hspec _ b Hb) as [Hib _].
    cbn [Nat.add] in Hia, Hib.
    replace ((i + 24) mod 24)%nat with (i mod 24)%nat in Hib.
    + congruence.
    + replace (i + 24)%nat with (i + 1 * 24)%nat by lia.
      now rewrite Nat.Div0.mod_add.
Qed.

End LabelProperties.

Module HybridFacts.

Import Labels LabelSpec.

Lemma all_offsets_nodup : NoDup all_offsets.
Proof.
  unfold all_offsets. cbn.
  repeat (constructor; [cbn; intuition congruence|]). constructor.
Qed.

Lemma arrow_tag_cases t :
  is_arrow_tag t = true ->
  t = "B3"%string \/ t = "A4"%string \/ t = "C1"%string.
Proof.
  unfold is_arrow_tag, arrow_tags. cbn [existsb].
  rewrite !orb_true_iff, !String.eqb_eq. intuition discriminate.
Qed.

Lemma arrow_index_inj t t' :
  is_arrow_tag t = true -> is_arrow_tag t' = true ->
  arrow_index t = arrow_index t' -> t = t'.
Proof.
  intros Ht Ht'.
  destruct (arrow_tag_cases t Ht) as [->|[->| ->]],
           (arrow_tag_cases t' Ht') as [->|[->| ->]];
    cbn; congruence.
Qed.

Lemma arrow_index_small t : (arrow_index t < 3)%nat.
Proof.
  unfold arrow_index.
  destruct (String.eqb t "B3"), (String.eqb t "A4"); lia.
Qed.

Lemma NoDup_map_on {B C : Type} (f : B -> C) l :
  (forall x y, In x l -> In y l -> f x = f y -> x = y) ->
  NoDup l -> NoDup (map f l).
Proof.
  intros Hinj H. induction H as [|a l Ha Hl IH]; cbn; constructor.
  - intros Hin. apply in_map_iff in Hin as (b & Hb & Hbl).
    apply Ha. rewrite <- (Hinj b a); [exact Hbl | now right | now left | exact Hb].
  - apply IH. intros x y Hx Hy. apply Hinj; now right.
Qed.

(** Where the slots of a list of different tags lie, and that they
    differ. *)
Lemma slots_nodup tags :
  NoDup tags ->
  forall s, (s + List.length (plain_tags tags) <= 20)%nat ->
    NoDup (slots s tags) /\
    forall i, In i (slots s tags) ->
      (exists t, In t tags /\ is_arrow_tag t = true /\ arrow_index t = i) \/
      (3 + s <= i < 3 + s + List.length (plain_tags tags))%nat.
Proof.
  induction 1 as [|t tags Ht Htags IH]; intros s Hs.
  - split; [constructor | intros i []].
  - unfold plain_tags in *. cbn [slots filter] in *.
    destruct (is_arrow_tag t) eqn:Et; cbn [negb List.length] in *.
    + destruct (IH s Hs) as [Hnd Hin]. split.
      * constructor; [|exact Hnd]. intros Hi.
        destruct (Hin _ Hi) as [(t' & Ht' & Ea & Ei)|Hr].
        -- apply Ht. now rewrite (arrow_index_inj t t' Et Ea (eq_sym Ei)).
        -- pose proof (arrow_index_small t). lia.
      * intros i [<-|Hi].
        -- left. exists t. repeat split; [now left | exact Et].
        -- destruct (Hin _ Hi) as [(t' & Ht' & Ea & Ei)|Hr]; [left|now right].
           exists t'. repeat split; [now right | exact Ea | exact Ei].
    + assert (Hs' : (S s + List.length
                       (filter (fun t0 => negb (is_arrow_tag t0)) tags) <= 20)%nat)
        by lia.
      destruct (IH (S s) Hs') as [Hnd Hin].
      rewrite Nat.mod_small by lia. split.
      * constructor; [|exact Hnd]. intros Hi.
        destruct (Hin _ Hi) as [(t' & Ht' & Ea & Ei)|Hr]; [|lia].
        pose proof (arrow_index_small t'). lia.
      * intros i [<-|Hi]; [right; lia|].
        destruct (Hin _ Hi) as [(t' & Ht' & Ea & Ei)|Hr]; [left|right; lia].
        exists t'. repeat split; [now right | exact Ea | exact Ei].
Qed.

Lemma slots_in_range tags :
  forall s i, In i (slots s tags) -> (i < 23)%nat.
Proof.
  induction tags as [|t tags IH]; intros s i; cbn [slots]; [intros []|].
  destruct (is_arrow_tag t).
  - intros [<-|Hi]; [|now apply (IH s)].
    pose proof (arrow_index_small t). lia.
  - intros [<-|Hi]; [|now apply (IH (S s))].
    pose proof (Nat.mod_upper_bound s 20). lia.
Qed.

Section Rows.

Context {A : Type}.
Variable tag_of : A -> string.
Variable point_of : A -> F64.float * F64.float.

(** The loop never raises; the offset of every label is the entry of
    [all_offsets] at the label's slot. *)
Lemma hybrid_from_spec rows :
  forall s, exists labels,
    hybrid_from tag_of point_of s rows = Ok labels /\
    map text labels = map tag_of rows /\
    map with_arrow labels = map is_arrow_tag (map tag_of rows) /\
    map (fun a => Some (xytext a)) labels
    = map (nth_error all_offsets) (slots s (map tag_of rows)).
Proof.
  induction rows as [|row rows IH]; intros s.
  - exists []. repeat split; reflexivity.
  - cbn [hybrid_from map slots].
    destruct (is_arrow_tag (tag_of row)) eqn:Et.
    + destruct (IH s) as (rest & -> & Htext & Harrow & Hoff).
      destruct (arrow_tag_cases _ Et) as [E|[E|E]]; rewrite E in *;
        cbn [offsets_get arrow_offsets String.eqb Ascii.eqb Bool.eqb bind];
        eexists; (split; [reflexivity|]);
        cbn [map text with_arrow xytext];
        rewrite Htext, Harrow, Hoff; repeat split; reflexivity.
    + unfold list_get. change (List.length simple_offsets) with 20%nat.
      destruct (nth_error simple_offsets (s mod 20)) as [o|] eqn:Eo.
      * destruct (IH (S s)) as (rest & -> & Htext & Harrow & Hoff).
        cbn [bind]. eexists. split; [reflexivity|].
        cbn [map text with_arrow xytext].
        rewrite Htext, Harrow, Hoff. repeat split; try reflexivity.
        f_equal. symmetry. exact Eo.
      * exfalso. apply nth_error_None in Eo.
        change (List.length simple_offsets) with 20%nat in Eo.
        pose proof (Nat.mod_upper_bound s 20). lia.
Qed.

End Rows.

End HybridFacts.

Section HybridProperties.

Import Labels LabelSpec.

Context {A : Type}.
Variable tag_of : A -> string.
Variable point_of : A -> F64.float * F64.float.

(** X12. [adjust_label_positions_hybrid] never fails on a key or an
    index: it labels every row with its tag, with an arrow exactly for the
    tags B3, A4 and C1, which get their own fixed offsets without
    advancing the index of the simple offsets.  When the tags of the table
    are pairwise different and at most 20 of them are not arrow tags (as
    for any table of taxonomy tags), no two labels get the same offset. *)
Theorem hybrid_labels_get_distinct_offsets (df : list A) :
  exists labels,
    adjust_label_positions_hybrid tag_of point_of df = Ok labels /\
    map text labels = map tag_of df /\
    map with_arrow labels = map is_arrow_tag (map tag_of df) /\
    (NoDup (map tag_of df) ->
     (List.length (plain_tags (map tag_of df)) <= 20)%nat ->
     NoDup (map xytext labels)).
Proof.
  destruct (HybridFacts.hybrid_from_spec tag_of point_of df 0)
    as (labels & Hok & Htext & Harrow & Hoff).
  exists labels. split; [exact Hok|]. split; [exact Htext|].
  split; [exact Harrow|].
  intros Hnd Hlen.
  destruct (HybridFacts.slots_nodup _ Hnd 0 Hlen) as [Hslots _].
  apply (NoDup_map_inv Some). rewrite map_map, Hoff.
  apply HybridFacts.NoDup_map_on; [|exact Hslots].
  intros i j Hi Hj Hij.
  apply (proj1 (NoDup_nth_error all_offsets) HybridFacts.all_offsets_nodup).
  - apply HybridFacts.slots_in_range in Hi. exact Hi.
  - exact Hij.
Qed.

End HybridProperties.

Lemma hybrid_labels_get_distinct_offsets_witness :
  exists labels,
    Labels.adjust_label_positions_hybrid
      (fun t : string => t) (fun _ => (F64.zero, F64.zero))
      Processor.all_expected_tags = Ok labels /\
    map Labels.text labels = Processor.all_expected_tags /\
    NoDup (map Labels.xytext labels).
Proof.
  destruct (hybrid_labels_get_distinct_offsets
              (fun t : string => t) (fun _ => (F64.zero, F64.zero))
              Processor.all_expected_tags)
    as (labels & Hok & Htext & _ & Hnd).
  exists labels. split; [exact Hok|].
  rewrite map_id in Htext, Hnd. split; [exact Htext|].
  apply Hnd; [apply taxonomy_nodup | cbn; lia].
Defined.

(** * From the raw records to the charts and the category rows *)

Module PipelineFacts.

Import Processor RowSpec.

(** With the two platforms only, the engagement of a selection is the
    sum of the engagements of its two platform parts. *)
Lemma engagement_sum_split d :
  Spec.two_platforms d ->
  engagement_sum d
  = Int64.add (engagement_sum (filter (on_platform "X") d))
              (engagement_sum (filter (on_platform "Truth Social") d)).
Proof.
  intros H. rewrite !engagement_sum_wrap, Int64Facts.add_wrap. f_equal.
  rewrite (total_split Likes _ H), (total_split Repost _ H),
          (total_split Replies _ H).
  lia.
Qed.

Lemma wrap_congr a b c : Int64.wrap b = Int64.wrap c ->
  Int64.wrap (a + b) = Int64.wrap (a + c).
Proof.
  intros H. rewrite <- (Int64Facts.wrap_add_r a b), H.
  apply Int64Facts.wrap_add_r.
Qed.

(** Rows that split, summed up, split. *)
Lemma column_sum_split (l : list TagRow) :
  Forall (fun row => Total_Engagement row
                     = Int64.add (X_Total_Engagement row)
                                 (Truth_Total_Engagement row)) l ->
  Overall.column_sum Total_Engagement l
  = Int64.add (Overall.column_sum X_Total_Engagement l)
              (Overall.column_sum Truth_Total_Engagement l).
Proof.
  intros H. unfold Overall.column_sum.
  rewrite !Int64Facts.sum_wrap, Int64Facts.add_wrap.
  induction H as [|row l Hrow _ IH]; [reflexivity|].
  cbn [map Spec.total fold_right]. fold (Spec.total (map Total_Engagement l))
    (Spec.total (map X_Total_Engagement l))
    (Spec.total (map Truth_Total_Engagement l)).
  rewrite Hrow. unfold Int64.add. rewrite Int64Facts.wrap_add_l.
  replace (X_Total_Engagement row + Spec.total (map X_Total_Engagement l)
           + (Truth_Total_Engagement row
              + Spec.total (map Truth_Total_Engagement l)))
    with (X_Total_Engagement row + Truth_Total_Engagement row
          + (Spec.total (map X_Total_Engagement l)
             + Spec.total (map Truth_Total_Engagement l))) by lia.
  apply wrap_congr. exact IH.
Qed.

Lemma processed_rows_split df_raw :
  Spec.two_platforms df_raw ->
  Forall (fun row => Total_Engagement row
                     = Int64.add (X_Total_Engagement row)
                                 (Truth_Total_Engagement row))
         (map (Spec.tag_row df_raw) all_expected_tags).
Proof.
  intros H. apply Forall_forall. intros row Hrow.
  apply ProcessorFacts.in_process_data in Hrow as (t & _ & ->).
  rewrite RowFacts.tag_row_selection.
  cbn [selection_row Total_Engagement X_Total_Engagement Truth_Total_Engagement].
  apply engagement_sum_split. now apply two_platforms_filter.
Qed.

Lemma Forall_filter {B : Type} (P : B -> Prop) f l :
  Forall P l -> Forall P (filter f l).
Proof.
  intros H. apply Forall_forall. intros b Hb.
  apply filter_In in Hb as [Hb _]. revert b Hb. now apply Forall_forall.
Qed.

(** A row of the tag-level table with a positive percentage has a
    record that mentions its tag. *)
Lemma positive_percent_mentioned df_raw t :
  F64.gt0 (Frequency_Pct (Spec.tag_row df_raw t)) = true ->
  0 < Frequency_Count (Spec.tag_row df_raw t) /\
  exists r, In r df_raw /\ Spec.mentions t r.
Proof.
  rewrite RowFacts.tag_row_selection.
  cbn [selection_row Frequency_Pct Frequency_Count]. unfold percent_cell.
  destruct (filter (tag_matches t) df_raw) as [|r d] eqn:E.
  - cbn. discriminate.
  - intros _. split; [unfold Py.len; cbn [List.length]; lia|].
    exists r. rewrite <- StrFacts.tag_matches_spec, <- filter_In, E. now left.
Qed.

Import Overall.

Lemma rows_of_category_engagement ps df total c name :
  map (fun row => (Platform_Name row, Total_Engagement_Cell row))
      (rows_of_category ps df total c name)
  = [ ("Combined", F64.format_int_comma
                     (Overall.column_sum Total_Engagement
                        (RollupSpec.of_category c df)));
      ("X", OverallLoad.engagement_cell
              (Overall.column_sum X_Total_Engagement
                 (RollupSpec.of_category c df)));
      ("Truth Social", OverallLoad.engagement_cell
              (Overall.column_sum Truth_Total_Engagement
                 (RollupSpec.of_category c df))) ]%string.
Proof. reflexivity. Qed.

Lemma rows_of_category_ids ps df total c name :
  Forall (fun row => Category_ID row = c)
         (rows_of_category ps df total c name).
Proof. repeat constructor. Qed.

Lemma filter_by_id (c : string) (l : list CategoryRow) :
  Forall (fun row => Category_ID row = c) l ->
  filter (fun row => String.eqb (Category_ID row) c) l = l.
Proof.
  induction 1 as [|row l Hrow _ IH]; cbn; [reflexivity|].
  rewrite Hrow, String.eqb_refl. now rewrite IH.
Qed.

Lemma filter_by_other_id (c c' : string) (l : list CategoryRow) :
  c' <> c ->
  Forall (fun row => Category_ID row = c') l ->
  filter (fun row => String.eqb (Category_ID row) c) l = [].
Proof.
  intros Hne. induction 1 as [|row l Hrow _ IH]; cbn; [reflexivity|].
  rewrite Hrow. destruct (String.eqb_spec c' c); [contradiction | exact IH].
Qed.

(** The rows of one category in the whole table. *)
Lemma category_block ps df total c :
  In c ["A"; "B"; "C"]%string ->
  filter (fun row => String.eqb (Category_ID row) c)
    ((rows_of_category ps df total "A" (OverallSpec.name_of "A")
      ++ rows_of_category ps df total "B" (OverallSpec.name_of "B")
      ++ rows_of_category ps df total "C" (OverallSpec.name_of "C"))
     ++ [total_row df total])%list
  = rows_of_category ps df total c (OverallSpec.name_of c).
Proof.
  intros Hc. rewrite !filter_app.
  assert (Ht : forall c0, In c0 ["A"; "B"; "C"]%string ->
            filter (fun row => String.eqb (Category_ID row) c0)
                   [total_row df total] = []).
  { intros c0 [<-|[<-|[<-|[]]]]; reflexivity. }
  rewrite (Ht c Hc), app_nil_r.
  set (RA := rows_of_category ps df total "A" (OverallSpec.name_of "A")).
  set (RB := rows_of_category ps df total "B" (OverallSpec.name_of "B")).
  set (RC := rows_of_category ps df total "C" (OverallSpec.name_of "C")).
  assert (HA : Forall (fun row => Category_ID row = "A"%string) RA)
    by apply rows_of_category_ids.
  assert (HB : Forall (fun row => Category_ID row = "B"%string) RB)
    by apply rows_of_category_ids.
  assert (HC : Forall (fun row => Category_ID row = "C"%string) RC)
    by apply rows_of_category_ids.
  destruct Hc as [<-|[<-|[<-|[]]]].
  - rewrite (filter_by_id "A" RA HA).
    rewrite (filter_by_other_id "A" "B" RB), (filter_by_other_id "A" "C" RC);
      try assumption; try discriminate.
    now rewrite !app_nil_r.
  - rewrite (filter_by_id "B" RB HB).
    rewrite (filter_by_other_id "B" "A" RA), (filter_by_other_id "B" "C" RC);
      try assumption; try discriminate.
    now rewrite app_nil_r.
  - rewrite (filter_by_id "C" RC HC).
    rewrite (filter_by_other_id "C" "A" RA), (filter_by_other_id "C" "B" RB);
      try assumption; try discriminate.
    reflexivity.
Qed.

End PipelineFacts.

Section PipelineProperties.

Import Processor Overall OverallLoad.

(** X13. When every raw record is on X or on Truth Social (and the
    Tag_id column is text, so that the tag-level table is produced), the
    category-level table computed from the tag-level table shows, for
    each category A, B, C, three total engagements: the sums, over the
    tag rows of the category, of the total, the X and the Truth Social
    engagement (in int64).  The combined one is the int64 sum of the two
    platform totals (the plain sum when it fits); a platform total that
    is not positive is shown as an empty cell. *)
Theorem category_engagement_splits_by_platform
    (raw_file : option (list RawRecord)) (df_raw : list RawRecord) :
  Spec.tag_column_is_text df_raw = true ->
  Spec.two_platforms df_raw ->
  exists df results,
    process_data df_raw = Ok df /\
    calculate_category_stats raw_file df = Ok results /\
    forall c, In c ["A"; "B"; "C"]%string ->
      let e :=
        Int64.wrap (Spec.total (map Total_Engagement
                                    (RollupSpec.of_category c df))) in
      let ex :=
        Int64.wrap (Spec.total (map X_Total_Engagement
                                    (RollupSpec.of_category c df))) in
      let et :=
        Int64.wrap (Spec.total (map Truth_Total_Engagement
                                    (RollupSpec.of_category c df))) in
      map (fun row => (Platform_Name row, Total_Engagement_Cell row))
          (filter (fun row => String.eqb (Category_ID row) c) results)
      = [ ("Combined", F64.format_int_comma e);
          ("X", if ex >? 0 then F64.format_int_comma ex else "");
          ("Truth Social", if et >? 0 then F64.format_int_comma et else "")
        ]%string /\
      e = Int64.add ex et /\
      (Int64.in_range (ex + et) -> e = ex + et).
Proof.
  intros Htext H.
  pose proof (PipelineFacts.processed_rows_split df_raw H) as Hrows.
  pose proof (ProcessorFacts.process_data_eq df_raw Htext) as Hdf.
  set (df := map (Spec.tag_row df_raw) all_expected_tags) in *.
  clearbody df.
  exists df. eexists.
  split; [exact Hdf|].
  split; [apply OverallFacts.calculate_category_stats_eq|].
  intros c Hc. cbv zeta.
  rewrite <- !Int64Facts.sum_wrap.
  fold (column_sum Total_Engagement (RollupSpec.of_category c df))
       (column_sum X_Total_Engagement (RollupSpec.of_category c df))
       (column_sum Truth_Total_Engagement (RollupSpec.of_category c df)).
  assert (Hsplit := PipelineFacts.column_sum_split _
            (PipelineFacts.Forall_filter _
               (fun r => String.eqb (row_Category_id r) c) _ Hrows)).
  change (filter (fun r => String.eqb (row_Category_id r) c) df)
    with (RollupSpec.of_category c df) in Hsplit.
  split; [|split; [exact Hsplit|]].
  - rewrite (PipelineFacts.category_block _ _ _ c Hc).
    apply PipelineFacts.rows_of_category_engagement.
  - intros Hfit. rewrite Hsplit. now apply Int64Facts.add_exact.
Qed.

Lemma category_engagement_splits_by_platform_witness :
  exists df results,
    process_data Samples.both_platforms = Ok df /\
    calculate_category_stats (Some Samples.both_platforms) df = Ok results /\
    map (fun row => (Category_ID row, Platform_Name row,
                     Total_Engagement_Cell row)) results
    = [ ("A", "Combined", "21"); ("A", "X", "11"); ("A", "Truth Social", "10");
        ("B", "Combined", "0"); ("B", "X", ""); ("B", "Truth Social", "");
        ("C", "Combined", "4"); ("C", "X", ""); ("C", "Truth Social", "4");
        ("TOTAL", "Combined", "25") ]%string.
Proof.
  assert (Hplat : Spec.two_platforms Samples.both_platforms).
  { intros r Hr. cbn in Hr. destruct Hr as [<-|[<-|[<-|[]]]]; cbn; auto. }
  destruct (category_engagement_splits_by_platform
              (Some Samples.both_platforms) Samples.both_platforms
              eq_refl Hplat) as (df & results & Hdf & Hres & _).
  exists df, results. split; [exact Hdf|]. split; [exact Hres|].
  destruct (ProcessorFacts.process_data_ok _ _ Hdf) as [_ E]. subst df.
  rewrite OverallFacts.calculate_category_stats_eq in Hres.
  injection Hres as <-. reflexivity.
Defined.

(** X14. The loader of the overall script returns the rows of the file
    with a positive percentage, in their order (possibly none), read from
    the given path or else from the first candidate path that exists.
    When the file is the table that the tag-level script computes from
    some raw records, every returned row has a positive count and a raw
    record that mentions its tag. *)
Theorem overall_loader_keeps_mentioned_tags
    (fs : SignalLoad.file_system) (script_dir current_dir : SignalLoad.path)
    (file_path : option SignalLoad.path) (out : list TagRow) :
  load_and_process_data fs script_dir current_dir file_path = Some out ->
  exists used df,
    (match file_path with
     | Some given => used = given
     | None =>
         exists before after,
           SignalLoad.possible_paths script_dir current_dir
           = (before ++ used :: after)%list /\
           forall q, In q before -> fs q = None
     end) /\
    fs used = Some (SignalLoad.CsvFile df) /\
    out = filter (fun row => F64.gt0 (Frequency_Pct row)) df /\
    forall df_raw, process_data df_raw = Ok df ->
      forall row, In row out ->
        0 < Frequency_Count row /\
        exists r, In r df_raw /\ Spec.mentions (row_Tag_id row) r.
Proof.
  unfold load_and_process_data. intros H.
  destruct (match file_path with
            | None => SignalLoad.find_data_file fs script_dir current_dir
            | Some given => Some given
            end) as [used|] eqn:Eres; [|discriminate].
  destruct (SignalLoad.path_exists fs used) eqn:Eex; [|discriminate].
  destruct (fs used) as [[|df]|] eqn:Efs; try discriminate.
  injection H as <-.
  exists used, df. split.
  { destruct file_path as [given|].
    - now injection Eres as <-.
    - unfold SignalLoad.find_data_file in Eres.
      apply SignalLoadFacts.find_first in Eres as (before & after & E & _ & Hb).
      exists before, after. split; [exact E|].
      intros q Hq. specialize (Hb q Hq). unfold SignalLoad.path_exists in Hb.
      destruct (fs q); [discriminate | reflexivity]. }
  split; [exact Efs|]. split; [reflexivity|].
  intros df_raw Hdf row Hrow.
  apply ProcessorFacts.process_data_ok in Hdf as [_ ->].
  apply filter_In in Hrow as [Hrow Hpos].
  apply ProcessorFacts.in_process_data in Hrow as (t & _ & ->).
  now apply PipelineFacts.positive_percent_mentioned.
Qed.

Lemma overall_loader_keeps_mentioned_tags_witness :
  exists out used df,
    load_and_process_data sample_fs ["repo"]%string ["home"]%string None
    = Some out /\
    sample_fs used = Some (SignalLoad.CsvFile df) /\
    out = filter (fun row => F64.gt0 (Frequency_Pct row)) df /\
    map row_Tag_id out = ["A1"; "B2"]%string /\
    forall row, In row out ->
      0 < Frequency_Count row /\
      exists r, In r Samples.three_posts /\ Spec.mentions (row_Tag_id row) r.
Proof.
  destruct (load_and_process_data sample_fs ["repo"]%string ["home"]%string None)
    as [out|] eqn:E; [|vm_compute in E; discriminate].
  destruct (overall_loader_keeps_mentioned_tags _ _ _ _ _ E)
    as (used & df & _ & Hfs & Hout & Hrows).
  exists out, used, df.
  split; [reflexivity|]. split; [exact Hfs|]. split; [exact Hout|].
  assert (Hdf : df = map (Spec.tag_row Samples.three_posts) all_expected_tags).
  { unfold sample_fs in Hfs.
    destruct (list_eq_dec string_dec used
                ["home"; "Engagement_data_processed.csv"]%string);
      [now injection Hfs as <- | discriminate]. }
  split.
  - rewrite Hout, Hdf. reflexivity.
  - apply Hrows. rewrite Hdf. apply ProcessorFacts.process_data_eq.
    reflexivity.
Defined.

End PipelineProperties.
